(** * fensterchef: default bindings merge and X event dispatch

    A shallow embedding of [src/default_configuration.c] and [src/event.c].

    Integers are [Z] with the C conversions written out; the arrays of
    bindings are lists written by index; the strings owned by actions
    live in an explicit memory; calls into the X server and into the rest
    of the window manager are recorded in a trace. *)

From Stdlib Require Import ZArith Lia String Ascii.
From stdpp Require Import base decidable option numbers gmap strings functions list.

Local Open Scope Z_scope.

(** ** C integer conversions *)

Definition to_uint8 (z : Z) : Z := z mod 2 ^ 8.
Definition to_uint16 (z : Z) : Z := z mod 2 ^ 16.
Definition to_uint32 (z : Z) : Z := z mod 2 ^ 32.

(** Reading back a 32 bit slot as the INT16 the X protocol carries in it. *)
Definition to_int16 (z : Z) : Z := (z + 2 ^ 15) mod 2 ^ 16 - 2 ^ 15.

(** ** Constants of the X protocol ([xcb/xproto.h], [X11/keysymdef.h]) *)

Definition XCB_MOD_MASK_SHIFT : Z := 1.
Definition XCB_MOD_MASK_LOCK : Z := 2.
Definition XCB_MOD_MASK_CONTROL : Z := 4.
Definition XCB_MOD_MASK_1 : Z := 8.
Definition XCB_MOD_MASK_2 : Z := 16.
Definition XCB_MOD_MASK_3 : Z := 32.
Definition XCB_MOD_MASK_4 : Z := 64.
Definition XCB_MOD_MASK_5 : Z := 128.

Definition XK_space : Z := 0x20.
Definition XK_plus : Z := 0x2b.
Definition XK_minus : Z := 0x2d.
Definition XK_equal : Z := 0x3d.
Definition XK_a : Z := 0x61.
Definition XK_b : Z := 0x62.
Definition XK_e : Z := 0x65.
Definition XK_f : Z := 0x66.
Definition XK_h : Z := 0x68.
Definition XK_j : Z := 0x6a.
Definition XK_k : Z := 0x6b.
Definition XK_l : Z := 0x6c.
Definition XK_n : Z := 0x6e.
Definition XK_p : Z := 0x70.
Definition XK_q : Z := 0x71.
Definition XK_r : Z := 0x72.
Definition XK_s : Z := 0x73.
Definition XK_v : Z := 0x76.
Definition XK_w : Z := 0x77.
Definition XK_Return : Z := 0xff0d.
Definition XK_Left : Z := 0xff51.
Definition XK_Up : Z := 0xff52.
Definition XK_Right : Z := 0xff53.
Definition XK_Down : Z := 0xff54.

(** ** Actions and their parameters *)

(** The action codes [default_configuration.c] names. *)
Inductive action_code : Set :=
  | ACTION_RELOAD_CONFIGURATION
  | ACTION_PARENT_FRAME
  | ACTION_CHILD_FRAME
  | ACTION_ROOT_FRAME
  | ACTION_CLOSE_WINDOW
  | ACTION_MINIMIZE_WINDOW
  | ACTION_NEXT_WINDOW
  | ACTION_PREVIOUS_WINDOW
  | ACTION_REMOVE_FRAME
  | ACTION_TOGGLE_TILING
  | ACTION_TOGGLE_FULLSCREEN
  | ACTION_TOGGLE_FOCUS
  | ACTION_SPLIT_HORIZONTALLY
  | ACTION_SPLIT_VERTICALLY
  | ACTION_FOCUS_UP
  | ACTION_FOCUS_LEFT
  | ACTION_FOCUS_RIGHT
  | ACTION_FOCUS_DOWN
  | ACTION_EXCHANGE_UP
  | ACTION_EXCHANGE_LEFT
  | ACTION_EXCHANGE_RIGHT
  | ACTION_EXCHANGE_DOWN
  | ACTION_RESIZE_BY
  | ACTION_SHOW_WINDOW_LIST
  | ACTION_RUN
  | ACTION_QUIT
  | ACTION_INITIATE_RESIZE
  | ACTION_INITIATE_MOVE.

Global Instance action_code_eq_dec : EqDecision action_code.
Proof. solve_decision. Defined.

(** A [uint8_t*]: a string literal in static storage, named by its
    contents, or a block obtained from the allocator. *)
Inductive pointer : Set :=
  | string_literal (s : string)
  | allocated (a : N).

Global Instance pointer_eq_dec : EqDecision pointer.
Proof. solve_decision. Defined.

(** The parameter union of an action: left zero by [{ .code = ... }],
    or initialised through [.quad] or [.string]. *)
Inductive data_value : Set :=
  | zero_value
  | quad (q0 q1 q2 q3 : Z)
  | string_value (p : pointer).

Global Instance data_value_eq_dec : EqDecision data_value.
Proof. solve_decision. Defined.

Record Action : Set := mkAction {
  code : action_code;
  parameter : data_value
}.

Global Instance Action_eq_dec : EqDecision Action.
Proof. solve_decision. Defined.

(** Modelled from the spec: the data types of [data_type.h], which is not
    part of the sources at hand; the spec names the shapes none, numeric
    quad and owned text. *)
Inductive data_type : Set :=
  | DATA_TYPE_VOID
  | DATA_TYPE_QUAD
  | DATA_TYPE_STRING.

(** Modelled from the spec: [get_action_data_type] of [action.c], which is
    not part of the sources at hand; the shape is fixed by the code alone,
    here the shape the initialisers of the default bindings use. *)
Definition get_action_data_type (c : action_code) : data_type :=
  match c with
  | ACTION_RESIZE_BY => DATA_TYPE_QUAD
  | ACTION_RUN => DATA_TYPE_STRING
  | _ => DATA_TYPE_VOID
  end.

(** ** Memory holding the owned strings *)

Abbreviation memory := (gmap N string).

Definition load (mem : memory) (p : pointer) : option string :=
  match p with
  | string_literal s => Some s
  | allocated a => mem !! a
  end.

(** A string copy into a block the allocator has not handed out yet. *)
Definition xstrdup (s : string) (mem : memory) : pointer * memory :=
  let a := fresh (dom mem) in (allocated a, <[a := s]> mem).

(** Modelled from the spec: [duplicate_data_value] of [data_type.c], which
    is not part of the sources at hand: a copy directed by the type that
    duplicates owned text and leaves the other shapes as they are. *)
Definition duplicate_data_value (type : data_type) (value : data_value)
    (mem : memory) : data_value * memory :=
  match type, value with
  | DATA_TYPE_STRING, string_value p =>
      match load mem p with
      | Some s => let '(p', mem') := xstrdup s mem in (string_value p', mem')
      | None => (value, mem)
      end
  | _, _ => (value, mem)
  end.

(** What a parameter denotes once its pointer is followed. *)
Inductive payload : Set :=
  | payload_none
  | payload_quad (q0 q1 q2 q3 : Z)
  | payload_text (s : string).

Definition payload_of (mem : memory) (v : data_value) : option payload :=
  match v with
  | zero_value => Some payload_none
  | quad q0 q1 q2 q3 => Some (payload_quad q0 q1 q2 q3)
  | string_value p => payload_text <$> load mem p
  end.

(** ** Bindings *)

(** [struct configuration_key] *)
Record configuration_key : Set := mkKey {
  key_flags : Z;
  key_modifiers : Z;
  key_symbol : Z;
  key_actions : list Action;
  key_number_of_actions : Z
}.

(** [struct configuration_button] *)
Record configuration_button : Set := mkButton {
  button_flags : Z;
  button_modifiers : Z;
  button_index : Z;
  button_actions : list Action;
  button_number_of_actions : Z
}.

(** The two binding structures differ in the name of one field only; the
    merge below is written once over what they share. *)
Class Binding (B : Type) := {
  binding_flags : B → Z;
  binding_modifiers : B → Z;
  binding_symbol : B → Z;
  binding_actions : B → list Action;
  binding_number_of_actions : B → Z;
  make_binding : Z → Z → Z → list Action → Z → B;
  binding_eta b :
    make_binding (binding_flags b) (binding_modifiers b) (binding_symbol b)
      (binding_actions b) (binding_number_of_actions b) = b;
  binding_flags_make f m s a n : binding_flags (make_binding f m s a n) = f;
  binding_modifiers_make f m s a n :
    binding_modifiers (make_binding f m s a n) = m;
  binding_symbol_make f m s a n : binding_symbol (make_binding f m s a n) = s;
  binding_actions_make f m s a n :
    binding_actions (make_binding f m s a n) = a;
  binding_number_of_actions_make f m s a n :
    binding_number_of_actions (make_binding f m s a n) = n
}.

Global Instance key_binding : Binding configuration_key.
Proof.
  refine {| binding_flags := key_flags; binding_modifiers := key_modifiers;
            binding_symbol := key_symbol; binding_actions := key_actions;
            binding_number_of_actions := key_number_of_actions;
            make_binding := mkKey |}; try reflexivity.
  intros []; reflexivity.
Defined.

Global Instance button_binding : Binding configuration_button.
Proof.
  refine {| binding_flags := button_flags;
            binding_modifiers := button_modifiers;
            binding_symbol := button_index;
            binding_actions := button_actions;
            binding_number_of_actions := button_number_of_actions;
            make_binding := mkButton |}; try reflexivity.
  intros []; reflexivity.
Defined.

(** A trigger: (modifiers, symbol or index, flags). *)
Definition trigger : Set := Z * Z * Z.

Definition trigger_of `{Binding B} (b : B) : trigger :=
  (binding_modifiers b, binding_symbol b, binding_flags b).

(** An entry of the local [default_bindings] tables. *)
Record default_binding : Set := mkDefault {
  default_modifiers : Z;
  default_flags : Z;
  default_symbol : Z;
  default_action : Action
}.

(** ** The two-pass merge *)

Section merge.
Context {B : Type} `{Binding B}.

(** Modelled from the spec: [find_configured_key] and
    [find_configured_button] of [configuration.c], which is not part of
    the sources at hand: the first of the [number] stored bindings whose
    modifiers, symbol or index, and flags all equal the ones asked for;
    the pointer it returns is the index of that binding, [None] is
    [NULL]. *)
Definition find_configured (bindings : list B) (number : Z)
    (modifiers symbol flags : Z) : option nat :=
  fst <$> list_find (λ b, trigger_of b = (modifiers, symbol, flags))
                    (take (Z.to_nat number) bindings).

(** The modifiers a default is looked up and stored with:
    [default_bindings[i].modifiers | configuration->....modifiers],
    converted to [uint16_t]. *)
Definition effective_modifiers (base : Z) (d : default_binding) : Z :=
  to_uint16 (Z.lor (default_modifiers d) base).

Definition effective_trigger (base : Z) (d : default_binding) : trigger :=
  (effective_modifiers base d, default_symbol d, default_flags d).

(** First loop: "get the number of keys not defined yet". *)
Fixpoint count_new (defaults : list default_binding) (base : Z)
    (bindings : list B) (number : Z) (new_count : Z) : Z :=
  match defaults with
  | [] => new_count
  | d :: defaults =>
      let modifiers := effective_modifiers base d in
      match find_configured bindings number modifiers
              (default_symbol d) (default_flags d) with
      | Some _ => count_new defaults base bindings number new_count
      | None =>
          count_new defaults base bindings number (to_uint32 (new_count + 1))
      end
  end.

(** [xmemdup] of the one template action followed by
    [duplicate_data_value] on the parameter of the copy. *)
Definition duplicate_action (a : Action) (mem : memory)
    : list Action * memory :=
  let '(value, mem') :=
    duplicate_data_value (get_action_data_type (code a)) (parameter a) mem in
  ([mkAction (code a) value], mem').

(** Second loop: "add the new keys on top of the already defined keys".
    [next] is the write cursor; the stored count [number] is the one
    from before the merge all along. *)
Fixpoint add_new (defaults : list default_binding) (base : Z)
    (bindings : list B) (number : Z) (next : nat) (mem : memory)
    : list B * memory :=
  match defaults with
  | [] => (bindings, mem)
  | d :: defaults =>
      let modifiers := effective_modifiers base d in
      match find_configured bindings number modifiers
              (default_symbol d) (default_flags d) with
      | Some _ => add_new defaults base bindings number next mem
      | None =>
          let '(actions, mem') := duplicate_action (default_action d) mem in
          let b := make_binding (default_flags d) modifiers
                     (default_symbol d) actions 1 in
          add_new defaults base (<[next := b]> bindings) number (S next) mem'
      end
  end.

(** [RESIZE]: the array reallocated to [n] elements; [uninitialised]
    stands for what the allocator leaves in the slots past the old
    end. *)
Definition RESIZE (uninitialised : B) (bindings : list B) (n : Z) : list B :=
  resize (Z.to_nat n) uninitialised bindings.

(** The body shared by [merge_with_default_key_bindings] and
    [merge_with_default_button_bindings]: array, stored count and memory
    before, array, stored count and memory after. *)
Definition merge_with_default_bindings (defaults : list default_binding)
    (uninitialised : B) (base : Z) (bindings : list B) (number : Z)
    (mem : memory) : list B * Z * memory :=
  let new_count := count_new defaults base bindings number number in
  if decide (new_count = number) then (bindings, number, mem)
  else
    let bindings := RESIZE uninitialised bindings new_count in
    let '(bindings, mem) :=
      add_new defaults base bindings number (Z.to_nat number) mem in
    (bindings, new_count, mem).
End merge.

(** ** The configuration *)

(** [configuration->keyboard] *)
Record keyboard_configuration : Set := mkKeyboard {
  keyboard_modifiers : Z;
  keyboard_ignore_modifiers : Z;
  keys : list configuration_key;
  number_of_keys : Z
}.

(** [configuration->mouse] *)
Record mouse_configuration : Set := mkMouse {
  resize_tolerance : Z;
  mouse_modifiers : Z;
  mouse_ignore_modifiers : Z;
  buttons : list configuration_button;
  number_of_buttons : Z
}.

(** The parts of [struct configuration] that hold bindings. *)
Record configuration : Set := mkConfiguration {
  mouse : mouse_configuration;
  keyboard : keyboard_configuration
}.

Definition find_configured_key (c : configuration)
    (modifiers key_symbol flags : Z) : option nat :=
  find_configured (keys (keyboard c)) (number_of_keys (keyboard c))
    modifiers key_symbol flags.

Definition find_configured_button (c : configuration)
    (modifiers index flags : Z) : option nat :=
  find_configured (buttons (mouse c)) (number_of_buttons (mouse c))
    modifiers index flags.

(** The [default_bindings] of [merge_with_default_button_bindings]. *)
Definition default_button_bindings : list default_binding :=
  [ mkDefault 0 0 1 (mkAction ACTION_INITIATE_RESIZE zero_value);
    mkDefault 0 0 2 (mkAction ACTION_MINIMIZE_WINDOW zero_value);
    mkDefault 0 0 3 (mkAction ACTION_INITIATE_MOVE zero_value) ].

(** The command of the default terminal binding:
    [ -n "$TERMINAL" ] && exec "$TERMINAL" || exec xterm *)
Definition terminal_command : string :=
  let q := String "034"%char EmptyString in
  ("[ -n " +:+ q +:+ "$TERMINAL" +:+ q +:+ " ] && exec " +:+ q +:+ "$TERMINAL"
     +:+ q +:+ " || exec xterm")%string.

(** The [default_bindings] of [merge_with_default_key_bindings]. *)
Definition default_key_bindings : list default_binding :=
  let simple modifiers key c := mkDefault modifiers 0 key (mkAction c zero_value) in
  let resize modifiers key q0 q1 q2 q3 :=
    mkDefault modifiers 0 key (mkAction ACTION_RESIZE_BY (quad q0 q1 q2 q3)) in
  [ simple XCB_MOD_MASK_SHIFT XK_r ACTION_RELOAD_CONFIGURATION;
    simple 0 XK_a ACTION_PARENT_FRAME;
    simple 0 XK_b ACTION_CHILD_FRAME;
    simple XCB_MOD_MASK_SHIFT XK_a ACTION_ROOT_FRAME;
    simple 0 XK_q ACTION_CLOSE_WINDOW;
    simple 0 XK_minus ACTION_MINIMIZE_WINDOW;
    simple 0 XK_n ACTION_NEXT_WINDOW;
    simple 0 XK_p ACTION_PREVIOUS_WINDOW;
    simple 0 XK_r ACTION_REMOVE_FRAME;
    simple XCB_MOD_MASK_SHIFT XK_space ACTION_TOGGLE_TILING;
    simple 0 XK_f ACTION_TOGGLE_FULLSCREEN;
    simple 0 XK_space ACTION_TOGGLE_FOCUS;
    simple 0 XK_v ACTION_SPLIT_HORIZONTALLY;
    simple 0 XK_s ACTION_SPLIT_VERTICALLY;
    simple 0 XK_k ACTION_FOCUS_UP;
    simple 0 XK_h ACTION_FOCUS_LEFT;
    simple 0 XK_l ACTION_FOCUS_RIGHT;
    simple 0 XK_j ACTION_FOCUS_DOWN;
    simple XCB_MOD_MASK_SHIFT XK_k ACTION_EXCHANGE_UP;
    simple XCB_MOD_MASK_SHIFT XK_h ACTION_EXCHANGE_LEFT;
    simple XCB_MOD_MASK_SHIFT XK_l ACTION_EXCHANGE_RIGHT;
    simple XCB_MOD_MASK_SHIFT XK_j ACTION_EXCHANGE_DOWN;
    resize XCB_MOD_MASK_CONTROL XK_Left 20 0 0 0;
    resize XCB_MOD_MASK_CONTROL XK_Up 0 20 0 0;
    resize XCB_MOD_MASK_CONTROL XK_Right (-20) 0 0 0;
    resize XCB_MOD_MASK_CONTROL XK_Down 0 (-20) 0 0;
    resize XCB_MOD_MASK_SHIFT XK_Left 0 0 (-20) 0;
    resize XCB_MOD_MASK_SHIFT XK_Up 0 0 0 (-20);
    resize XCB_MOD_MASK_SHIFT XK_Right 0 0 20 0;
    resize XCB_MOD_MASK_SHIFT XK_Down 0 0 0 20;
    resize 0 XK_Left 20 0 (-20) 0;
    resize 0 XK_Up 0 20 0 (-20);
    resize 0 XK_Right (-20) 0 20 0;
    resize 0 XK_Down 0 (-20) 0 20;
    resize XCB_MOD_MASK_CONTROL XK_plus 10 10 10 10;
    resize XCB_MOD_MASK_CONTROL XK_minus (-10) (-10) (-10) (-10);
    resize XCB_MOD_MASK_CONTROL XK_equal 10 10 10 10;
    simple 0 XK_w ACTION_SHOW_WINDOW_LIST;
    mkDefault 0 0 XK_Return
      (mkAction ACTION_RUN (string_value (string_literal terminal_command)));
    simple (Z.lor XCB_MOD_MASK_CONTROL XCB_MOD_MASK_SHIFT) XK_e ACTION_QUIT ].

(** The two merges.  They run on the configuration and on the memory its
    owned strings live in; [uninitialised] is what [RESIZE] leaves in the
    slots it adds. *)
Definition merge_with_default_button_bindings
    (uninitialised : configuration_button)
    (c : configuration) (mem : memory) : configuration * memory :=
  let '(buttons', count, mem') :=
    merge_with_default_bindings default_button_bindings uninitialised
      (mouse_modifiers (mouse c)) (buttons (mouse c))
      (number_of_buttons (mouse c)) mem in
  (mkConfiguration
     (mkMouse (resize_tolerance (mouse c)) (mouse_modifiers (mouse c))
        (mouse_ignore_modifiers (mouse c)) buttons' count)
     (keyboard c), mem').

Definition merge_with_default_key_bindings
    (uninitialised : configuration_key)
    (c : configuration) (mem : memory) : configuration * memory :=
  let '(keys', count, mem') :=
    merge_with_default_bindings default_key_bindings uninitialised
      (keyboard_modifiers (keyboard c)) (keys (keyboard c))
      (number_of_keys (keyboard c)) mem in
  (mkConfiguration (mouse c)
     (mkKeyboard (keyboard_modifiers (keyboard c))
        (keyboard_ignore_modifiers (keyboard c)) keys' count), mem').

(** The static [default_configuration], as far as bindings go: the main
    modifiers, the ignored modifiers, and no binding. *)
Definition static_default_configuration : configuration :=
  let ignore :=
    Z.lor (Z.lor XCB_MOD_MASK_LOCK XCB_MOD_MASK_2)
          (Z.lor XCB_MOD_MASK_3 XCB_MOD_MASK_5) in
  mkConfiguration (mkMouse 8 XCB_MOD_MASK_4 ignore [] 0)
    (mkKeyboard XCB_MOD_MASK_4 ignore [] 0).

(** [load_default_configuration], between [duplicate_configuration] and
    [set_configuration], which are not part of the sources at hand: the
    button merge, then the key merge, on the copy of the static
    configuration; [mem] is the memory [duplicate_configuration] leaves,
    the result is what [set_configuration] is given. *)
Definition load_default_configuration
    (uninitialised_button : configuration_button)
    (uninitialised_key : configuration_key) (mem : memory)
    : configuration * memory :=
  let configuration := static_default_configuration in
  let '(configuration, mem) :=
    merge_with_default_button_bindings uninitialised_button configuration mem in
  merge_with_default_key_bindings uninitialised_key configuration mem.

(** ** X events ([src/event.c]) *)

(** Event codes, masks and atoms of [xcb/xproto.h]. *)
Definition XCB_KEY_PRESS : Z := 2.
Definition XCB_BUTTON_PRESS : Z := 4.
Definition XCB_BUTTON_RELEASE : Z := 5.
Definition XCB_MOTION_NOTIFY : Z := 6.
Definition XCB_DESTROY_NOTIFY : Z := 17.
Definition XCB_UNMAP_NOTIFY : Z := 18.
Definition XCB_MAP_REQUEST : Z := 20.
Definition XCB_CONFIGURE_REQUEST : Z := 23.
Definition XCB_PROPERTY_NOTIFY : Z := 28.

Definition XCB_EVENT_MASK_BUTTON_RELEASE : Z := 8.
Definition XCB_EVENT_MASK_BUTTON_MOTION : Z := 8192.
Definition XCB_GRAB_MODE_ASYNC : Z := 1.
Definition XCB_NONE : Z := 0.
Definition XCB_CURRENT_TIME : Z := 0.

Definition XCB_CONFIG_WINDOW_X : Z := 1.
Definition XCB_CONFIG_WINDOW_Y : Z := 2.
Definition XCB_CONFIG_WINDOW_WIDTH : Z := 4.
Definition XCB_CONFIG_WINDOW_HEIGHT : Z := 8.
Definition XCB_CONFIG_WINDOW_BORDER_WIDTH : Z := 16.

Definition XCB_ATOM_WM_HINTS : Z := 35.
Definition XCB_ATOM_WM_NAME : Z := 39.
Definition XCB_ATOM_WM_SIZE_HINTS : Z := 41.

(** Modelled from the spec: the macro [XCB_CONFIG_SIZE] of a header that
    is not part of the sources at hand; the spec has the configure call
    carry position and size, and [handle_configure_request] puts x, y,
    width and height in front of the border width. *)
Definition XCB_CONFIG_SIZE : Z :=
  Z.lor (Z.lor XCB_CONFIG_WINDOW_X XCB_CONFIG_WINDOW_Y)
        (Z.lor XCB_CONFIG_WINDOW_WIDTH XCB_CONFIG_WINDOW_HEIGHT).

(** Modelled from the spec: [ACTION_NULL] of the [action_t] codes that
    [get_action_bind] returns, "no match". *)
Definition ACTION_NULL : Z := 0.

(** Modelled from the spec: the display states of a window, whose
    declaration is not part of the sources at hand; the handlers name the
    hidden and the popup state, the other two stand for the rest. *)
Inductive window_state : Set :=
  | WINDOW_STATE_HIDDEN
  | WINDOW_STATE_SHOWN
  | WINDOW_STATE_POPUP
  | WINDOW_STATE_FULLSCREEN.

Global Instance window_state_eq_dec : EqDecision window_state.
Proof. solve_decision. Defined.

(** What the handlers read of the [Window] of the registry:
    [window->state.current]. *)
Record Window : Set := mkWindow {
  window_xcb_window : Z;
  state_current : window_state
}.

(** [Position]; the fields are [x] and [y] in the source. *)
Record Position : Set := mkPosition {
  position_x : Z;
  position_y : Z
}.

(** The fields the handlers read of each event structure. *)
Record xcb_map_request_event_t : Set := mkMapRequest {
  map_request_window : Z
}.

(** Button press and button release share one structure. *)
Record xcb_button_press_event_t : Set := mkButtonPress {
  button_press_root : Z;
  button_press_child : Z;
  button_press_root_x : Z;
  button_press_root_y : Z
}.

Record xcb_motion_notify_event_t : Set := mkMotionNotify {
  motion_notify_root_x : Z;
  motion_notify_root_y : Z
}.

Record xcb_property_notify_event_t : Set := mkPropertyNotify {
  property_notify_window : Z;
  property_notify_atom : Z
}.

Record xcb_unmap_notify_event_t : Set := mkUnmapNotify {
  unmap_notify_window : Z
}.

Record xcb_destroy_notify_event_t : Set := mkDestroyNotify {
  destroy_notify_window : Z
}.

Record xcb_key_press_event_t : Set := mkKeyPress {
  key_press_detail : Z;
  key_press_state : Z
}.

Record xcb_configure_request_event_t : Set := mkConfigureRequest {
  configure_request_window : Z;
  configure_request_x : Z;
  configure_request_y : Z;
  configure_request_width : Z;
  configure_request_height : Z;
  configure_request_border_width : Z
}.

(** [xcb_generic_event_t]: the response type and, for each cast
    [handle_event] makes, what the event reads as through it. *)
Record xcb_generic_event_t : Set := mkEvent {
  response_type : Z;
  as_map_request : xcb_map_request_event_t;
  as_button_press : xcb_button_press_event_t;
  as_motion_notify : xcb_motion_notify_event_t;
  as_button_release : xcb_button_press_event_t;
  as_property_notify : xcb_property_notify_event_t;
  as_unmap_notify : xcb_unmap_notify_event_t;
  as_destroy_notify : xcb_destroy_notify_event_t;
  as_configure_request : xcb_configure_request_event_t;
  as_key_press : xcb_key_press_event_t
}.

Record xcb_get_geometry_reply_t : Set := mkGeometry {
  geometry_x : Z;
  geometry_y : Z;
  geometry_width : Z;
  geometry_height : Z
}.

(** What is asked of the X server and of the rest of the window manager
    while one event is handled, in the order it is asked. *)
Inductive call : Set :=
  | create_window (xcb_window : Z)
  | set_focus_window (xcb_window : Z)
  | update_window_name (w : Window)
  | update_window_size_hints (w : Window)
  | update_window_wm_hints (w : Window)
  | set_window_state (w : Window) (s : window_state) (force : Z)
  | destroy_window (w : Window)
  | query_monitors
  | merge_monitors
  | do_action (action : Z)
  | LOG (text : string) (value : Z)
  | log_event (response_type : Z)
  | xcb_get_geometry (drawable : Z)
  | xcb_grab_pointer (owner_events grab_window event_mask pointer_mode
                      keyboard_mode confine_to cursor time : Z)
  | xcb_ungrab_pointer (time : Z)
  | xcb_configure_window (window value_mask : Z) (value_list : list Z).

(** The answers the handlers get while one event is handled. *)
Record environment : Type := mkEnvironment {
  get_window_of_xcb_window : Z → option Window;
  xcb_get_geometry_reply : Z → option xcb_get_geometry_reply_t;
  get_action_bind : xcb_key_press_event_t → Z;
  predict_window_state : Window → window_state
}.

(** The static [selected_window]. *)
Record selected_window_t : Set := mkSelected {
  start : Position;
  old_mouse : Position;
  xcb_window : Z
}.

(** The globals the handlers work on: [randr_event_base],
    [selected_window], the scratch array [g_values], and the pointer grab
    this client holds at the server as its own requests leave it
    ([xcb_grab_pointer] takes it, [xcb_ungrab_pointer] gives it up); the
    latter is what the spec calls the grab being active. *)
Record globals : Type := mkGlobals {
  randr_event_base : Z;
  selected_window : selected_window_t;
  g_values : nat → Z;
  pointer_grab : bool
}.

Definition active (g : globals) : bool := pointer_grab g.

(** *** A monad for the handlers: read the answers, update the globals,
    append to the trace of calls. *)
Definition handler (A : Type) : Type :=
  environment → globals → A * globals * list call.

Global Instance handler_ret : MRet handler := λ A a _ g, (a, g, []).

Global Instance handler_bind : MBind handler := λ A B f m env g,
  let '(a, g1, t1) := m env g in
  let '(b, g2, t2) := f a env g1 in
  (b, g2, t1 ++ t2).

Definition ask : handler environment := λ env g, (env, g, []).
Definition get : handler globals := λ _ g, (g, g, []).
Definition put (g : globals) : handler unit := λ _ _, ((), g, []).
Definition emit (c : call) : handler unit := λ _ g, ((), g, [c]).

Definition run {A} (m : handler A) (env : environment) (g : globals)
    : globals * list call :=
  let '(_, g', t) := m env g in (g', t).

Definition set_selected_window (s : selected_window_t) : handler unit :=
  g ← get;
  put (mkGlobals (randr_event_base g) s (g_values g) (pointer_grab g)).

Definition set_old_mouse (p : Position) : handler unit :=
  g ← get;
  set_selected_window
    (mkSelected (start (selected_window g)) p (xcb_window (selected_window g))).

(** [g_values[i] = v], the value converted to [uint32_t]. *)
Definition set_g_values (i : nat) (v : Z) : handler unit :=
  g ← get;
  put (mkGlobals (randr_event_base g) (selected_window g)
         (<[i := to_uint32 v]> (g_values g)) (pointer_grab g)).

Definition set_pointer_grab (b : bool) : handler unit :=
  g ← get;
  put (mkGlobals (randr_event_base g) (selected_window g) (g_values g) b).

(** The number of bits set in a 16 bit value mask. *)
Definition popcount (mask : Z) : nat :=
  length (filter (λ i, Z.testbit mask i = true) (seqZ 0 16)).

(** The library call [xcb_configure_window]: the request carries as many
    values of the list as the mask has bits. *)
Definition do_xcb_configure_window (window value_mask : Z)
    (value_list : nat → Z) : handler unit :=
  emit (xcb_configure_window window value_mask
          (value_list <$> seq 0 (popcount value_mask))).

Definition do_xcb_grab_pointer (owner_events grab_window event_mask
    pointer_mode keyboard_mode confine_to cursor time : Z) : handler unit :=
  emit (xcb_grab_pointer owner_events grab_window event_mask pointer_mode
          keyboard_mode confine_to cursor time);;
  set_pointer_grab true.

Definition do_xcb_ungrab_pointer (time : Z) : handler unit :=
  emit (xcb_ungrab_pointer time);;
  set_pointer_grab false.

(** [xcb_get_geometry_reply(g_dpy, xcb_get_geometry(g_dpy, drawable), NULL)] *)
Definition get_geometry (drawable : Z)
    : handler (option xcb_get_geometry_reply_t) :=
  emit (xcb_get_geometry drawable);;
  env ← ask;
  mret (xcb_get_geometry_reply env drawable).

(** The value the X server reads for one bit of a configure request: the
    values come in the order of the bits of the mask. *)
Definition configured (value_mask : Z) (value_list : list Z) (bit : Z)
    : option Z :=
  if decide (Z.land value_mask bit = 0) then None
  else value_list !! popcount (Z.land value_mask (bit - 1)).

(** *** The handlers *)

Definition handle_map_request (event : xcb_map_request_event_t)
    : handler unit :=
  env ← ask;
  match get_window_of_xcb_window env (map_request_window event) with
  | Some _ => mret ()
  | None =>
      emit (create_window (map_request_window event));;
      emit (set_focus_window (map_request_window event))
  end.

Definition handle_button_press (event : xcb_button_press_event_t)
    : handler unit :=
  env ← ask;
  match get_window_of_xcb_window env (button_press_child event) with
  | None => mret ()
  | Some window =>
      if decide (state_current window ≠ WINDOW_STATE_POPUP) then mret ()
      else
        geometry ← get_geometry (button_press_child event);
        match geometry with
        | None => mret ()
        | Some _ =>
            set_selected_window
              (mkSelected
                 (mkPosition (button_press_root_y event)
                    (button_press_root_y event))
                 (mkPosition (button_press_root_x event)
                    (button_press_root_y event))
                 (button_press_child event));;
            do_xcb_grab_pointer 0 (button_press_root event)
              (Z.lor XCB_EVENT_MASK_BUTTON_RELEASE XCB_EVENT_MASK_BUTTON_MOTION)
              XCB_GRAB_MODE_ASYNC XCB_GRAB_MODE_ASYNC
              (button_press_root event) XCB_NONE XCB_CURRENT_TIME
        end
  end.

Definition handle_motion_notify (event : xcb_motion_notify_event_t)
    : handler unit :=
  g ← get;
  geometry ← get_geometry (xcb_window (selected_window g));
  match geometry with
  | None => do_xcb_ungrab_pointer XCB_CURRENT_TIME
  | Some geometry =>
      set_g_values 0
        (geometry_x geometry
         + (motion_notify_root_x event
            - position_x (old_mouse (selected_window g))));;
      set_g_values 1
        (geometry_y geometry
         + (motion_notify_root_y event
            - position_y (old_mouse (selected_window g))));;
      set_old_mouse
        (mkPosition (motion_notify_root_x event) (motion_notify_root_y event));;
      g ← get;
      do_xcb_configure_window (xcb_window (selected_window g))
        (Z.lor XCB_CONFIG_WINDOW_X XCB_CONFIG_WINDOW_Y) (g_values g)
  end.

Definition handle_button_release (event : xcb_button_press_event_t)
    : handler unit :=
  do_xcb_ungrab_pointer XCB_CURRENT_TIME.

Definition handle_property_notify (event : xcb_property_notify_event_t)
    : handler unit :=
  env ← ask;
  match get_window_of_xcb_window env (property_notify_window event) with
  | None =>
      emit (LOG "property change of unmanaged window" (property_notify_window event))
  | Some window =>
      (if decide (property_notify_atom event = XCB_ATOM_WM_NAME) then
         emit (update_window_name window)
       else if decide (property_notify_atom event = XCB_ATOM_WM_SIZE_HINTS) then
         emit (update_window_size_hints window)
       else if decide (property_notify_atom event = XCB_ATOM_WM_HINTS) then
         emit (update_window_wm_hints window)
       else mret ());;
      emit (set_window_state window (predict_window_state env window) 0)
  end.

Definition handle_unmap_notify (event : xcb_unmap_notify_event_t)
    : handler unit :=
  env ← ask;
  match get_window_of_xcb_window env (unmap_notify_window event) with
  | Some window => emit (set_window_state window WINDOW_STATE_HIDDEN 1)
  | None => mret ()
  end.

Definition handle_destroy_notify (event : xcb_destroy_notify_event_t)
    : handler unit :=
  env ← ask;
  match get_window_of_xcb_window env (destroy_notify_window event) with
  | Some window => emit (destroy_window window)
  | None => mret ()
  end.

Definition handle_key_press (event : xcb_key_press_event_t) : handler unit :=
  env ← ask;
  let action := get_action_bind env event in
  if decide (action ≠ ACTION_NULL) then
    emit (LOG "performing action" action);;
    emit (do_action action)
  else emit (LOG "trash key" (key_press_detail event)).

Definition handle_configure_request (event : xcb_configure_request_event_t)
    : handler unit :=
  env ← ask;
  match get_window_of_xcb_window env (configure_request_window event) with
  | Some _ => mret ()
  | None =>
      set_g_values 0 (configure_request_x event);;
      set_g_values 1 (configure_request_y event);;
      set_g_values 2 (configure_request_width event);;
      set_g_values 3 (configure_request_height event);;
      set_g_values 4 (configure_request_border_width event);;
      g ← get;
      do_xcb_configure_window (configure_request_window event)
        (Z.lor XCB_CONFIG_SIZE XCB_CONFIG_WINDOW_BORDER_WIDTH) (g_values g)
  end.

Definition handle_screen_change (event : xcb_generic_event_t) : handler unit :=
  emit query_monitors;;
  emit merge_monitors.

(** [type = (event->response_type & ~0x80)], converted to [uint8_t]. *)
Definition event_type (event : xcb_generic_event_t) : Z :=
  to_uint8 (Z.land (response_type event) (Z.lnot 0x80)).

Definition handle_event (event : xcb_generic_event_t) : handler unit :=
  g ← get;
  let type := event_type event in
  if decide (type >= randr_event_base g) then handle_screen_change event
  else
    emit (log_event (response_type event));;
    if decide (type = XCB_MAP_REQUEST) then
      handle_map_request (as_map_request event)
    else if decide (type = XCB_BUTTON_PRESS) then
      handle_button_press (as_button_press event)
    else if decide (type = XCB_MOTION_NOTIFY) then
      handle_motion_notify (as_motion_notify event)
    else if decide (type = XCB_BUTTON_RELEASE) then
      handle_button_release (as_button_release event)
    else if decide (type = XCB_PROPERTY_NOTIFY) then
      handle_property_notify (as_property_notify event)
    else if decide (type = XCB_UNMAP_NOTIFY) then
      handle_unmap_notify (as_unmap_notify event)
    else if decide (type = XCB_DESTROY_NOTIFY) then
      handle_destroy_notify (as_destroy_notify event)
    else if decide (type = XCB_CONFIGURE_REQUEST) then
      handle_configure_request (as_configure_request event)
    else if decide (type = XCB_KEY_PRESS) then
      handle_key_press (as_key_press event)
    else mret ().

(** ** Vocabulary of the statements about the merge *)

Section merge_vocabulary.
Context {B : Type} `{Binding B}.

(** A default is absent from the table when its lookup returns [NULL]. *)
Definition absent (base : Z) (bindings : list B) (number : Z)
    (d : default_binding) : Prop :=
  find_configured bindings number (effective_modifiers base d)
    (default_symbol d) (default_flags d) = None.

Global Instance absent_dec base bindings number d :
  Decision (absent base bindings number d).
Proof. unfold absent. apply _. Defined.

(** The bindings the second loop writes for the defaults [ds], one after
    the other, and the memory their copies leave. *)
Fixpoint copies (base : Z) (ds : list default_binding) (mem : memory)
    : list B * memory :=
  match ds with
  | [] => ([], mem)
  | d :: ds =>
      let '(actions, mem1) := duplicate_action (default_action d) mem in
      let b := make_binding (default_flags d) (effective_modifiers base d)
                 (default_symbol d) actions 1 in
      let '(bs, mem2) := copies base ds mem1 in
      (b :: bs, mem2)
  end.

(** The stored count is the length of the array, and the count after the
    merge still fits [uint32_t]. *)
Definition well_formed (defaults : list default_binding)
    (bindings : list B) (number : Z) : Prop :=
  number = Z.of_nat (length bindings)
  ∧ number + Z.of_nat (length defaults) < 2 ^ 32.

(** How many bindings of a table have the trigger [t]. *)
Definition occurrences (t : trigger) (bindings : list B) : nat :=
  length (filter (λ b, trigger_of b = t) bindings).

(** [b] is the copy of the default [d]: its effective trigger, one action
    with the code of the template whose parameter denotes in the memory
    after what the template's denotes in the memory before, text being
    held in a block that was not allocated before. *)
Definition copy_of (base : Z) (mem mem' : memory) (d : default_binding)
    (b : B) : Prop :=
  trigger_of b = effective_trigger base d
  ∧ binding_number_of_actions b = 1
  ∧ ∃ a, binding_actions b = [a]
      ∧ code a = code (default_action d)
      ∧ payload_of mem' (parameter a)
        = payload_of mem (parameter (default_action d))
      ∧ ∀ p, parameter a = string_value p →
          get_action_data_type (code a) = DATA_TYPE_STRING →
          ∃ addr, p = allocated addr ∧ addr ∉ dom mem.

(** No two bindings of a table have the same trigger. *)
Definition unique_triggers (bindings : list B) : Prop :=
  NoDup (trigger_of <$> bindings).

(** The template of a default denotes something in [mem]: its text, if
    any, is a literal or an allocated block. *)
Definition template_valid (mem : memory) (d : default_binding) : Prop :=
  is_Some (payload_of mem (parameter (default_action d))).

(** The defaults of [ds] that are absent from a table, in declaration
    order. *)
Definition missing (ds : list default_binding) (base : Z)
    (bindings : list B) (number : Z) : list default_binding :=
  filter (absent base bindings number) ds.

(** Non-destructiveness: every slot of the old array holds the same
    binding in the new one; whatever a parameter denoted in the old memory
    it denotes in the new; and for every old binding, the lookup of its
    trigger returns the same slot before and after, a slot of the old
    array, and the trigger occurs as often as before. *)
Definition preserved (old : list B) (number : Z) (mem : memory)
    (new : list B) (number' : Z) (mem' : memory) : Prop :=
  (∀ i b, old !! i = Some b → new !! i = Some b)
  ∧ (∀ v x, payload_of mem v = Some x → payload_of mem' v = Some x)
  ∧ ∀ b, b ∈ old →
      (∃ i b0,
          find_configured old number (binding_modifiers b)
            (binding_symbol b) (binding_flags b) = Some i
          ∧ find_configured new number' (binding_modifiers b)
              (binding_symbol b) (binding_flags b) = Some i
          ∧ old !! i = Some b0 ∧ new !! i = Some b0)
      ∧ occurrences (trigger_of b) new = occurrences (trigger_of b) old.

(** Completeness: the new array is the old one followed by one copy per
    absent default, in declaration order; the count grows by their
    number; and the effective trigger of an absent default occurs in the
    new array as often as absent defaults have it. *)
Definition completed (ds : list default_binding) (base : Z)
    (old : list B) (number : Z) (mem : memory)
    (new : list B) (number' : Z) (mem' : memory) : Prop :=
  ∃ news,
    new = old ++ news
    ∧ number' = number + Z.of_nat (length (missing ds base old number))
    ∧ Forall2 (copy_of base mem mem') (missing ds base old number) news
    ∧ ∀ d, d ∈ missing ds base old number →
        occurrences (effective_trigger base d) new
        = length (filter (λ d', effective_trigger base d'
                                = effective_trigger base d)
                    (missing ds base old number)).

(** Every absent default has exactly one binding with its effective
    trigger in the new array. *)
Definition exactly_one_each (ds : list default_binding) (base : Z)
    (old : list B) (number : Z) (new : list B) : Prop :=
  ∀ d, d ∈ missing ds base old number →
    occurrences (effective_trigger base d) new = 1%nat.

(** The second loop started on the old array with anything written behind
    it, and with the stored count of the old array, appends the copies of
    the defaults that are absent from the old array: what has been
    written behind the old end has no part in what is appended. *)
Definition second_loop_reads_old (ds : list default_binding) (base : Z)
    (old : list B) (number : Z) : Prop :=
  ∀ written rest mem,
    (length (missing ds base old number) ≤ length rest)%nat →
    add_new ds base (old ++ written ++ rest) number
      (length old + length written) mem
    = (old ++ written ++ (copies base (missing ds base old number) mem).1
         ++ drop (length (missing ds base old number)) rest,
       (copies base (missing ds base old number) mem).2).

(** Two defaults with one effective trigger that is absent from the old
    table are both appended: two slots past the old end hold bindings
    with that trigger, the earlier one the copy of the earlier default. *)
Definition both_appended (ds : list default_binding) (base : Z)
    (old : list B) (number : Z) (new : list B) : Prop :=
  ∀ i j d1 d2, (i < j)%nat → ds !! i = Some d1 → ds !! j = Some d2 →
    effective_trigger base d1 = effective_trigger base d2 →
    absent base old number d1 →
    ∃ p q b1 b2, (length old ≤ p < q)%nat
      ∧ new !! p = Some b1 ∧ new !! q = Some b2
      ∧ trigger_of b1 = effective_trigger base d1
      ∧ trigger_of b2 = effective_trigger base d1
      ∧ code <$> binding_actions b1 = [code (default_action d1)]
      ∧ code <$> binding_actions b2 = [code (default_action d2)].
End merge_vocabulary.

(** The trigger a default is declared with, before the base modifiers are
    combined in. *)
Definition raw_trigger (d : default_binding) : trigger :=
  (default_modifiers d, default_symbol d, default_flags d).

(** The stored counts of a configuration are the lengths of its arrays,
    and leave room for all defaults. *)
Definition key_table_ok (c : configuration) : Prop :=
  well_formed default_key_bindings (keys (keyboard c))
    (number_of_keys (keyboard c)).

Definition button_table_ok (c : configuration) : Prop :=
  well_formed default_button_bindings (buttons (mouse c))
    (number_of_buttons (mouse c)).

(** The key and button tables a merge leaves. *)
Definition merged_keys (junk : configuration_key) (c : configuration)
    (mem : memory) : keyboard_configuration :=
  keyboard (merge_with_default_key_bindings junk c mem).1.

Definition merged_buttons (junk : configuration_button) (c : configuration)
    (mem : memory) : mouse_configuration :=
  mouse (merge_with_default_button_bindings junk c mem).1.

(** *** Configurations the statements are tried on *)

(** The static [default_configuration], as far as bindings go. *)
Definition default_configuration : configuration :=
  let ignore :=
    Z.lor (Z.lor XCB_MOD_MASK_LOCK XCB_MOD_MASK_2)
          (Z.lor XCB_MOD_MASK_3 XCB_MOD_MASK_5) in
  mkConfiguration (mkMouse 8 XCB_MOD_MASK_4 ignore [] 0)
    (mkKeyboard XCB_MOD_MASK_4 ignore [] 0).

(** The same with Shift as the main modifier of the keyboard. *)
Definition shift_configuration : configuration :=
  mkConfiguration (mouse default_configuration)
    (mkKeyboard XCB_MOD_MASK_SHIFT
       (keyboard_ignore_modifiers (keyboard default_configuration)) [] 0).

(** A user who has bound Mod4+q to a command of their own and Mod4 with
    the first button to moving a window; the text of the command is the
    block 5 of [user_memory]. *)
Definition user_configuration : configuration :=
  mkConfiguration
    (mkMouse 8 XCB_MOD_MASK_4
       (mouse_ignore_modifiers (mouse default_configuration))
       [mkButton 0 XCB_MOD_MASK_4 1
          [mkAction ACTION_INITIATE_MOVE zero_value] 1] 1)
    (mkKeyboard XCB_MOD_MASK_4
       (keyboard_ignore_modifiers (keyboard default_configuration))
       [mkKey 0 XCB_MOD_MASK_4 XK_q
          [mkAction ACTION_RUN (string_value (allocated 5))] 1] 1).

Definition user_memory : memory := {[ 5%N := "firefox"%string ]}.

(** Two of the key defaults: Shift+r reloads the configuration, r alone
    removes the current frame. *)
Definition reload_default : default_binding :=
  mkDefault XCB_MOD_MASK_SHIFT 0 XK_r
    (mkAction ACTION_RELOAD_CONFIGURATION zero_value).

Definition remove_frame_default : default_binding :=
  mkDefault 0 0 XK_r (mkAction ACTION_REMOVE_FRAME zero_value).

Definition blank_key : configuration_key := mkKey 0 0 0 [] 0.
Definition blank_button : configuration_button := mkButton 0 0 0 [] 0.

(** ** Vocabulary of the statements about the events *)

(** The event codes [handle_event] has a case for. *)
Definition handled_codes : list Z :=
  [ XCB_MAP_REQUEST; XCB_BUTTON_PRESS; XCB_MOTION_NOTIFY; XCB_BUTTON_RELEASE;
    XCB_PROPERTY_NOTIFY; XCB_UNMAP_NOTIFY; XCB_DESTROY_NOTIFY;
    XCB_CONFIGURE_REQUEST; XCB_KEY_PRESS ].

Definition is_grab_pointer (c : call) : bool :=
  match c with
  | xcb_grab_pointer _ _ _ _ _ _ _ _ => true
  | _ => false
  end.

Definition is_configure_window (c : call) : bool :=
  match c with
  | xcb_configure_window _ _ _ => true
  | _ => false
  end.

(** The window [w] is tracked, in the popup state, and the server answers
    the query for its geometry. *)
Definition popup_with_geometry (env : environment) (w : Z) : Prop :=
  ∃ window geometry,
    get_window_of_xcb_window env w = Some window
    ∧ state_current window = WINDOW_STATE_POPUP
    ∧ xcb_get_geometry_reply env w = Some geometry.

Global Instance popup_with_geometry_dec env w :
  Decision (popup_with_geometry env w).
Proof.
  unfold popup_with_geometry.
  destruct (get_window_of_xcb_window env w) as [window|] eqn:Hwindow.
  - destruct (decide (state_current window = WINDOW_STATE_POPUP)) as [Hp|Hp].
    + destruct (xcb_get_geometry_reply env w) as [geometry|] eqn:Hreply.
      * left. by exists window, geometry.
      * right. by intros (? & ? & _ & _ & ?).
    + right. intros (? & ? & ? & ? & _). congruence.
  - right. by intros (? & ? & ? & _).
Defined.

(** The fields of a configure request are in the ranges of their C types:
    [int16_t] for the position, [uint16_t] for the size and the border. *)
Definition configure_request_in_range (event : xcb_configure_request_event_t)
    : Prop :=
  (- 2 ^ 15 ≤ configure_request_x event < 2 ^ 15)
  ∧ (- 2 ^ 15 ≤ configure_request_y event < 2 ^ 15)
  ∧ (0 ≤ configure_request_width event < 2 ^ 16)
  ∧ (0 ≤ configure_request_height event < 2 ^ 16)
  ∧ (0 ≤ configure_request_border_width event < 2 ^ 16).

(** *** Events and states the statements are tried on *)

(** The window 7 is a popup at (10, 20), the window 8 is tracked and
    shown, no other window is tracked or has a geometry. *)
Definition popup_environment : environment :=
  mkEnvironment
    (λ w, if decide (w = 7) then Some (mkWindow 7 WINDOW_STATE_POPUP)
          else if decide (w = 8) then Some (mkWindow 8 WINDOW_STATE_SHOWN)
          else None)
    (λ w, if decide (w = 7) then Some (mkGeometry 10 20 300 200)
          else if decide (w = 8) then Some (mkGeometry 0 0 640 480)
          else None)
    (λ _, ACTION_NULL)
    (λ w, state_current w).

(** No grab, nothing selected yet, the extension events start at [base]. *)
Definition idle_globals (base : Z) : globals :=
  mkGlobals base (mkSelected (mkPosition 0 0) (mkPosition 0 0) 0) (λ _, 0)
    false.

(** A grab on the window 7 that started with the pointer at (100, 200). *)
Definition grabbed_globals : globals :=
  mkGlobals 89
    (mkSelected (mkPosition 200 200) (mkPosition 100 200) 7) (λ _, 0) true.

(** The same after the button was released. *)
Definition released_globals : globals :=
  mkGlobals 89
    (mkSelected (mkPosition 200 200) (mkPosition 100 200) 7) (λ _, 0) false.

(** An event with the response type [type], a pointer at
    ([root_x], [root_y]) over the window [w] of the root window 1. *)
Definition pointer_event (type w root_x root_y : Z) : xcb_generic_event_t :=
  mkEvent type (mkMapRequest w) (mkButtonPress 1 w root_x root_y)
    (mkMotionNotify root_x root_y) (mkButtonPress 1 w root_x root_y)
    (mkPropertyNotify w XCB_ATOM_WM_NAME) (mkUnmapNotify w)
    (mkDestroyNotify w) (mkConfigureRequest w root_x root_y 0 0 0)
    (mkKeyPress 0 0).

(** ** Vocabulary of further statements *)

Global Instance data_type_eq_dec : EqDecision data_type.
Proof. solve_decision. Defined.

(** The template of a default holds no text: copying it allocates
    nothing. *)
Definition no_text (d : default_binding) : Prop :=
  get_action_data_type (code (default_action d)) ≠ DATA_TYPE_STRING.

Global Instance no_text_dec d : Decision (no_text d).
Proof. unfold no_text. apply _. Defined.

(** The one key default whose template holds text: Return runs the
    terminal. *)
Definition terminal_default : default_binding :=
  mkDefault 0 0 XK_Return
    (mkAction ACTION_RUN (string_value (string_literal terminal_command))).

Section retrieval.
Context {B : Type} `{Binding B}.

(** Every default of [ds] is found in the new table, under its effective
    trigger.  A default that was not absent is found in the slot it was
    found in before, with the binding that was there.  An absent default
    is found past the old end, in the slot of the first absent default
    that has its effective trigger, and the binding there has the code of
    that first default. *)
Definition retrievable (ds : list default_binding) (base : Z)
    (old : list B) (number : Z) (new : list B) (number' : Z) : Prop :=
  ∀ d, d ∈ ds →
    ∃ i b,
      find_configured new number' (effective_modifiers base d)
        (default_symbol d) (default_flags d) = Some i
      ∧ new !! i = Some b
      ∧ trigger_of b = effective_trigger base d
      ∧ (¬ absent base old number d →
         old !! i = Some b
         ∧ find_configured old number (effective_modifiers base d)
             (default_symbol d) (default_flags d) = Some i)
      ∧ (absent base old number d →
         ∃ p d0,
           i = (length old + p)%nat
           ∧ missing ds base old number !! p = Some d0
           ∧ effective_trigger base d0 = effective_trigger base d
           ∧ code <$> binding_actions b = [code (default_action d0)]
           ∧ ∀ q d', (q < p)%nat →
               missing ds base old number !! q = Some d' →
               effective_trigger base d' ≠ effective_trigger base d).
End retrieval.

Definition is_ungrab_pointer (c : call) : bool :=
  match c with
  | xcb_ungrab_pointer _ => true
  | _ => false
  end.

Definition is_do_action (c : call) : bool :=
  match c with
  | do_action _ => true
  | _ => false
  end.

Definition is_create_window (c : call) : bool :=
  match c with
  | create_window _ => true
  | _ => false
  end.

Definition is_destroy_window (c : call) : bool :=
  match c with
  | destroy_window _ => true
  | _ => false
  end.

(** The calls that only write to the log. *)
Definition is_log (c : call) : bool :=
  match c with
  | LOG _ _ | log_event _ => true
  | _ => false
  end.

(** The handler [handle_event] runs for an event below the extension
    base: the cases of its [switch]. *)
Definition core_handler (event : xcb_generic_event_t) : handler unit :=
  let type := event_type event in
  if decide (type = XCB_MAP_REQUEST) then
    handle_map_request (as_map_request event)
  else if decide (type = XCB_BUTTON_PRESS) then
    handle_button_press (as_button_press event)
  else if decide (type = XCB_MOTION_NOTIFY) then
    handle_motion_notify (as_motion_notify event)
  else if decide (type = XCB_BUTTON_RELEASE) then
    handle_button_release (as_button_release event)
  else if decide (type = XCB_PROPERTY_NOTIFY) then
    handle_property_notify (as_property_notify event)
  else if decide (type = XCB_UNMAP_NOTIFY) then
    handle_unmap_notify (as_unmap_notify event)
  else if decide (type = XCB_DESTROY_NOTIFY) then
    handle_destroy_notify (as_destroy_notify event)
  else if decide (type = XCB_CONFIGURE_REQUEST) then
    handle_configure_request (as_configure_request event)
  else if decide (type = XCB_KEY_PRESS) then
    handle_key_press (as_key_press event)
  else mret ().

(** Unfolds a run of a handler down to the answers it depends on. *)
Ltac unfold_handlers :=
  unfold run, core_handler, handle_event, handle_screen_change,
    handle_map_request, handle_button_press, handle_motion_notify,
    handle_button_release, handle_property_notify, handle_unmap_notify,
    handle_destroy_notify, handle_key_press, handle_configure_request,
    get_geometry, do_xcb_configure_window, do_xcb_grab_pointer,
    do_xcb_ungrab_pointer, set_g_values, set_old_mouse, set_selected_window,
    set_pointer_grab;
  cbv [mbind handler_bind mret handler_ret get ask emit put].

(** The event as the server marks it when another client has sent it:
    the bit 0x80 of the response type is set. *)
Definition sent (event : xcb_generic_event_t) : xcb_generic_event_t :=
  mkEvent (Z.lor (response_type event) 0x80) (as_map_request event)
    (as_button_press event) (as_motion_notify event) (as_button_release event)
    (as_property_notify event) (as_unmap_notify event)
    (as_destroy_notify event) (as_configure_request event)
    (as_key_press event).

(** The events of a list handled one after the other, each with the
    answers that are given while it is handled: the globals at the end
    and the calls in the order they were made. *)
Fixpoint handle_events (events : list (environment * xcb_generic_event_t))
    (g : globals) : globals * list call :=
  match events with
  | [] => (g, [])
  | (env, event) :: events =>
      let '(g1, calls1) := run (handle_event event) env g in
      let '(g2, calls2) := handle_events events g1 in
      (g2, calls1 ++ calls2)
  end.

(** The requests that change something at the X server. *)
Definition is_request (c : call) : bool :=
  is_grab_pointer c || is_ungrab_pointer c || is_configure_window c.

(** The closed forms of the runs of the handlers. *)
Create Rewrite HintDb run_handlers.

(** Splits a goal along [cases], the ten alternatives for the type of an
    event: one for each case of the switch of [handle_event], one for
    the types it has no case for. *)
Ltac core_cases_of cases :=
  destruct cases
    as [[Ht ->]|[[Ht ->]|[[Ht ->]|[[Ht ->]|[[Ht ->]|[[Ht ->]|[[Ht ->]|
        [[Ht ->]|[[Ht ->]|[Ht ->]]]]]]]]]].

(** The same, with each run replaced by its closed form. *)
Ltac core_runs_of cases :=
  core_cases_of cases; autorewrite with run_handlers.

(** Splits a goal along the answers a run depends on. *)
Ltac split_answers :=
  repeat (first [case_decide|case_match]); cbn [fst snd app]; simplify_eq.

(** Decides whether a call is among the calls of a run. *)
Ltac solve_calls :=
  split_answers; rewrite ?elem_of_cons, ?elem_of_nil;
  intuition (simplify_eq; solve [done|lia]).

(** Decides whether a request is among the calls of a run. *)
Ltac solve_requests :=
  split_answers;
  cbn [existsb filter is_grab_pointer is_ungrab_pointer is_configure_window
       is_request orb length];
  rewrite ?is_Some_alt;
  intuition (simplify_eq; solve [done|lia]).

(** ** Facts about the two-pass merge *)

Section merge_facts.
Context {B : Type} `{Binding B}.
Implicit Types (old written rest : list B) (ds : list default_binding).
Implicit Types (mem : memory) (d : default_binding).

Lemma find_configured_old old rest number m s f :
  number = Z.of_nat (length old) →
  find_configured (old ++ rest) number m s f = find_configured old number m s f.
Proof.
  intros ->. unfold find_configured.
  rewrite Nat2Z.id, take_app_length, take_ge; done.
Qed.

Lemma absent_old base old rest number d :
  number = Z.of_nat (length old) →
  absent base (old ++ rest) number d ↔ absent base old number d.
Proof. intros Hn. unfold absent. by rewrite find_configured_old. Qed.

Lemma count_new_spec base old number ds c :
  0 ≤ c → c + Z.of_nat (length ds) < 2 ^ 32 →
  count_new ds base old number c
  = c + Z.of_nat (length (filter (absent base old number) ds)).
Proof.
  revert c. induction ds as [|d ds IH]; intros c Hc Hlt; simpl.
  - lia.
  - simpl in Hlt. destruct (decide (absent base old number d)) as [Ha|Ha].
    + rewrite filter_cons_True by done. rewrite Ha. simpl.
      assert (to_uint32 (c + 1) = c + 1) as ->.
      { unfold to_uint32. apply Z.mod_small. lia. }
      rewrite IH by lia. lia.
    + rewrite filter_cons_False by done. unfold absent in Ha.
      destruct (find_configured old number _ _ _); [|done]. apply IH; lia.
Qed.

Lemma copies_length base ds mem :
  length (copies (B:=B) base ds mem).1 = length ds.
Proof.
  revert mem. induction ds as [|d ds IH]; intros mem; simpl; [done|].
  destruct (duplicate_action _ _) as [actions mem1].
  specialize (IH mem1). destruct (copies base ds mem1) as [bs mem2].
  simpl in *. by rewrite IH.
Qed.

Lemma add_new_spec base old number ds : ∀ written rest mem,
  number = Z.of_nat (length old) →
  (length (filter (absent base old number) ds) ≤ length rest)%nat →
  add_new ds base (old ++ written ++ rest) number
    (length old + length written) mem
  = let '(news, mem') := copies base (filter (absent base old number) ds) mem in
    (old ++ written ++ news ++ drop (length news) rest, mem').
Proof.
  induction ds as [|d ds IH]; intros written rest mem Hn Hlen; simpl.
  - done.
  - rewrite find_configured_old by done.
    destruct (decide (absent base old number d)) as [Ha|Ha].
    + rewrite filter_cons_True in Hlen |- * by done. rewrite Ha.
      destruct rest as [|r rest]; [simpl in Hlen; lia|].
      simpl in Hlen. simpl.
      destruct (duplicate_action _ _) as [actions mem1].
      rewrite insert_app_r, insert_app_r_alt by lia.
      rewrite Nat.sub_diag. simpl.
      specialize (IH (written ++ [make_binding (default_flags d)
        (effective_modifiers base d) (default_symbol d) actions 1]) rest mem1).
      rewrite length_app in IH. simpl in IH.
      replace (length old + (length written + 1))%nat
        with (S (length old + length written)) in IH by lia.
      rewrite <- (assoc_L (++) written) in IH. simpl in IH.
      rewrite IH by (done || lia).
      destruct (copies base _ mem1) as [bs mem2].
      by rewrite <- (assoc_L (++) written).
    + rewrite filter_cons_False in Hlen |- * by done. unfold absent in Ha.
      destruct (find_configured old number _ _ _); [|done]. by apply IH.
Qed.

Lemma merge_with_default_bindings_spec ds junk base old number mem :
  well_formed ds old number →
  merge_with_default_bindings ds junk base old number mem
  = let '(news, mem') := copies base (filter (absent base old number) ds) mem in
    (old ++ news, number + Z.of_nat (length news), mem').
Proof.
  intros [Hn Hfit]. unfold merge_with_default_bindings.
  rewrite count_new_spec by lia.
  pose proof (copies_length base (filter (absent base old number) ds) mem) as Hl.
  pose proof (length_filter (absent base old number) ds) as Hle.
  case_decide as Hz.
  - assert (filter (absent base old number) ds = []) as ->.
    { apply length_zero_iff_nil. lia. }
    simpl. rewrite (right_id_L [] (++)). f_equal. f_equal. lia.
  - unfold RESIZE. rewrite resize_spec, take_ge by lia.
    pose proof (add_new_spec base old number ds []
      (replicate (Z.to_nat (number + Z.of_nat (length
         (filter (absent base old number) ds))) - length old) junk) mem Hn) as Hadd.
    simpl in Hadd. rewrite Nat.add_0_r in Hadd.
    replace (Z.to_nat number) with (length old) by lia.
    rewrite Hadd by (rewrite length_replicate; lia).
    destruct (copies base _ mem) as [news mem']. simpl in Hl.
    rewrite drop_ge by (rewrite length_replicate; lia).
    rewrite (right_id_L [] (++)). by rewrite Hl.
Qed.
(** The copies leave every block allocated before as it was. *)
Lemma xstrdup_extends s mem : mem ⊆ (xstrdup s mem).2.
Proof.
  unfold xstrdup. simpl. apply insert_subseteq, not_elem_of_dom, is_fresh.
Qed.

Lemma duplicate_data_value_extends type value mem :
  mem ⊆ (duplicate_data_value type value mem).2.
Proof.
  unfold duplicate_data_value.
  destruct type, value as [| |p]; simpl; try done.
  destruct (load mem p); simpl; [|done]. apply xstrdup_extends.
Qed.

Lemma payload_of_weaken mem mem' value x :
  mem ⊆ mem' → payload_of mem value = Some x → payload_of mem' value = Some x.
Proof.
  intros Hsub. destruct value as [| |[s|a]]; simpl; try done.
  destruct (mem !! a) as [s|] eqn:Ha; simpl; [|done].
  intros [= <-]. by rewrite (lookup_weaken _ _ _ _ Ha Hsub).
Qed.

Lemma duplicate_data_value_payload type value mem :
  is_Some (payload_of mem value) →
  payload_of (duplicate_data_value type value mem).2
    (duplicate_data_value type value mem).1
  = payload_of mem value.
Proof.
  intros [x Hx]. unfold duplicate_data_value.
  destruct type, value as [| |p]; simpl; try done.
  destruct (load mem p) as [s|] eqn:Hload; simpl.
  - by rewrite lookup_insert_eq.
  - by rewrite Hload.
Qed.

Lemma duplicate_data_value_fresh value mem p :
  (duplicate_data_value DATA_TYPE_STRING value mem).1 = string_value p →
  ∃ addr, p = allocated addr ∧ addr ∉ dom mem.
Proof.
  unfold duplicate_data_value. destruct value as [| |q]; simpl; try done.
  destruct (load mem q) as [s|] eqn:Hload; simpl.
  - intros [= <-]. eexists. split; [done|]. apply is_fresh.
  - intros [= <-]. destruct q as [s|a]; simpl in Hload; [done|].
    exists a. split; [done|]. by apply not_elem_of_dom.
Qed.

Lemma duplicate_action_extends a mem : mem ⊆ (duplicate_action a mem).2.
Proof.
  unfold duplicate_action.
  pose proof (duplicate_data_value_extends
    (get_action_data_type (code a)) (parameter a) mem) as Hsub.
  by destruct (duplicate_data_value _ _ _).
Qed.

Lemma copies_extends base ds mem : mem ⊆ (copies (B:=B) base ds mem).2.
Proof.
  revert mem. induction ds as [|d ds IH]; intros mem; simpl; [done|].
  pose proof (duplicate_action_extends (default_action d) mem) as H1.
  destruct (duplicate_action _ _) as [actions mem1]. simpl in H1.
  specialize (IH mem1). destruct (copies base ds mem1) as [bs mem2].
  simpl in *. by etrans.
Qed.

Lemma template_valid_weaken mem mem' d :
  mem ⊆ mem' → template_valid mem d → template_valid mem' d.
Proof.
  intros Hsub [x Hx]. exists x. by eapply payload_of_weaken.
Qed.

Lemma copy_of_weaken base mem0 mem mem1 mem' d b :
  mem0 ⊆ mem → mem1 ⊆ mem' → template_valid mem0 d →
  copy_of base mem mem1 d b → copy_of base mem0 mem' d b.
Proof.
  intros H0 H1 [x Hx] (Ht & Hn & a & Ha & Hc & Hp & Hf).
  split_and!; [done..|]. exists a. split_and!; [done..| |].
  - rewrite Hx. apply (payload_of_weaken mem1); [done|].
    rewrite Hp. by apply (payload_of_weaken mem0).
  - intros p Hpar Hty. destruct (Hf p Hpar Hty) as (addr & -> & Hfresh).
    exists addr. split; [done|]. intros Hin. apply Hfresh.
    apply elem_of_dom in Hin as [s Hs]. apply elem_of_dom.
    exists s. by eapply lookup_weaken.
Qed.

Lemma copies_cons base d ds mem :
  copies (B:=B) base (d :: ds) mem
  = (make_binding (default_flags d) (effective_modifiers base d)
       (default_symbol d) (duplicate_action (default_action d) mem).1 1
     :: (copies base ds (duplicate_action (default_action d) mem).2).1,
     (copies base ds (duplicate_action (default_action d) mem).2).2).
Proof.
  simpl. destruct (duplicate_action _ _) as [actions mem1]. simpl.
  by destruct (copies base ds mem1).
Qed.

Lemma copy_of_duplicate base d mem :
  template_valid mem d →
  copy_of base mem (duplicate_action (default_action d) mem).2 d
    (make_binding (B:=B) (default_flags d) (effective_modifiers base d)
       (default_symbol d) (duplicate_action (default_action d) mem).1 1).
Proof.
  intros Hv. unfold copy_of, trigger_of, duplicate_action.
  rewrite binding_modifiers_make, binding_symbol_make, binding_flags_make,
    binding_number_of_actions_make, binding_actions_make.
  pose proof (duplicate_data_value_payload
    (get_action_data_type (code (default_action d)))
    (parameter (default_action d)) mem Hv) as Hp.
  destruct (duplicate_data_value _ _ _) as [value mem1] eqn:Hdup.
  simpl in *. split_and!; [done..|]. eexists. split_and!; [done..|].
  simpl. intros p -> Hty.
  apply (duplicate_data_value_fresh (parameter (default_action d)) mem).
  rewrite <- Hty, Hdup. done.
Qed.

Lemma copies_Forall2_from base ds mem0 mem :
  mem0 ⊆ mem → Forall (template_valid mem0) ds →
  Forall2 (copy_of base mem0 (copies (B:=B) base ds mem).2) ds
    (copies base ds mem).1.
Proof.
  revert mem. induction ds as [|d ds IH]; intros mem Hsub Hv.
  - constructor.
  - rewrite copies_cons. simpl. inversion_clear Hv as [|?? Hd Hds].
    pose proof (duplicate_action_extends (default_action d) mem) as H1.
    pose proof (copies_extends base ds (duplicate_action (default_action d) mem).2)
      as H2.
    constructor.
    + eapply (copy_of_weaken base mem0 mem); [done|exact H2|done|].
      apply copy_of_duplicate. by eapply template_valid_weaken.
    + apply IH; [|done]. by etrans.
Qed.

Lemma copies_Forall2 base ds mem :
  Forall (template_valid mem) ds →
  Forall2 (copy_of base mem (copies (B:=B) base ds mem).2) ds
    (copies base ds mem).1.
Proof. by apply copies_Forall2_from. Qed.
(** Absence is a statement about the triggers of the stored bindings. *)
Lemma absent_iff base old number d :
  number = Z.of_nat (length old) →
  absent base old number d ↔ effective_trigger base d ∉ trigger_of <$> old.
Proof.
  intros ->. unfold absent, find_configured.
  rewrite Nat2Z.id, take_ge by lia.
  rewrite fmap_None, list_find_None, Forall_forall, list_elem_of_fmap.
  unfold effective_trigger. split.
  - intros Hall (b & Hb & Hin). by apply (Hall b Hin).
  - intros Hno b Hin Hb. apply Hno. by exists b.
Qed.

Lemma copies_triggers base ds mem :
  trigger_of <$> (copies (B:=B) base ds mem).1 = effective_trigger base <$> ds.
Proof.
  revert mem. induction ds as [|d ds IH]; intros mem; [done|].
  rewrite copies_cons. simpl. rewrite IH. f_equal.
  unfold trigger_of, effective_trigger.
  by rewrite binding_modifiers_make, binding_symbol_make, binding_flags_make.
Qed.

Lemma find_configured_kept old news number m s f :
  number = Z.of_nat (length old) →
  (m, s, f) ∈ trigger_of <$> old →
  find_configured (old ++ news) (number + Z.of_nat (length news)) m s f
  = find_configured old number m s f.
Proof.
  intros -> (b & Hb & Hin)%list_elem_of_fmap. unfold find_configured.
  rewrite <- Nat2Z.inj_add, !Nat2Z.id, <- length_app, !take_ge by lia.
  destruct (list_find_elem_of (λ b, trigger_of b = (m, s, f)) old b)
    as [[i x] Hfind]; [done..|].
  by rewrite (list_find_app_l _ _ _ _ _ Hfind), Hfind.
Qed.

Lemma occurrences_app t (l1 l2 : list B) :
  occurrences t (l1 ++ l2) = (occurrences t l1 + occurrences t l2)%nat.
Proof. unfold occurrences. by rewrite filter_app, length_app. Qed.

Lemma occurrences_fmap t (l : list B) :
  occurrences t l = length (filter (λ x, x = t) (trigger_of <$> l)).
Proof.
  unfold occurrences. induction l as [|b l IH]; [done|]. simpl.
  rewrite !filter_cons. destruct (decide (trigger_of b = t)); simpl; by rewrite IH.
Qed.

Lemma occurrences_zero t (l : list B) :
  t ∉ trigger_of <$> l → occurrences t l = 0%nat.
Proof.
  intros Hno. rewrite occurrences_fmap.
  destruct (filter _ _) as [|x k] eqn:Hk; [done|].
  assert (x ∈ filter (λ x, x = t) (trigger_of <$> l)) as Hin.
  { rewrite Hk. left. }
  by apply list_elem_of_filter in Hin as [-> ?].
Qed.

Lemma length_filter_fmap {A C} (g : A → C) (P : C → Prop)
    `{∀ x, Decision (P x)} `{∀ x, Decision (P (g x))} (l : list A) :
  length (filter P (g <$> l)) = length (filter (λ x, P (g x)) l).
Proof.
  induction l as [|a l IH]; [done|]. rewrite fmap_cons, !filter_cons.
  destruct (decide (P (g a))), (decide (P (g a))); simpl; try done.
  by rewrite IH.
Qed.

Lemma filter_none {A} (P : A → Prop) `{∀ x, Decision (P x)} (l : list A) :
  Forall (λ x, ¬ P x) l → filter P l = [].
Proof.
  induction 1 as [|x l Hx _ IH]; [done|]. by rewrite filter_cons_False.
Qed.

(** The first loop adds nothing when no default is absent. *)
Lemma count_new_none base (bindings : list B) number ds c :
  Forall (λ d, ¬ absent base bindings number d) ds →
  count_new ds base bindings number c = c.
Proof.
  induction 1 as [|d ds Hd _ IH]; simpl; [done|].
  unfold absent in Hd. by destruct (find_configured bindings number _ _ _).
Qed.

Lemma merge_with_default_bindings_none ds junk base (bindings : list B)
    number mem :
  Forall (λ d, ¬ absent base bindings number d) ds →
  merge_with_default_bindings ds junk base bindings number mem
  = (bindings, number, mem).
Proof.
  intros Hall. unfold merge_with_default_bindings.
  rewrite count_new_none by done. by rewrite decide_True.
Qed.

(** After the merge every default is found. *)
Lemma merged_none_absent base old number ds mem :
  number = Z.of_nat (length old) →
  Forall (λ d, ¬ absent base
    (old ++ (copies base (filter (absent base old number) ds) mem).1)
    (number + Z.of_nat (length
       (copies (B:=B) base (filter (absent base old number) ds) mem).1)) d) ds.
Proof.
  intros Hn. apply Forall_forall. intros d Hd.
  rewrite absent_iff by (rewrite length_app; lia).
  intros Hno. apply Hno. rewrite fmap_app, copies_triggers, elem_of_app.
  destruct (decide (absent base old number d)) as [Ha|Ha].
  - right. apply list_elem_of_fmap_2. by apply list_elem_of_filter.
  - left. rewrite absent_iff in Ha by done. by apply dec_stable.
Qed.

(** Two entries of a list that both pass a filter keep their order in
    what passes. *)
Lemma filter_lookup_two {A} (P : A → Prop) `{∀ x, Decision (P x)}
    (l : list A) i j x y :
  (i < j)%nat → l !! i = Some x → l !! j = Some y → P x → P y →
  ∃ p q, (p < q)%nat ∧ filter P l !! p = Some x ∧ filter P l !! q = Some y.
Proof.
  intros Hij Hi Hj Hx Hy.
  rewrite <- (take_drop_middle l i x Hi) in Hj |- *.
  assert (length (take i l) = i) as Hlen.
  { apply length_take_le. apply lookup_lt_Some in Hi. lia. }
  rewrite lookup_app_r in Hj by lia. rewrite Hlen in Hj.
  destruct (j - i)%nat as [|k] eqn:Hk; [lia|]. simpl in Hj.
  rewrite <- (take_drop_middle _ k y Hj).
  exists (length (filter P (take i l))),
    (length (filter P (take i l)) + S (length (filter P (take k (drop (S i) l)))))%nat.
  split; [lia|]. rewrite filter_app, filter_cons_True by done.
  rewrite filter_app, (filter_cons_True _ y) by done. split.
  - by apply list_lookup_middle.
  - rewrite lookup_app_r by lia.
    replace (_ + _ - _)%nat
      with (S (length (filter P (take k (drop (S i) l))))) by lia.
    simpl. by apply list_lookup_middle.
Qed.
Lemma duplicate_action_code a mem :
  code <$> (duplicate_action a mem).1 = [code a].
Proof.
  unfold duplicate_action. by destruct (duplicate_data_value _ _ _).
Qed.

Lemma copies_codes base ds mem :
  (λ b, code <$> binding_actions b) <$> (copies (B:=B) base ds mem).1
  = (λ d, [code (default_action d)]) <$> ds.
Proof.
  revert mem. induction ds as [|d ds IH]; intros mem; [done|].
  rewrite copies_cons. simpl. rewrite IH. f_equal.
  by rewrite binding_actions_make, duplicate_action_code.
Qed.

Lemma absent_not_stored base old number d b :
  number = Z.of_nat (length old) → absent base old number d → b ∈ old →
  trigger_of b ≠ effective_trigger base d.
Proof.
  intros Hn Ha Hin Heq. apply (absent_iff _ _ _ _ Hn) in Ha. apply Ha.
  rewrite <- Heq. by apply list_elem_of_fmap_2.
Qed.

(** *** What a merge does to a well-formed table *)

Section merged.
Variables (ds : list default_binding) (junk : B) (base : Z).
Variables (old : list B) (number : Z) (mem : memory).
Hypothesis Hwf : well_formed ds old number.

Local Abbreviation new :=
  (merge_with_default_bindings ds junk base old number mem).1.1.
Local Abbreviation number' :=
  (merge_with_default_bindings ds junk base old number mem).1.2.
Local Abbreviation mem' :=
  (merge_with_default_bindings ds junk base old number mem).2.
Local Abbreviation news :=
  (copies (B:=B) base (missing ds base old number) mem).1.

Lemma merged_new : new = old ++ news.
Proof.
  unfold missing. rewrite merge_with_default_bindings_spec by done.
  by destruct (copies base _ mem).
Qed.

Lemma merged_number : number' = number + Z.of_nat (length news).
Proof.
  unfold missing. rewrite merge_with_default_bindings_spec by done.
  by destruct (copies base _ mem).
Qed.

Lemma merged_mem : mem' = (copies (B:=B) base (missing ds base old number) mem).2.
Proof.
  unfold missing. rewrite merge_with_default_bindings_spec by done.
  by destruct (copies base _ mem).
Qed.

Lemma merged_news_length : length news = length (missing ds base old number).
Proof. apply copies_length. Qed.

Lemma merged_news_triggers :
  trigger_of <$> news = effective_trigger base <$> missing ds base old number.
Proof. apply copies_triggers. Qed.

Lemma merged_old_not_in_news b :
  b ∈ old → trigger_of b ∉ trigger_of <$> news.
Proof.
  destruct Hwf as [Hn _]. intros Hin. rewrite merged_news_triggers.
  intros (d & Heq & [Ha _]%list_elem_of_filter)%list_elem_of_fmap.
  by eapply absent_not_stored.
Qed.

Lemma merged_preserved : preserved old number mem new number' mem'.
Proof.
  destruct Hwf as [Hn _]. rewrite merged_new, merged_number, merged_mem.
  split_and!.
  - intros i b Hi. by apply lookup_app_l_Some.
  - intros v x. apply payload_of_weaken, copies_extends.
  - intros b Hin. split.
    + assert (trigger_of b ∈ trigger_of <$> old) as Ht
        by by apply list_elem_of_fmap_2.
      pose proof (find_configured_kept old news number _ _ _ Hn Ht) as Hk.
      destruct (list_find_elem_of (λ b', trigger_of b' = trigger_of b) old b)
        as [[i b0] Hfind]; [done..|].
      assert (find_configured old number (binding_modifiers b)
        (binding_symbol b) (binding_flags b) = Some i) as Hold.
      { unfold find_configured. rewrite Hn, Nat2Z.id, take_ge by lia.
        change (binding_modifiers b, binding_symbol b, binding_flags b)
          with (trigger_of b).
        by rewrite Hfind. }
      exists i, b0. rewrite Hk, Hold.
      apply list_find_Some in Hfind as (Hi & _ & _).
      split_and!; [done..|]. by apply lookup_app_l_Some.
    + rewrite occurrences_app, (occurrences_zero _ news); [lia|].
      by apply merged_old_not_in_news.
Qed.

Lemma merged_completed :
  Forall (template_valid mem) ds →
  completed ds base old number mem new number' mem'.
Proof.
  destruct Hwf as [Hn _]. intros Hv. exists news.
  rewrite merged_number, merged_mem, merged_news_length. split_and!.
  - apply merged_new.
  - done.
  - apply copies_Forall2. apply Forall_forall.
    intros d [_ Hd]%list_elem_of_filter. by eapply Forall_forall in Hv.
  - intros d [Ha Hd]%list_elem_of_filter.
    rewrite merged_new, occurrences_app, occurrences_zero.
    + simpl. rewrite occurrences_fmap, merged_news_triggers.
      apply (length_filter_fmap (effective_trigger base)
               (λ x, x = effective_trigger base d)).
    + by apply (absent_iff _ _ _ _ Hn).
Qed.

Lemma merged_exactly_one :
  NoDup (effective_trigger base <$> ds) →
  exactly_one_each ds base old number new.
Proof.
  destruct Hwf as [Hn _]. intros Hnd d Hd.
  assert (NoDup (effective_trigger base <$> missing ds base old number))
    as Hnd'.
  { eapply sublist_NoDup; [exact Hnd|].
    apply fmap_sublist, sublist_filter. }
  apply list_elem_of_filter in Hd as Hd'. destruct Hd' as [Ha _].
  rewrite merged_new, occurrences_app, occurrences_zero
    by by apply (absent_iff _ _ _ _ Hn).
  simpl. rewrite occurrences_fmap, merged_news_triggers.
  apply (list_elem_of_fmap_2 (effective_trigger base)) in Hd.
  revert Hnd' Hd. generalize (effective_trigger base d).
  generalize (effective_trigger base <$> missing ds base old number).
  intros l t Hl. induction Hl as [|x l Hx Hl IH]; intros Hin.
  - by apply elem_of_nil in Hin.
  - rewrite filter_cons. destruct (decide (x = t)) as [->|Hne].
    + simpl. f_equal. apply length_zero_iff_nil.
      destruct (filter _ l) as [|y k] eqn:Hk; [done|].
      assert (y ∈ filter (λ x, x = t) l) as Hy by (rewrite Hk; left).
      by apply list_elem_of_filter in Hy as [-> ?].
    + apply IH. by apply elem_of_cons in Hin as [->|].
Qed.

Lemma merged_unique :
  unique_triggers old → NoDup (effective_trigger base <$> ds) →
  unique_triggers new.
Proof.
  intros Hold Hnd. unfold unique_triggers.
  rewrite merged_new, fmap_app. apply NoDup_app. split_and!.
  - done.
  - intros t (b & -> & Hb)%list_elem_of_fmap.
    by apply merged_old_not_in_news.
  - rewrite merged_news_triggers. eapply sublist_NoDup; [exact Hnd|].
    apply fmap_sublist, sublist_filter.
Qed.

Lemma merged_both_appended : both_appended ds base old number new.
Proof.
  destruct Hwf as [Hn _]. intros i j d1 d2 Hij Hi Hj Heq Ha1.
  assert (absent base old number d2) as Ha2.
  { apply (absent_iff _ _ _ _ Hn). rewrite <- Heq.
    by apply (absent_iff _ _ _ _ Hn). }
  destruct (filter_lookup_two (absent base old number) ds i j d1 d2)
    as (p & q & Hpq & Hp & Hq); [done..|].
  fold (missing ds base old number) in Hp, Hq.
  pose proof merged_news_triggers as Ht.
  pose proof (copies_codes base (missing ds base old number) mem) as Hc.
  assert (∀ k d, missing ds base old number !! k = Some d →
    ∃ b, news !! k = Some b ∧ trigger_of b = effective_trigger base d
      ∧ code <$> binding_actions b = [code (default_action d)]) as Hget.
  { intros k d Hk.
    destruct (lookup_lt_is_Some_2 news k) as [b Hb].
    { rewrite merged_news_length. by eapply lookup_lt_Some. }
    exists b. split; [done|]. split.
    - apply (f_equal (λ l, l !! k)) in Ht.
      rewrite !list_lookup_fmap, Hb, Hk in Ht. simpl in Ht. congruence.
    - apply (f_equal (λ l, l !! k)) in Hc.
      rewrite !list_lookup_fmap, Hb, Hk in Hc. simpl in Hc. congruence. }
  destruct (Hget p d1 Hp) as (b1 & Hb1 & Ht1 & Hc1).
  destruct (Hget q d2 Hq) as (b2 & Hb2 & Ht2 & Hc2).
  exists (length old + p)%nat, (length old + q)%nat, b1, b2.
  rewrite merged_new. split_and!; try done; try lia.
  - rewrite lookup_app_r by lia. by replace (_ + _ - _)%nat with p by lia.
  - rewrite lookup_app_r by lia. by replace (_ + _ - _)%nat with q by lia.
  - by rewrite Ht2, Heq.
Qed.

Lemma merged_second_loop : second_loop_reads_old ds base old number.
Proof.
  destruct Hwf as [Hn _]. intros written rest mem0 Hlen.
  unfold missing in *. rewrite add_new_spec by done.
  pose proof (copies_length base (filter (absent base old number) ds) mem0)
    as Hl.
  destruct (copies base _ mem0) as [bs mem1]. simpl in *. by rewrite Hl.
Qed.

Lemma merged_idempotent junk' :
  merge_with_default_bindings ds junk' base new number' mem'
  = merge_with_default_bindings ds junk base old number mem.
Proof.
  destruct Hwf as [Hn _].
  rewrite (surjective_pairing (merge_with_default_bindings ds junk _ _ _ _)).
  rewrite (surjective_pairing (merge_with_default_bindings ds junk _ _ _ _).1).
  apply merge_with_default_bindings_none.
  rewrite merged_new, merged_number. by apply merged_none_absent.
Qed.
Lemma merged_none_missing : missing ds base new number' = [].
Proof.
  destruct Hwf as [Hn _]. rewrite merged_new, merged_number. unfold missing.
  pose proof (merged_none_absent base old number ds mem Hn) as Hall.
  by apply filter_none.
Qed.
End merged.
End merge_facts.

(** ** The merges of the key and button tables *)

Lemma merged_keys_keys junk c mem :
  keys (merged_keys junk c mem)
  = (merge_with_default_bindings default_key_bindings junk
       (keyboard_modifiers (keyboard c)) (keys (keyboard c))
       (number_of_keys (keyboard c)) mem).1.1.
Proof.
  unfold merged_keys, merge_with_default_key_bindings.
  by destruct (merge_with_default_bindings _ _ _ _ _ _) as [[??]?].
Qed.

Lemma merged_keys_number junk c mem :
  number_of_keys (merged_keys junk c mem)
  = (merge_with_default_bindings default_key_bindings junk
       (keyboard_modifiers (keyboard c)) (keys (keyboard c))
       (number_of_keys (keyboard c)) mem).1.2.
Proof.
  unfold merged_keys, merge_with_default_key_bindings.
  by destruct (merge_with_default_bindings _ _ _ _ _ _) as [[??]?].
Qed.

Lemma merged_keys_memory junk c mem :
  (merge_with_default_key_bindings junk c mem).2
  = (merge_with_default_bindings default_key_bindings junk
       (keyboard_modifiers (keyboard c)) (keys (keyboard c))
       (number_of_keys (keyboard c)) mem).2.
Proof.
  unfold merge_with_default_key_bindings.
  by destruct (merge_with_default_bindings _ _ _ _ _ _) as [[??]?].
Qed.

Lemma merged_keys_frame junk c mem :
  mouse (merge_with_default_key_bindings junk c mem).1 = mouse c
  ∧ keyboard_modifiers (merged_keys junk c mem)
    = keyboard_modifiers (keyboard c)
  ∧ keyboard_ignore_modifiers (merged_keys junk c mem)
    = keyboard_ignore_modifiers (keyboard c).
Proof.
  unfold merged_keys, merge_with_default_key_bindings.
  by destruct (merge_with_default_bindings _ _ _ _ _ _) as [[??]?].
Qed.

Lemma merged_buttons_buttons junk c mem :
  buttons (merged_buttons junk c mem)
  = (merge_with_default_bindings default_button_bindings junk
       (mouse_modifiers (mouse c)) (buttons (mouse c))
       (number_of_buttons (mouse c)) mem).1.1.
Proof.
  unfold merged_buttons, merge_with_default_button_bindings.
  by destruct (merge_with_default_bindings _ _ _ _ _ _) as [[??]?].
Qed.

Lemma merged_buttons_number junk c mem :
  number_of_buttons (merged_buttons junk c mem)
  = (merge_with_default_bindings default_button_bindings junk
       (mouse_modifiers (mouse c)) (buttons (mouse c))
       (number_of_buttons (mouse c)) mem).1.2.
Proof.
  unfold merged_buttons, merge_with_default_button_bindings.
  by destruct (merge_with_default_bindings _ _ _ _ _ _) as [[??]?].
Qed.

Lemma merged_buttons_memory junk c mem :
  (merge_with_default_button_bindings junk c mem).2
  = (merge_with_default_bindings default_button_bindings junk
       (mouse_modifiers (mouse c)) (buttons (mouse c))
       (number_of_buttons (mouse c)) mem).2.
Proof.
  unfold merge_with_default_button_bindings.
  by destruct (merge_with_default_bindings _ _ _ _ _ _) as [[??]?].
Qed.

Lemma merged_buttons_frame junk c mem :
  keyboard (merge_with_default_button_bindings junk c mem).1 = keyboard c
  ∧ mouse_modifiers (merged_buttons junk c mem) = mouse_modifiers (mouse c)
  ∧ mouse_ignore_modifiers (merged_buttons junk c mem)
    = mouse_ignore_modifiers (mouse c)
  ∧ resize_tolerance (merged_buttons junk c mem) = resize_tolerance (mouse c).
Proof.
  unfold merged_buttons, merge_with_default_button_bindings.
  by destruct (merge_with_default_bindings _ _ _ _ _ _) as [[??]?].
Qed.

Lemma merge_with_default_key_bindings_unfold junk c mem :
  merge_with_default_key_bindings junk c mem
  = (mkConfiguration (mouse c)
       (mkKeyboard (keyboard_modifiers (keyboard c))
          (keyboard_ignore_modifiers (keyboard c))
          (merge_with_default_bindings default_key_bindings junk
             (keyboard_modifiers (keyboard c)) (keys (keyboard c))
             (number_of_keys (keyboard c)) mem).1.1
          (merge_with_default_bindings default_key_bindings junk
             (keyboard_modifiers (keyboard c)) (keys (keyboard c))
             (number_of_keys (keyboard c)) mem).1.2),
     (merge_with_default_bindings default_key_bindings junk
        (keyboard_modifiers (keyboard c)) (keys (keyboard c))
        (number_of_keys (keyboard c)) mem).2).
Proof.
  unfold merge_with_default_key_bindings.
  by destruct (merge_with_default_bindings _ _ _ _ _ _) as [[??]?].
Qed.

Lemma merge_with_default_button_bindings_unfold junk c mem :
  merge_with_default_button_bindings junk c mem
  = (mkConfiguration
       (mkMouse (resize_tolerance (mouse c)) (mouse_modifiers (mouse c))
          (mouse_ignore_modifiers (mouse c))
          (merge_with_default_bindings default_button_bindings junk
             (mouse_modifiers (mouse c)) (buttons (mouse c))
             (number_of_buttons (mouse c)) mem).1.1
          (merge_with_default_bindings default_button_bindings junk
             (mouse_modifiers (mouse c)) (buttons (mouse c))
             (number_of_buttons (mouse c)) mem).1.2)
       (keyboard c),
     (merge_with_default_bindings default_button_bindings junk
        (mouse_modifiers (mouse c)) (buttons (mouse c))
        (number_of_buttons (mouse c)) mem).2).
Proof.
  unfold merge_with_default_button_bindings.
  by destruct (merge_with_default_bindings _ _ _ _ _ _) as [[??]?].
Qed.

(** The templates of the defaults hold no pointer into the memory. *)
Lemma default_key_bindings_valid mem :
  Forall (template_valid mem) default_key_bindings.
Proof.
  unfold default_key_bindings. repeat (constructor; [by eexists|]).
  constructor.
Qed.

Lemma default_button_bindings_valid mem :
  Forall (template_valid mem) default_button_bindings.
Proof.
  unfold default_button_bindings. repeat (constructor; [by eexists|]).
  constructor.
Qed.

(** *** When the effective triggers of the defaults are distinct *)

Lemma to_uint16_land_5 z : Z.land (to_uint16 z) 5 = Z.land z 5.
Proof.
  unfold to_uint16. rewrite <- Z.land_ones by lia.
  rewrite <- Z.land_assoc. reflexivity.
Qed.

Lemma effective_modifiers_inj base d1 d2 :
  Z.land base (Z.lor XCB_MOD_MASK_SHIFT XCB_MOD_MASK_CONTROL) = 0 →
  Z.land (default_modifiers d1) 5 = default_modifiers d1 →
  Z.land (default_modifiers d2) 5 = default_modifiers d2 →
  effective_modifiers base d1 = effective_modifiers base d2 →
  default_modifiers d1 = default_modifiers d2.
Proof.
  change (Z.lor XCB_MOD_MASK_SHIFT XCB_MOD_MASK_CONTROL) with 5.
  unfold effective_modifiers. intros Hb H1 H2 Heq.
  apply (f_equal (λ z, Z.land z 5)) in Heq.
  rewrite !to_uint16_land_5, !Z.land_lor_distr_l, Hb, !Z.lor_0_r in Heq.
  congruence.
Qed.

Lemma NoDup_fmap_inj_on {A C} (f : A → C) (l : list A) x y :
  NoDup (f <$> l) → x ∈ l → y ∈ l → f x = f y → x = y.
Proof.
  intros Hnd [i Hi]%list_elem_of_lookup [j Hj]%list_elem_of_lookup Heq.
  assert (i = j) as ->.
  { apply (NoDup_lookup _ i j (f x) Hnd).
    - by rewrite list_lookup_fmap, Hi.
    - by rewrite list_lookup_fmap, Hj, Heq. }
  congruence.
Qed.

Lemma effective_triggers_distinct base ds :
  Z.land base (Z.lor XCB_MOD_MASK_SHIFT XCB_MOD_MASK_CONTROL) = 0 →
  Forall (λ d, Z.land (default_modifiers d) 5 = default_modifiers d) ds →
  NoDup (raw_trigger <$> ds) →
  NoDup (effective_trigger base <$> ds).
Proof.
  intros Hb Hall Hnd. apply NoDup_fmap_1 in Hnd as Hds.
  apply NoDup_fmap_2_strong; [|done].
  intros d1 d2 H1 H2 Heq.
  apply (NoDup_fmap_inj_on raw_trigger ds); [done..|].
  unfold effective_trigger in Heq. unfold raw_trigger.
  injection Heq as Hm Hs Hf. f_equal; [f_equal|]; [|done..].
  eapply effective_modifiers_inj; [done| | |done].
  - by eapply Forall_forall in Hall.
  - by eapply Forall_forall in Hall.
Qed.

Lemma default_key_bindings_distinct base :
  Z.land base (Z.lor XCB_MOD_MASK_SHIFT XCB_MOD_MASK_CONTROL) = 0 →
  NoDup (effective_trigger base <$> default_key_bindings).
Proof.
  intros Hb. apply effective_triggers_distinct; [done|..].
  - apply (bool_decide_unpack _). by vm_compute.
  - apply (bool_decide_unpack _). by vm_compute.
Qed.

Lemma default_button_bindings_distinct base :
  NoDup (effective_trigger base <$> default_button_bindings).
Proof.
  assert (NoDup (default_symbol <$> default_button_bindings)) as Hnd.
  { apply (bool_decide_unpack _). by vm_compute. }
  apply NoDup_fmap_2_strong.
  - intros d1 d2 H1 H2 Heq.
    apply (NoDup_fmap_inj_on default_symbol default_button_bindings);
      [done..|by injection Heq].
  - by apply NoDup_fmap_1 in Hnd.
Qed.

(** ** The claims about the merge *)

Lemma user_configuration_ok :
  key_table_ok user_configuration ∧ button_table_ok user_configuration.
Proof. by vm_compute. Qed.

Lemma shift_configuration_ok :
  key_table_ok shift_configuration ∧ button_table_ok shift_configuration.
Proof. by vm_compute. Qed.

Lemma user_configuration_unique :
  unique_triggers (keys (keyboard user_configuration))
  ∧ unique_triggers (buttons (mouse user_configuration)).
Proof. split; apply (bool_decide_unpack _); by vm_compute. Qed.

(** C1, merge non-destructiveness.  Both merges leave every binding that
    was in the table where it was and as it was: flags, modifiers, symbol
    or index, action list; every parameter denotes after the merge what it
    denoted before; the lookup of the trigger of an old binding finds the
    same old slot after the merge as before, so on a collision with a
    default the binding of the user wins; and that trigger occurs as often
    as before, so no duplicate is made for it.  The key merge does not
    touch the mouse part and the button merge does not touch the keyboard
    part. *)
Theorem merge_non_destructive junk_key junk_button c mem :
  (key_table_ok c →
   preserved (keys (keyboard c)) (number_of_keys (keyboard c)) mem
     (keys (merged_keys junk_key c mem))
     (number_of_keys (merged_keys junk_key c mem))
     (merge_with_default_key_bindings junk_key c mem).2
   ∧ mouse (merge_with_default_key_bindings junk_key c mem).1 = mouse c)
  ∧ (button_table_ok c →
     preserved (buttons (mouse c)) (number_of_buttons (mouse c)) mem
       (buttons (merged_buttons junk_button c mem))
       (number_of_buttons (merged_buttons junk_button c mem))
       (merge_with_default_button_bindings junk_button c mem).2
     ∧ keyboard (merge_with_default_button_bindings junk_button c mem).1
       = keyboard c).
Proof.
  split; intros Hok; split.
  - rewrite merged_keys_keys, merged_keys_number, merged_keys_memory.
    by apply merged_preserved.
  - apply merged_keys_frame.
  - rewrite merged_buttons_buttons, merged_buttons_number,
      merged_buttons_memory.
    by apply merged_preserved.
  - apply merged_buttons_frame.
Qed.

Lemma merge_non_destructive_witness :
  (key_table_ok user_configuration
   ∧ preserved (keys (keyboard user_configuration))
       (number_of_keys (keyboard user_configuration)) user_memory
       (keys (merged_keys blank_key user_configuration user_memory))
       (number_of_keys (merged_keys blank_key user_configuration user_memory))
       (merge_with_default_key_bindings blank_key user_configuration
          user_memory).2
   ∧ mouse (merge_with_default_key_bindings blank_key user_configuration
              user_memory).1
     = mouse user_configuration)
  ∧ (button_table_ok user_configuration
     ∧ preserved (buttons (mouse user_configuration))
         (number_of_buttons (mouse user_configuration)) user_memory
         (buttons (merged_buttons blank_button user_configuration user_memory))
         (number_of_buttons
            (merged_buttons blank_button user_configuration user_memory))
         (merge_with_default_button_bindings blank_button user_configuration
            user_memory).2
     ∧ keyboard (merge_with_default_button_bindings blank_button
                   user_configuration user_memory).1
       = keyboard user_configuration).
Proof.
  destruct user_configuration_ok as [Hk Hb].
  destruct (merge_non_destructive blank_key blank_button user_configuration
              user_memory) as [Hkeys Hbuttons].
  exact (conj (conj Hk (Hkeys Hk)) (conj Hb (Hbuttons Hb))).
Defined.

(** What the user bound stays what Mod4+q finds, and 39 of the 40 key
    defaults are added behind it. *)
Example user_binding_wins :
  let c' := (merge_with_default_key_bindings blank_key user_configuration
               user_memory).1 in
  find_configured_key c' XCB_MOD_MASK_4 XK_q 0 = Some 0%nat
  ∧ keys (keyboard c') !! 0%nat = keys (keyboard user_configuration) !! 0%nat
  ∧ number_of_keys (keyboard c') = 40
  ∧ occurrences (XCB_MOD_MASK_4, XK_q, 0) (keys (keyboard c')) = 1%nat.
Proof. by vm_compute. Qed.

(** C2, merge idempotence.  Run on the table and memory a first run has
    left, either merge returns them as they are: configuration, stored
    count, every entry and the memory; no default is absent from the
    table the first run has left, so the second run adds nothing to the
    count and returns early. *)
Theorem merge_idempotent junk_key junk_key' junk_button junk_button' c mem :
  (key_table_ok c →
   merge_with_default_key_bindings junk_key'
     (merge_with_default_key_bindings junk_key c mem).1
     (merge_with_default_key_bindings junk_key c mem).2
   = merge_with_default_key_bindings junk_key c mem
   ∧ missing default_key_bindings (keyboard_modifiers (keyboard c))
       (keys (merged_keys junk_key c mem))
       (number_of_keys (merged_keys junk_key c mem)) = [])
  ∧ (button_table_ok c →
     merge_with_default_button_bindings junk_button'
       (merge_with_default_button_bindings junk_button c mem).1
       (merge_with_default_button_bindings junk_button c mem).2
     = merge_with_default_button_bindings junk_button c mem
     ∧ missing default_button_bindings (mouse_modifiers (mouse c))
         (buttons (merged_buttons junk_button c mem))
         (number_of_buttons (merged_buttons junk_button c mem)) = []).
Proof.
  split; intros Hok; split.
  - pose proof (merged_idempotent default_key_bindings junk_key
      (keyboard_modifiers (keyboard c)) (keys (keyboard c))
      (number_of_keys (keyboard c)) mem Hok junk_key') as Hidem.
    rewrite (merge_with_default_key_bindings_unfold junk_key c mem).
    generalize dependent (merge_with_default_bindings default_key_bindings
      junk_key (keyboard_modifiers (keyboard c)) (keys (keyboard c))
      (number_of_keys (keyboard c)) mem).
    intros [[new number'] mem'] Hidem.
    unfold merge_with_default_key_bindings. simpl in *. by rewrite Hidem.
  - rewrite merged_keys_keys, merged_keys_number.
    by apply merged_none_missing.
  - pose proof (merged_idempotent default_button_bindings junk_button
      (mouse_modifiers (mouse c)) (buttons (mouse c))
      (number_of_buttons (mouse c)) mem Hok junk_button') as Hidem.
    rewrite (merge_with_default_button_bindings_unfold junk_button c mem).
    generalize dependent (merge_with_default_bindings default_button_bindings
      junk_button (mouse_modifiers (mouse c)) (buttons (mouse c))
      (number_of_buttons (mouse c)) mem).
    intros [[new number'] mem'] Hidem.
    unfold merge_with_default_button_bindings. simpl in *. by rewrite Hidem.
  - rewrite merged_buttons_buttons, merged_buttons_number.
    by apply merged_none_missing.
Qed.

Lemma merge_idempotent_witness :
  (key_table_ok user_configuration
   ∧ merge_with_default_key_bindings blank_key
       (merge_with_default_key_bindings blank_key user_configuration
          user_memory).1
       (merge_with_default_key_bindings blank_key user_configuration
          user_memory).2
     = merge_with_default_key_bindings blank_key user_configuration
         user_memory
   ∧ missing default_key_bindings
       (keyboard_modifiers (keyboard user_configuration))
       (keys (merged_keys blank_key user_configuration user_memory))
       (number_of_keys (merged_keys blank_key user_configuration user_memory))
     = [])
  ∧ (button_table_ok user_configuration
     ∧ merge_with_default_button_bindings blank_button
         (merge_with_default_button_bindings blank_button user_configuration
            user_memory).1
         (merge_with_default_button_bindings blank_button user_configuration
            user_memory).2
       = merge_with_default_button_bindings blank_button user_configuration
           user_memory
     ∧ missing default_button_bindings
         (mouse_modifiers (mouse user_configuration))
         (buttons (merged_buttons blank_button user_configuration user_memory))
         (number_of_buttons
            (merged_buttons blank_button user_configuration user_memory))
       = []).
Proof.
  destruct user_configuration_ok as [Hk Hb].
  destruct (merge_idempotent blank_key blank_key blank_button blank_button
              user_configuration user_memory) as [Hkeys Hbuttons].
  exact (conj (conj Hk (Hkeys Hk)) (conj Hb (Hbuttons Hb))).
Defined.

(** C3, as the code has it: the effective trigger of an absent default
    need not occur exactly once.  With Shift as the main modifier the
    defaults for Shift+r and for r have one effective trigger; it is
    absent from the empty table, and the merged table holds it twice. *)
Lemma merge_complete_counterexample :
  key_table_ok shift_configuration
  ∧ reload_default ∈ default_key_bindings
  ∧ absent (keyboard_modifiers (keyboard shift_configuration))
      (keys (keyboard shift_configuration))
      (number_of_keys (keyboard shift_configuration)) reload_default
  ∧ occurrences
      (effective_trigger (keyboard_modifiers (keyboard shift_configuration))
         reload_default)
      (keys (merged_keys blank_key shift_configuration ∅)) = 2%nat.
Proof.
  split_and!; [by vm_compute|left|by vm_compute..].
Qed.

(** C3, merge completeness, amended.  The merged array is the old one
    followed by one new binding per absent default, in declaration order;
    the stored count grows by the number of absent defaults; each new
    binding has the effective trigger of its default and one action, with
    the code of the template, whose parameter denotes what the template's
    does, text being held in a block of its own that was not allocated
    before; the effective trigger of an absent default occurs in the
    merged array as often as absent defaults have it: exactly once for
    the buttons, and for the keys when the main modifier holds neither
    Shift nor Control. *)
Theorem merge_complete junk_key junk_button c mem :
  (key_table_ok c →
   completed default_key_bindings (keyboard_modifiers (keyboard c))
     (keys (keyboard c)) (number_of_keys (keyboard c)) mem
     (keys (merged_keys junk_key c mem))
     (number_of_keys (merged_keys junk_key c mem))
     (merge_with_default_key_bindings junk_key c mem).2
   ∧ (Z.land (keyboard_modifiers (keyboard c))
        (Z.lor XCB_MOD_MASK_SHIFT XCB_MOD_MASK_CONTROL) = 0 →
      exactly_one_each default_key_bindings (keyboard_modifiers (keyboard c))
        (keys (keyboard c)) (number_of_keys (keyboard c))
        (keys (merged_keys junk_key c mem))))
  ∧ (button_table_ok c →
     completed default_button_bindings (mouse_modifiers (mouse c))
       (buttons (mouse c)) (number_of_buttons (mouse c)) mem
       (buttons (merged_buttons junk_button c mem))
       (number_of_buttons (merged_buttons junk_button c mem))
       (merge_with_default_button_bindings junk_button c mem).2
     ∧ exactly_one_each default_button_bindings (mouse_modifiers (mouse c))
         (buttons (mouse c)) (number_of_buttons (mouse c))
         (buttons (merged_buttons junk_button c mem))).
Proof.
  split; intros Hok; split.
  - rewrite merged_keys_keys, merged_keys_number, merged_keys_memory.
    apply merged_completed; [done|]. apply default_key_bindings_valid.
  - intros Hbase. rewrite merged_keys_keys.
    apply merged_exactly_one; [done|].
    by apply default_key_bindings_distinct.
  - rewrite merged_buttons_buttons, merged_buttons_number,
      merged_buttons_memory.
    apply merged_completed; [done|]. apply default_button_bindings_valid.
  - rewrite merged_buttons_buttons. apply merged_exactly_one; [done|].
    apply default_button_bindings_distinct.
Qed.

Lemma merge_complete_witness :
  (key_table_ok user_configuration
   ∧ Z.land (keyboard_modifiers (keyboard user_configuration))
       (Z.lor XCB_MOD_MASK_SHIFT XCB_MOD_MASK_CONTROL) = 0
   ∧ completed default_key_bindings
       (keyboard_modifiers (keyboard user_configuration))
       (keys (keyboard user_configuration))
       (number_of_keys (keyboard user_configuration)) user_memory
       (keys (merged_keys blank_key user_configuration user_memory))
       (number_of_keys (merged_keys blank_key user_configuration user_memory))
       (merge_with_default_key_bindings blank_key user_configuration
          user_memory).2
   ∧ exactly_one_each default_key_bindings
       (keyboard_modifiers (keyboard user_configuration))
       (keys (keyboard user_configuration))
       (number_of_keys (keyboard user_configuration))
       (keys (merged_keys blank_key user_configuration user_memory)))
  ∧ (button_table_ok user_configuration
     ∧ completed default_button_bindings
         (mouse_modifiers (mouse user_configuration))
         (buttons (mouse user_configuration))
         (number_of_buttons (mouse user_configuration)) user_memory
         (buttons (merged_buttons blank_button user_configuration user_memory))
         (number_of_buttons
            (merged_buttons blank_button user_configuration user_memory))
         (merge_with_default_button_bindings blank_button user_configuration
            user_memory).2
     ∧ exactly_one_each default_button_bindings
         (mouse_modifiers (mouse user_configuration))
         (buttons (mouse user_configuration))
         (number_of_buttons (mouse user_configuration))
         (buttons (merged_buttons blank_button user_configuration
                     user_memory))).
Proof.
  destruct user_configuration_ok as [Hk Hb].
  assert (Z.land (keyboard_modifiers (keyboard user_configuration))
            (Z.lor XCB_MOD_MASK_SHIFT XCB_MOD_MASK_CONTROL) = 0) as Hbase
    by reflexivity.
  destruct (merge_complete blank_key blank_button user_configuration
              user_memory) as [Hkeys Hbuttons].
  exact (conj
    (conj Hk (conj Hbase (conj (proj1 (Hkeys Hk)) (proj2 (Hkeys Hk) Hbase))))
    (conj Hb (Hbuttons Hb))).
Defined.

(** The terminal default, absent from the table of the user, is copied
    into the fresh block 6; the block 5 of the user keeps its text. *)
Example terminal_default_copied :
  let r := merge_with_default_key_bindings blank_key user_configuration
             user_memory in
  key_actions <$> keys (keyboard r.1) !! 38%nat
  = Some [mkAction ACTION_RUN (string_value (allocated 6))]
  ∧ r.2 !! 6%N = Some terminal_command
  ∧ r.2 !! 5%N = Some "firefox"%string.
Proof. by vm_compute. Qed.

(** C4, as the code has it: a merge can leave two bindings with one
    trigger.  The empty key table has no two bindings with one trigger;
    merged with Shift as the main modifier it holds the trigger of Shift+r
    in the slots 0 and 8. *)
Lemma merge_unique_triggers_counterexample :
  key_table_ok shift_configuration
  ∧ unique_triggers (keys (keyboard shift_configuration))
  ∧ ¬ unique_triggers (keys (merged_keys blank_key shift_configuration ∅)).
Proof.
  split_and!; [by vm_compute|constructor|].
  intros Hnd.
  assert (0 = 8)%nat; [|done].
  apply (NoDup_lookup _ 0 8 (XCB_MOD_MASK_SHIFT, XK_r, 0) Hnd);
    by vm_compute.
Qed.

(** C4, trigger uniqueness, amended.  Applied to tables in which no two
    bindings share a trigger, the button merge leaves such a table for
    every main modifier of the mouse, and the key merge leaves such a
    table for every main modifier of the keyboard that holds neither
    Shift nor Control. *)
Theorem merge_unique_triggers junk_key junk_button c mem :
  (key_table_ok c →
   Z.land (keyboard_modifiers (keyboard c))
     (Z.lor XCB_MOD_MASK_SHIFT XCB_MOD_MASK_CONTROL) = 0 →
   unique_triggers (keys (keyboard c)) →
   unique_triggers (keys (merged_keys junk_key c mem)))
  ∧ (button_table_ok c →
     unique_triggers (buttons (mouse c)) →
     unique_triggers (buttons (merged_buttons junk_button c mem))).
Proof.
  split.
  - intros Hok Hbase Hunique. rewrite merged_keys_keys.
    apply merged_unique; [done..|]. by apply default_key_bindings_distinct.
  - intros Hok Hunique. rewrite merged_buttons_buttons.
    apply merged_unique; [done..|]. apply default_button_bindings_distinct.
Qed.

Lemma merge_unique_triggers_witness :
  (key_table_ok user_configuration
   ∧ Z.land (keyboard_modifiers (keyboard user_configuration))
       (Z.lor XCB_MOD_MASK_SHIFT XCB_MOD_MASK_CONTROL) = 0
   ∧ unique_triggers (keys (keyboard user_configuration))
   ∧ unique_triggers
       (keys (merged_keys blank_key user_configuration user_memory)))
  ∧ (button_table_ok user_configuration
     ∧ unique_triggers (buttons (mouse user_configuration))
     ∧ unique_triggers
         (buttons (merged_buttons blank_button user_configuration
                     user_memory))).
Proof.
  destruct user_configuration_ok as [Hk Hb].
  destruct user_configuration_unique as [Hkeys Hbuttons].
  assert (Z.land (keyboard_modifiers (keyboard user_configuration))
            (Z.lor XCB_MOD_MASK_SHIFT XCB_MOD_MASK_CONTROL) = 0) as Hbase
    by reflexivity.
  destruct (merge_unique_triggers blank_key blank_button user_configuration
              user_memory) as [Hmerged_keys Hmerged_buttons].
  exact (conj
    (conj Hk (conj Hbase (conj Hkeys (Hmerged_keys Hk Hbase Hkeys))))
    (conj Hb (conj Hbuttons (Hmerged_buttons Hb Hbuttons)))).
Defined.

(** A main modifier that holds the partial modifiers of two defaults
    with one symbol and one set of flags gives them one effective
    trigger. *)
Lemma lor_contained m base : Z.land base m = m → Z.lor m base = base.
Proof.
  intros Hm. apply Z.bits_inj'. intros n Hn.
  apply (f_equal (λ z, Z.testbit z n)) in Hm.
  rewrite Z.land_spec in Hm. rewrite Z.lor_spec.
  destruct (Z.testbit base n), (Z.testbit m n); done.
Qed.

Lemma effective_trigger_collides base d1 d2 :
  Z.land base (default_modifiers d1) = default_modifiers d1 →
  Z.land base (default_modifiers d2) = default_modifiers d2 →
  default_symbol d1 = default_symbol d2 →
  default_flags d1 = default_flags d2 →
  effective_trigger base d1 = effective_trigger base d2.
Proof.
  intros H1 H2 Hs Hf. unfold effective_trigger, effective_modifiers.
  by rewrite (lor_contained _ _ H1), (lor_contained _ _ H2), Hs, Hf.
Qed.

(** C10.  The lookups of the second loop read the stored count, which is
    the one from before the merge until the loop is over: whatever the
    array holds past that count the lookup does not see, and the loop
    appends the defaults that are absent from the array as it was before
    the merge, whatever it has written so far.  So two defaults
    with one effective trigger that is absent from the table the merge
    is given are both appended, the earlier default first: the merged
    table holds two bindings with that trigger.  Two defaults with one
    symbol and one set of flags have one effective trigger as soon as the
    main modifier holds the partial modifiers of both. *)
Theorem merge_appends_colliding_defaults junk_key junk_button c mem :
  (key_table_ok c →
   (∀ written modifiers key_symbol flags,
      find_configured (keys (keyboard c) ++ written)
        (number_of_keys (keyboard c)) modifiers key_symbol flags
      = find_configured_key c modifiers key_symbol flags)
   ∧ second_loop_reads_old default_key_bindings
       (keyboard_modifiers (keyboard c)) (keys (keyboard c))
       (number_of_keys (keyboard c))
   ∧ both_appended default_key_bindings (keyboard_modifiers (keyboard c))
       (keys (keyboard c)) (number_of_keys (keyboard c))
       (keys (merged_keys junk_key c mem)))
  ∧ (button_table_ok c →
     (∀ written modifiers index flags,
        find_configured (buttons (mouse c) ++ written)
          (number_of_buttons (mouse c)) modifiers index flags
        = find_configured_button c modifiers index flags)
     ∧ second_loop_reads_old default_button_bindings
         (mouse_modifiers (mouse c)) (buttons (mouse c))
         (number_of_buttons (mouse c))
     ∧ both_appended default_button_bindings (mouse_modifiers (mouse c))
         (buttons (mouse c)) (number_of_buttons (mouse c))
         (buttons (merged_buttons junk_button c mem)))
  ∧ (∀ base d1 d2,
       Z.land base (default_modifiers d1) = default_modifiers d1 →
       Z.land base (default_modifiers d2) = default_modifiers d2 →
       default_symbol d1 = default_symbol d2 →
       default_flags d1 = default_flags d2 →
       effective_trigger base d1 = effective_trigger base d2).
Proof.
  split_and!.
  - intros Hok. split_and!.
    + intros written m s f. apply find_configured_old, Hok.
    + by apply (merged_second_loop default_key_bindings).
    + rewrite merged_keys_keys. by apply merged_both_appended.
  - intros Hok. split_and!.
    + intros written m s f. apply find_configured_old, Hok.
    + by apply (merged_second_loop default_button_bindings).
    + rewrite merged_buttons_buttons. by apply merged_both_appended.
  - apply effective_trigger_collides.
Qed.

(** With Shift as the main modifier, the defaults for Shift+r and for r,
    the entries 0 and 8 of the table, have one effective trigger, which
    is absent from the empty table: the merged table holds it twice. *)
Lemma merge_appends_colliding_defaults_witness :
  key_table_ok shift_configuration
  ∧ (0 < 8)%nat
  ∧ default_key_bindings !! 0%nat = Some reload_default
  ∧ default_key_bindings !! 8%nat = Some remove_frame_default
  ∧ effective_trigger (keyboard_modifiers (keyboard shift_configuration))
      reload_default
    = effective_trigger (keyboard_modifiers (keyboard shift_configuration))
        remove_frame_default
  ∧ absent (keyboard_modifiers (keyboard shift_configuration))
      (keys (keyboard shift_configuration))
      (number_of_keys (keyboard shift_configuration)) reload_default
  ∧ ∃ p q b1 b2,
      (length (keys (keyboard shift_configuration)) ≤ p < q)%nat
      ∧ keys (merged_keys blank_key shift_configuration ∅) !! p = Some b1
      ∧ keys (merged_keys blank_key shift_configuration ∅) !! q = Some b2
      ∧ trigger_of b1
        = effective_trigger (keyboard_modifiers (keyboard shift_configuration))
            reload_default
      ∧ trigger_of b2
        = effective_trigger (keyboard_modifiers (keyboard shift_configuration))
            reload_default
      ∧ code <$> binding_actions b1 = [code (default_action reload_default)]
      ∧ code <$> binding_actions b2
        = [code (default_action remove_frame_default)].
Proof.
  destruct shift_configuration_ok as [Hk _].
  assert (0 < 8)%nat as Hlt by lia.
  assert (absent (keyboard_modifiers (keyboard shift_configuration))
    (keys (keyboard shift_configuration))
    (number_of_keys (keyboard shift_configuration)) reload_default) as Habsent
    by reflexivity.
  destruct (merge_appends_colliding_defaults blank_key blank_button
              shift_configuration ∅) as ((_ & _ & Hboth) & _ & _); [exact Hk|].
  exact (conj Hk (conj Hlt (conj eq_refl (conj eq_refl (conj eq_refl
    (conj Habsent
       (Hboth 0%nat 8%nat reload_default remove_frame_default Hlt eq_refl
          eq_refl eq_refl Habsent))))))).
Defined.

(** With Shift as the main modifier, the defaults for Shift+r and for r
    are both added to the empty table, in the slots 0 and 8, with one
    trigger. *)
Example shift_r_twice :
  let new := keys (merged_keys blank_key shift_configuration ∅) in
  effective_trigger XCB_MOD_MASK_SHIFT reload_default
  = effective_trigger XCB_MOD_MASK_SHIFT remove_frame_default
  ∧ default_key_bindings !! 0%nat = Some reload_default
  ∧ default_key_bindings !! 8%nat = Some remove_frame_default
  ∧ new !! 0%nat
    = Some (mkKey 0 XCB_MOD_MASK_SHIFT XK_r
              [mkAction ACTION_RELOAD_CONFIGURATION zero_value] 1)
  ∧ new !! 8%nat
    = Some (mkKey 0 XCB_MOD_MASK_SHIFT XK_r
              [mkAction ACTION_REMOVE_FRAME zero_value] 1)
  ∧ number_of_keys (merged_keys blank_key shift_configuration ∅) = 40.
Proof. by vm_compute. Qed.

(** ** The claims about the events *)

Lemma event_type_not_handled type :
  type ∉ handled_codes →
  type ≠ XCB_MAP_REQUEST ∧ type ≠ XCB_BUTTON_PRESS ∧ type ≠ XCB_MOTION_NOTIFY
  ∧ type ≠ XCB_BUTTON_RELEASE ∧ type ≠ XCB_PROPERTY_NOTIFY
  ∧ type ≠ XCB_UNMAP_NOTIFY ∧ type ≠ XCB_DESTROY_NOTIFY
  ∧ type ≠ XCB_CONFIGURE_REQUEST ∧ type ≠ XCB_KEY_PRESS.
Proof. unfold handled_codes. set_solver. Qed.

Lemma event_type_clears_tag event :
  0 ≤ response_type event < 2 ^ 8 →
  event_type event = response_type event mod 2 ^ 7.
Proof.
  intros Hr. unfold event_type.
  assert (Forall (λ r, to_uint8 (Z.land r (Z.lnot 0x80)) = r mod 2 ^ 7)
            (seqZ 0 256)) as Hall.
  { apply (bool_decide_unpack _). by vm_compute. }
  eapply Forall_forall in Hall; [exact Hall|]. apply elem_of_seqZ. lia.
Qed.

(** C5, extension precedence.  An event whose type, the response type
    with the bit 0x80 cleared, is at or above [randr_event_base] is
    handled by [handle_screen_change] and by nothing else: the outputs are
    queried and merged, nothing is logged, no global changes; this holds
    whatever the type is, also when it is the code of a core event.  An
    event below the base whose type has no case is logged and dropped: no
    global changes and nothing else is called. *)
Theorem extension_precedence env g event :
  (event_type event >= randr_event_base g →
   run (handle_event event) env g = (g, [query_monitors; merge_monitors]))
  ∧ (event_type event < randr_event_base g →
     event_type event ∉ handled_codes →
     run (handle_event event) env g = (g, [log_event (response_type event)]))
  ∧ (0 ≤ response_type event < 2 ^ 8 →
     event_type event = response_type event mod 2 ^ 7).
Proof.
  split_and!; [| |apply event_type_clears_tag].
  - intros Hge. unfold run, handle_event. cbv [mbind handler_bind get].
    by rewrite decide_True.
  - intros Hlt Hno. unfold run, handle_event. cbv [mbind handler_bind get].
    destruct (event_type_not_handled _ Hno)
      as (?&?&?&?&?&?&?&?&?).
    rewrite decide_False by lia. by rewrite !decide_False.
Qed.

Lemma extension_precedence_witness :
  ((event_type (pointer_event 132 7 100 200)
    >= randr_event_base (idle_globals 4))
   ∧ event_type (pointer_event 132 7 100 200) = XCB_BUTTON_PRESS
   ∧ run (handle_event (pointer_event 132 7 100 200)) popup_environment
       (idle_globals 4)
     = (idle_globals 4, [query_monitors; merge_monitors]))
  ∧ ((event_type (pointer_event 9 7 100 200)
      < randr_event_base (idle_globals 89))
     ∧ (event_type (pointer_event 9 7 100 200) ∉ handled_codes)
     ∧ run (handle_event (pointer_event 9 7 100 200)) popup_environment
         (idle_globals 89)
       = (idle_globals 89, [log_event 9])).
Proof.
  assert (event_type (pointer_event 132 7 100 200)
          >= randr_event_base (idle_globals 4)) as Hge by by vm_compute.
  assert (event_type (pointer_event 9 7 100 200)
          < randr_event_base (idle_globals 89)) as Hlt by by vm_compute.
  assert (event_type (pointer_event 9 7 100 200) ∉ handled_codes) as Hno.
  { apply (bool_decide_unpack _). by vm_compute. }
  split_and!; [done|reflexivity| |done|done|].
  - exact (proj1 (extension_precedence popup_environment (idle_globals 4)
                    (pointer_event 132 7 100 200)) Hge).
  - exact (proj1 (proj2 (extension_precedence popup_environment
                           (idle_globals 89) (pointer_event 9 7 100 200)))
             Hlt Hno).
Defined.

Lemma run_handle_button_release env g event :
  run (handle_button_release event) env g
  = (mkGlobals (randr_event_base g) (selected_window g) (g_values g) false,
     [xcb_ungrab_pointer XCB_CURRENT_TIME]).
Proof. reflexivity. Qed.

Lemma run_handle_motion_notify_failed env g event :
  xcb_get_geometry_reply env (xcb_window (selected_window g)) = None →
  run (handle_motion_notify event) env g
  = (mkGlobals (randr_event_base g) (selected_window g) (g_values g) false,
     [xcb_get_geometry (xcb_window (selected_window g));
      xcb_ungrab_pointer XCB_CURRENT_TIME]).
Proof.
  intros Hnone. unfold run, handle_motion_notify, get_geometry.
  cbv [mbind handler_bind mret handler_ret get ask emit]. by rewrite Hnone.
Qed.

Lemma run_handle_motion_notify_moved env g event geometry :
  xcb_get_geometry_reply env (xcb_window (selected_window g)) = Some geometry →
  run (handle_motion_notify event) env g
  = (mkGlobals (randr_event_base g)
       (mkSelected (start (selected_window g))
          (mkPosition (motion_notify_root_x event) (motion_notify_root_y event))
          (xcb_window (selected_window g)))
       (<[1%nat := to_uint32
            (geometry_y geometry
             + (motion_notify_root_y event
                - position_y (old_mouse (selected_window g))))]>
          (<[0%nat := to_uint32
               (geometry_x geometry
                + (motion_notify_root_x event
                   - position_x (old_mouse (selected_window g))))]>
             (g_values g)))
       (pointer_grab g),
     [xcb_get_geometry (xcb_window (selected_window g));
      xcb_configure_window (xcb_window (selected_window g))
        (Z.lor XCB_CONFIG_WINDOW_X XCB_CONFIG_WINDOW_Y)
        [to_uint32
           (geometry_x geometry
            + (motion_notify_root_x event
               - position_x (old_mouse (selected_window g))));
         to_uint32
           (geometry_y geometry
            + (motion_notify_root_y event
               - position_y (old_mouse (selected_window g))))]]).
Proof.
  intros Hsome. unfold run, handle_motion_notify, get_geometry.
  cbv [mbind handler_bind mret handler_ret get ask emit]. by rewrite Hsome.
Qed.

Lemma to_int16_to_uint32 z : - 2 ^ 15 ≤ z < 2 ^ 15 → to_int16 (to_uint32 z) = z.
Proof.
  intros Hz. unfold to_int16, to_uint32.
  change (2 ^ 32) with (2 ^ 16 * 2 ^ 16).
  rewrite <- (Z.add_mod_idemp_l (z mod _)) by lia.
  rewrite Z.rem_mul_r, Z.mul_comm, Z.mod_add by lia.
  rewrite Z.mod_mod, Z.add_mod_idemp_l by lia.
  rewrite Z.mod_small; lia.
Qed.

Lemma to_uint32_small z : 0 ≤ z < 2 ^ 16 → to_uint32 z = z.
Proof. intros Hz. unfold to_uint32. apply Z.mod_small. lia. Qed.

(** C6, as the code has it: a motion event handled while no grab is
    active has a side effect.  After the button was released the handler
    still asks for the geometry of the window it remembers and moves that
    window, and it takes the pointer position as the new old one; so it
    does for an event that comes through [handle_event]. *)
Lemma motion_while_inactive_counterexample :
  active released_globals = false
  ∧ run (handle_button_release (mkButtonPress 1 7 100 200)) popup_environment
      grabbed_globals
    = (released_globals, [xcb_ungrab_pointer XCB_CURRENT_TIME])
  ∧ (run (handle_motion_notify (mkMotionNotify 110 205)) popup_environment
       released_globals).2
    = [xcb_get_geometry 7; xcb_configure_window 7 3 [20; 25]]
  ∧ old_mouse (selected_window
      (run (handle_motion_notify (mkMotionNotify 110 205)) popup_environment
         released_globals).1)
    = mkPosition 110 205
  ∧ (run (handle_event (pointer_event XCB_MOTION_NOTIFY 0 110 205))
       popup_environment released_globals).2
    = [log_event XCB_MOTION_NOTIFY; xcb_get_geometry 7;
       xcb_configure_window 7 3 [20; 25]].
Proof. by vm_compute. Qed.

(** C6, grab exclusivity, amended.  Handling a button release, and
    handling a motion event whose geometry query fails, gives up the
    pointer grab and changes nothing else: the grab is not active
    afterwards, the remembered positions and window stay as they are and
    no window is configured.  The motion handler does not look at the
    grab: handled while no grab is active, a motion event leaves it
    inactive, and a window is configured exactly when the geometry query
    for the remembered window succeeds. *)
Theorem grab_released env g :
  (∀ event,
     run (handle_button_release event) env g
     = (mkGlobals (randr_event_base g) (selected_window g) (g_values g) false,
        [xcb_ungrab_pointer XCB_CURRENT_TIME])
     ∧ active (run (handle_button_release event) env g).1 = false)
  ∧ (∀ event,
       xcb_get_geometry_reply env (xcb_window (selected_window g)) = None →
       run (handle_motion_notify event) env g
       = (mkGlobals (randr_event_base g) (selected_window g) (g_values g)
            false,
          [xcb_get_geometry (xcb_window (selected_window g));
           xcb_ungrab_pointer XCB_CURRENT_TIME])
       ∧ active (run (handle_motion_notify event) env g).1 = false)
  ∧ (∀ event,
       active g = false →
       active (run (handle_motion_notify event) env g).1 = false
       ∧ (existsb is_configure_window
            (run (handle_motion_notify event) env g).2 = true
          ↔ is_Some
              (xcb_get_geometry_reply env (xcb_window (selected_window g))))).
Proof.
  split_and!.
  - intros event. by rewrite run_handle_button_release.
  - intros event Hnone. by rewrite run_handle_motion_notify_failed.
  - intros event Hidle.
    destruct (xcb_get_geometry_reply env (xcb_window (selected_window g)))
      as [geometry|] eqn:Hreply.
    + rewrite (run_handle_motion_notify_moved _ _ _ _ Hreply). simpl.
      split; [done|]. split; [by eexists|done].
    + rewrite (run_handle_motion_notify_failed _ _ _ Hreply). simpl.
      split; [done|]. split; [done|by intros [? ?]].
Qed.

Lemma grab_released_witness :
  active (run (handle_button_release (mkButtonPress 1 7 110 205))
            popup_environment grabbed_globals).1 = false
  ∧ (xcb_get_geometry_reply popup_environment
       (xcb_window (selected_window (idle_globals 89))) = None
     ∧ run (handle_motion_notify (mkMotionNotify 110 205)) popup_environment
         (idle_globals 89)
       = (idle_globals 89,
          [xcb_get_geometry 0; xcb_ungrab_pointer XCB_CURRENT_TIME]))
  ∧ (active released_globals = false
     ∧ active (run (handle_motion_notify (mkMotionNotify 110 205))
                 popup_environment released_globals).1 = false
     ∧ (existsb is_configure_window
          (run (handle_motion_notify (mkMotionNotify 110 205))
             popup_environment released_globals).2 = true
        ↔ is_Some
            (xcb_get_geometry_reply popup_environment
               (xcb_window (selected_window released_globals))))).
Proof.
  destruct (grab_released popup_environment grabbed_globals) as (Hrelease & _).
  destruct (grab_released popup_environment (idle_globals 89))
    as (_ & Hfailed & _).
  destruct (grab_released popup_environment released_globals)
    as (_ & _ & Hidle).
  split_and!.
  - apply (Hrelease (mkButtonPress 1 7 110 205)).
  - reflexivity.
  - apply (Hfailed (mkMotionNotify 110 205)). reflexivity.
  - reflexivity.
  - apply (Hidle (mkMotionNotify 110 205)). reflexivity.
  - apply (Hidle (mkMotionNotify 110 205)). reflexivity.
Defined.

Lemma run_handle_configure_request_untracked env g event :
  get_window_of_xcb_window env (configure_request_window event) = None →
  run (handle_configure_request event) env g
  = (mkGlobals (randr_event_base g) (selected_window g)
       (<[4%nat := to_uint32 (configure_request_border_width event)]>
          (<[3%nat := to_uint32 (configure_request_height event)]>
             (<[2%nat := to_uint32 (configure_request_width event)]>
                (<[1%nat := to_uint32 (configure_request_y event)]>
                   (<[0%nat := to_uint32 (configure_request_x event)]>
                      (g_values g))))))
       (pointer_grab g),
     [xcb_configure_window (configure_request_window event)
        (Z.lor XCB_CONFIG_SIZE XCB_CONFIG_WINDOW_BORDER_WIDTH)
        [to_uint32 (configure_request_x event);
         to_uint32 (configure_request_y event);
         to_uint32 (configure_request_width event);
         to_uint32 (configure_request_height event);
         to_uint32 (configure_request_border_width event)]]).
Proof.
  intros Hnone. unfold run, handle_configure_request.
  cbv [mbind handler_bind mret handler_ret get ask emit]. by rewrite Hnone.
Qed.

(** C7, configure requests.  For a tracked window the handler does
    nothing: no call, no global changes.  For an untracked window it
    issues one configure call for that window and nothing else; the call
    carries, for x, y, width, height and border width, the values the
    event asked for: the server reads back the requested position from
    the 32 bit slots, and the requested size and border width are in
    them as they are. *)
Theorem configure_request_echoed env g event :
  (is_Some (get_window_of_xcb_window env (configure_request_window event)) →
   run (handle_configure_request event) env g = (g, []))
  ∧ (get_window_of_xcb_window env (configure_request_window event) = None →
     configure_request_in_range event →
     ∃ value_mask value_list,
       (run (handle_configure_request event) env g).2
       = [xcb_configure_window (configure_request_window event) value_mask
            value_list]
       ∧ to_int16 <$> configured value_mask value_list XCB_CONFIG_WINDOW_X
         = Some (configure_request_x event)
       ∧ to_int16 <$> configured value_mask value_list XCB_CONFIG_WINDOW_Y
         = Some (configure_request_y event)
       ∧ configured value_mask value_list XCB_CONFIG_WINDOW_WIDTH
         = Some (configure_request_width event)
       ∧ configured value_mask value_list XCB_CONFIG_WINDOW_HEIGHT
         = Some (configure_request_height event)
       ∧ configured value_mask value_list XCB_CONFIG_WINDOW_BORDER_WIDTH
         = Some (configure_request_border_width event)
       ∧ selected_window (run (handle_configure_request event) env g).1
         = selected_window g
       ∧ pointer_grab (run (handle_configure_request event) env g).1
         = pointer_grab g).
Proof.
  split.
  - intros [window Htracked]. unfold run, handle_configure_request.
    cbv [mbind handler_bind mret handler_ret get ask emit].
    by rewrite Htracked.
  - intros Hnone (Hx & Hy & Hw & Hh & Hb).
    rewrite (run_handle_configure_request_untracked _ _ _ Hnone).
    eexists _, _. split; [reflexivity|].
    change (configured _ _ XCB_CONFIG_WINDOW_X)
      with (Some (to_uint32 (configure_request_x event))).
    change (configured _ _ XCB_CONFIG_WINDOW_Y)
      with (Some (to_uint32 (configure_request_y event))).
    change (configured _ _ XCB_CONFIG_WINDOW_WIDTH)
      with (Some (to_uint32 (configure_request_width event))).
    change (configured _ _ XCB_CONFIG_WINDOW_HEIGHT)
      with (Some (to_uint32 (configure_request_height event))).
    change (configured _ _ XCB_CONFIG_WINDOW_BORDER_WIDTH)
      with (Some (to_uint32 (configure_request_border_width event))).
    simpl. rewrite !to_int16_to_uint32, !to_uint32_small by done. done.
Qed.

Lemma configure_request_echoed_witness :
  (is_Some (get_window_of_xcb_window popup_environment
              (configure_request_window (mkConfigureRequest 8 0 0 500 500 0)))
   ∧ run (handle_configure_request (mkConfigureRequest 8 0 0 500 500 0))
       popup_environment (idle_globals 89)
     = (idle_globals 89, []))
  ∧ (get_window_of_xcb_window popup_environment
       (configure_request_window (mkConfigureRequest 9 (-3) 4 500 600 2))
     = None
     ∧ configure_request_in_range (mkConfigureRequest 9 (-3) 4 500 600 2)
     ∧ (run (handle_configure_request (mkConfigureRequest 9 (-3) 4 500 600 2))
          popup_environment (idle_globals 89)).2
       = [xcb_configure_window 9 31 [4294967293; 4; 500; 600; 2]]
     ∧ to_int16 <$> configured 31 [4294967293; 4; 500; 600; 2]
                      XCB_CONFIG_WINDOW_X = Some (-3)).
Proof.
  assert (is_Some (get_window_of_xcb_window popup_environment
    (configure_request_window (mkConfigureRequest 8 0 0 500 500 0))))
    as Htracked by by eexists.
  assert (configure_request_in_range (mkConfigureRequest 9 (-3) 4 500 600 2))
    as Hrange by by vm_compute.
  destruct (proj2 (configure_request_echoed popup_environment (idle_globals 89)
    (mkConfigureRequest 9 (-3) 4 500 600 2)) eq_refl Hrange)
    as (value_mask & value_list & Hcall & Hx & _).
  injection Hcall as <- <-.
  split_and!; [done| |reflexivity|done|reflexivity|exact Hx].
  exact (proj1 (configure_request_echoed popup_environment (idle_globals 89)
    (mkConfigureRequest 8 0 0 500 500 0)) Htracked).
Defined.

(** C8, the reposition of a motion event.  When the geometry query for
    the grabbed window succeeds, the handler issues the query and one
    configure call for that window and nothing else; the call sets x and
    y to the position of the window plus the pointer position minus the
    old pointer position, as [uint32_t], which the server reads back as
    that sum when it is an INT16; afterwards the old pointer position is
    the pointer position of the event, and the start position, the
    window and the grab are as before. *)
Theorem motion_reposition env g event geometry :
  xcb_get_geometry_reply env (xcb_window (selected_window g)) = Some geometry →
  ∃ x y,
    x = geometry_x geometry
        + (motion_notify_root_x event
           - position_x (old_mouse (selected_window g)))
    ∧ y = geometry_y geometry
          + (motion_notify_root_y event
             - position_y (old_mouse (selected_window g)))
    ∧ (run (handle_motion_notify event) env g).2
      = [xcb_get_geometry (xcb_window (selected_window g));
         xcb_configure_window (xcb_window (selected_window g))
           (Z.lor XCB_CONFIG_WINDOW_X XCB_CONFIG_WINDOW_Y)
           [to_uint32 x; to_uint32 y]]
    ∧ configured (Z.lor XCB_CONFIG_WINDOW_X XCB_CONFIG_WINDOW_Y)
        [to_uint32 x; to_uint32 y] XCB_CONFIG_WINDOW_X = Some (to_uint32 x)
    ∧ configured (Z.lor XCB_CONFIG_WINDOW_X XCB_CONFIG_WINDOW_Y)
        [to_uint32 x; to_uint32 y] XCB_CONFIG_WINDOW_Y = Some (to_uint32 y)
    ∧ (- 2 ^ 15 ≤ x < 2 ^ 15 → to_int16 (to_uint32 x) = x)
    ∧ (- 2 ^ 15 ≤ y < 2 ^ 15 → to_int16 (to_uint32 y) = y)
    ∧ selected_window (run (handle_motion_notify event) env g).1
      = mkSelected (start (selected_window g))
          (mkPosition (motion_notify_root_x event)
             (motion_notify_root_y event))
          (xcb_window (selected_window g))
    ∧ pointer_grab (run (handle_motion_notify event) env g).1 = pointer_grab g.
Proof.
  intros Hreply. rewrite (run_handle_motion_notify_moved _ _ _ _ Hreply).
  eexists _, _. split_and!; try reflexivity; apply to_int16_to_uint32.
Qed.

(** The scenario of the spec: the grab started at (100, 200) on a window
    at (10, 20); a motion to (110, 205) moves the window to (20, 25) and
    makes (110, 205) the old pointer position. *)
Lemma motion_reposition_witness :
  xcb_get_geometry_reply popup_environment
    (xcb_window (selected_window grabbed_globals))
  = Some (mkGeometry 10 20 300 200)
  ∧ (run (handle_motion_notify (mkMotionNotify 110 205)) popup_environment
       grabbed_globals).2
    = [xcb_get_geometry 7; xcb_configure_window 7 3 [20; 25]]
  ∧ selected_window
      (run (handle_motion_notify (mkMotionNotify 110 205)) popup_environment
         grabbed_globals).1
    = mkSelected (mkPosition 200 200) (mkPosition 110 205) 7
  ∧ pointer_grab
      (run (handle_motion_notify (mkMotionNotify 110 205)) popup_environment
         grabbed_globals).1 = true.
Proof.
  destruct (motion_reposition popup_environment grabbed_globals
              (mkMotionNotify 110 205) (mkGeometry 10 20 300 200) eq_refl)
    as (x & y & -> & -> & Hcalls & _ & _ & _ & _ & Hselected & Hgrab).
  split_and!; [reflexivity|exact Hcalls|exact Hselected|exact Hgrab].
Defined.

Lemma run_handle_button_press_grabbed env g event :
  popup_with_geometry env (button_press_child event) →
  run (handle_button_press event) env g
  = (mkGlobals (randr_event_base g)
       (mkSelected
          (mkPosition (button_press_root_y event) (button_press_root_y event))
          (mkPosition (button_press_root_x event) (button_press_root_y event))
          (button_press_child event))
       (g_values g) true,
     [xcb_get_geometry (button_press_child event);
      xcb_grab_pointer 0 (button_press_root event)
        (Z.lor XCB_EVENT_MASK_BUTTON_RELEASE XCB_EVENT_MASK_BUTTON_MOTION)
        XCB_GRAB_MODE_ASYNC XCB_GRAB_MODE_ASYNC (button_press_root event)
        XCB_NONE XCB_CURRENT_TIME]).
Proof.
  intros (window & geometry & Hwindow & Hpopup & Hreply).
  unfold run, handle_button_press, get_geometry.
  cbv [mbind handler_bind mret handler_ret get ask emit].
  rewrite Hwindow, decide_False by (intros Hne; by apply Hne).
  by rewrite Hreply.
Qed.

Lemma run_handle_button_press_ignored env g event :
  ¬ popup_with_geometry env (button_press_child event) →
  (run (handle_button_press event) env g).1 = g
  ∧ existsb is_grab_pointer (run (handle_button_press event) env g).2 = false.
Proof.
  intros Hno. unfold run, handle_button_press, get_geometry.
  cbv [mbind handler_bind mret handler_ret get ask emit].
  destruct (get_window_of_xcb_window env (button_press_child event))
    as [window|] eqn:Hwindow; [|done].
  case_decide as Hpopup; [done|].
  destruct (xcb_get_geometry_reply env (button_press_child event))
    as [geometry|] eqn:Hreply; [|done].
  destruct Hno. by exists window, geometry.
Qed.

(** C9, the start of a grab.  A button press makes the handler grab the
    pointer, for button releases and button motion, if and only if the
    window under the pointer is tracked, is a popup and has its geometry
    query answered.  It then remembers (root_y, root_y) as the start
    position, both components from the vertical coordinate, (root_x,
    root_y) as the old pointer position and the window under the pointer
    as the window, and the grab is active.  Otherwise no global changes
    and the pointer is not grabbed; over a tracked window that is no
    popup nothing at all is called. *)
Theorem button_press_grab env g event :
  (existsb is_grab_pointer (run (handle_button_press event) env g).2 = true
   ↔ popup_with_geometry env (button_press_child event))
  ∧ (popup_with_geometry env (button_press_child event) →
     run (handle_button_press event) env g
     = (mkGlobals (randr_event_base g)
          (mkSelected
             (mkPosition (button_press_root_y event)
                (button_press_root_y event))
             (mkPosition (button_press_root_x event)
                (button_press_root_y event))
             (button_press_child event))
          (g_values g) true,
        [xcb_get_geometry (button_press_child event);
         xcb_grab_pointer 0 (button_press_root event)
           (Z.lor XCB_EVENT_MASK_BUTTON_RELEASE XCB_EVENT_MASK_BUTTON_MOTION)
           XCB_GRAB_MODE_ASYNC XCB_GRAB_MODE_ASYNC (button_press_root event)
           XCB_NONE XCB_CURRENT_TIME])
     ∧ active (run (handle_button_press event) env g).1 = true)
  ∧ (¬ popup_with_geometry env (button_press_child event) →
     (run (handle_button_press event) env g).1 = g
     ∧ existsb is_grab_pointer (run (handle_button_press event) env g).2
       = false)
  ∧ (∀ window,
       get_window_of_xcb_window env (button_press_child event) = Some window →
       state_current window ≠ WINDOW_STATE_POPUP →
       run (handle_button_press event) env g = (g, [])).
Proof.
  split_and!.
  - split.
    + intros Hgrab. apply dec_stable. intros Hno.
      destruct (run_handle_button_press_ignored env g event Hno) as [_ Hnone].
      congruence.
    + intros Hpopup. by rewrite run_handle_button_press_grabbed.
  - intros Hpopup. by rewrite run_handle_button_press_grabbed.
  - apply run_handle_button_press_ignored.
  - intros window Hwindow Hstate. unfold run, handle_button_press.
    cbv [mbind handler_bind mret handler_ret get ask emit].
    by rewrite Hwindow, decide_True.
Qed.

(** The scenarios of the spec: a press at (100, 200) over the popup
    starts the grab; a press over the window that is no popup does
    nothing. *)
Lemma button_press_grab_witness :
  (popup_with_geometry popup_environment
     (button_press_child (mkButtonPress 1 7 100 200))
   ∧ run (handle_button_press (mkButtonPress 1 7 100 200)) popup_environment
       (idle_globals 89)
     = (grabbed_globals,
        [xcb_get_geometry 7; xcb_grab_pointer 0 1 8200 1 1 1 0 0]))
  ∧ (get_window_of_xcb_window popup_environment
       (button_press_child (mkButtonPress 1 8 100 200))
     = Some (mkWindow 8 WINDOW_STATE_SHOWN)
     ∧ state_current (mkWindow 8 WINDOW_STATE_SHOWN) ≠ WINDOW_STATE_POPUP
     ∧ run (handle_button_press (mkButtonPress 1 8 100 200)) popup_environment
         (idle_globals 89)
       = (idle_globals 89, [])).
Proof.
  assert (popup_with_geometry popup_environment
            (button_press_child (mkButtonPress 1 7 100 200))) as Hpopup.
  { by exists (mkWindow 7 WINDOW_STATE_POPUP), (mkGeometry 10 20 300 200). }
  assert (state_current (mkWindow 8 WINDOW_STATE_SHOWN) ≠ WINDOW_STATE_POPUP)
    as Hshown by done.
  destruct (button_press_grab popup_environment (idle_globals 89)
              (mkButtonPress 1 7 100 200)) as (_ & Hgrab & _ & _).
  destruct (button_press_grab popup_environment (idle_globals 89)
              (mkButtonPress 1 8 100 200)) as (_ & _ & _ & Hignore).
  split_and!; [done| |reflexivity|done|].
  - exact (proj1 (Hgrab Hpopup)).
  - exact (Hignore _ eq_refl Hshown).
Defined.

(** ** Further facts about the merge *)

Section merge_more_facts.
Context {B : Type} `{Binding B}.
Implicit Types (old : list B) (ds : list default_binding) (mem : memory).

Lemma duplicate_action_no_text a mem :
  get_action_data_type (code a) ≠ DATA_TYPE_STRING →
  duplicate_action a mem = ([a], mem).
Proof.
  intros Hno. unfold duplicate_action, duplicate_data_value.
  destruct a as [c v]. simpl in *.
  by destruct (get_action_data_type c).
Qed.



Lemma copies_app base ds1 ds2 mem :
  copies (B:=B) base (ds1 ++ ds2) mem
  = ((copies base ds1 mem).1
       ++ (copies base ds2 (copies (B:=B) base ds1 mem).2).1,
     (copies (B:=B) base ds2 (copies (B:=B) base ds1 mem).2).2).
Proof.
  revert mem. induction ds1 as [|d ds1 IH]; intros mem.
  - simpl. by destruct (copies base ds2 mem).
  - rewrite <- app_comm_cons, !copies_cons, IH. done.
Qed.

Lemma copies_no_text base ds mem :
  Forall no_text ds → (copies (B:=B) base ds mem).2 = mem.
Proof.
  intros Hall. revert mem.
  induction Hall as [|d ds Hd _ IH]; intros mem; [done|].
  rewrite copies_cons. simpl. by rewrite IH, (duplicate_action_no_text _ _ Hd).
Qed.

Lemma merged_retrievable ds junk base old number mem :
  well_formed ds old number →
  retrievable ds base old number
    (merge_with_default_bindings ds junk base old number mem).1.1
    (merge_with_default_bindings ds junk base old number mem).1.2.
Proof.
  intros Hwf. pose proof Hwf as [Hn _].
  rewrite (merged_new ds junk base old number mem Hwf),
    (merged_number ds junk base old number mem Hwf).
  pose proof (merged_news_triggers ds base old number mem) as Ht.
  pose proof (copies_codes (B:=B) base (missing ds base old number) mem) as Hc.
  pose proof (merged_news_length ds base old number mem) as Hl.
  set (news := (copies base (missing ds base old number) mem).1) in *.
  intros d Hd. destruct (decide (absent base old number d)) as [Ha|Ha].
  - assert (effective_trigger base d ∈ trigger_of <$> news) as Hin.
    { rewrite Ht. apply list_elem_of_fmap_2. by apply list_elem_of_filter. }
    apply list_elem_of_fmap in Hin as (b0 & Hb0 & Hin0).
    destruct (list_find_elem_of (λ b, trigger_of b = effective_trigger base d)
                news b0) as [[p b] Hfind]; [done..|].
    pose proof Hfind as (Hp & Hb & Hleast)%list_find_Some.
    assert (∀ k b', news !! k = Some b' →
      ∃ d', missing ds base old number !! k = Some d'
        ∧ trigger_of b' = effective_trigger base d'
        ∧ code <$> binding_actions b' = [code (default_action d')]) as Hget.
    { intros k b' Hk.
      destruct (lookup_lt_is_Some_2 (missing ds base old number) k) as [d' Hd'].
      { rewrite <- Hl. by eapply lookup_lt_Some. }
      exists d'. split; [done|]. split.
      - apply (f_equal (λ l, l !! k)) in Ht.
        rewrite !list_lookup_fmap, Hk, Hd' in Ht. simpl in Ht. congruence.
      - apply (f_equal (λ l, l !! k)) in Hc.
        rewrite !list_lookup_fmap, Hk, Hd' in Hc. simpl in Hc. congruence. }
    destruct (Hget p b Hp) as (d0 & Hd0 & Ht0 & Hc0).
    exists (length old + p)%nat, b. split_and!.
    + unfold find_configured.
      rewrite Hn, <- Nat2Z.inj_add, Nat2Z.id, <- length_app, take_ge by lia.
      rewrite list_find_app_r.
      * change (effective_modifiers base d, default_symbol d, default_flags d)
          with (effective_trigger base d).
        rewrite Hfind. simpl. f_equal. lia.
      * apply list_find_None, Forall_forall. intros b' Hb'.
        by apply (absent_not_stored base old number d b' Hn Ha).
    + rewrite lookup_app_r by lia. by replace (_ + _ - _)%nat with p by lia.
    + done.
    + done.
    + intros _. exists p, d0. split_and!; [done..|congruence|done|].
      intros q d' Hq Hd' Heq.
      destruct (lookup_lt_is_Some_2 news q) as [b' Hb'].
      { rewrite Hl. by eapply lookup_lt_Some. }
      destruct (Hget q b' Hb') as (d'' & Hd'' & Ht'' & _).
      apply (Hleast q b' Hb' Hq). congruence.
  - assert (effective_trigger base d ∈ trigger_of <$> old) as Hin.
    { apply dec_stable. by rewrite <- (absent_iff base old number d Hn). }
    pose proof (find_configured_kept old news number _ _ _ Hn Hin) as Hk.
    apply list_elem_of_fmap in Hin as (b0 & Hb0 & Hin0).
    destruct (list_find_elem_of (λ b, trigger_of b = effective_trigger base d)
                old b0) as [[i b] Hfind]; [done..|].
    pose proof Hfind as (Hi & Hb & _)%list_find_Some.
    assert (find_configured old number (effective_modifiers base d)
      (default_symbol d) (default_flags d) = Some i) as Hold.
    { unfold find_configured. rewrite Hn, Nat2Z.id, take_ge by lia.
      change (effective_modifiers base d, default_symbol d, default_flags d)
        with (effective_trigger base d).
      by rewrite Hfind. }
    exists i, b. rewrite Hk, Hold.
    split_and!; [done|by apply lookup_app_l_Some|done|done|done].
Qed.
Lemma merged_any_junk ds junk junk' base old number mem :
  well_formed ds old number →
  merge_with_default_bindings ds junk base old number mem
  = merge_with_default_bindings ds junk' base old number mem.
Proof.
  intros Hwf.
  by rewrite !(merge_with_default_bindings_spec ds _ base old number mem Hwf).
Qed.

Lemma merged_count ds junk base old number mem :
  well_formed ds old number →
  (merge_with_default_bindings ds junk base old number mem).1.2
  = Z.of_nat
      (length (merge_with_default_bindings ds junk base old number mem).1.1)
  ∧ number ≤ (merge_with_default_bindings ds junk base old number mem).1.2
    ≤ number + Z.of_nat (length ds)
  ∧ (merge_with_default_bindings ds junk base old number mem).1.2 < 2 ^ 32.
Proof.
  intros Hwf. pose proof Hwf as [Hn Hfit].
  rewrite (merged_new ds junk base old number mem Hwf),
    (merged_number ds junk base old number mem Hwf).
  rewrite length_app, merged_news_length.
  pose proof (length_filter (absent base old number) ds) as Hle.
  unfold missing. lia.
Qed.



Lemma copies_no_text_fmap base ds mem :
  Forall no_text ds →
  (copies (B:=B) base ds mem).1
  = (λ d, make_binding (default_flags d) (effective_modifiers base d)
            (default_symbol d) [default_action d] 1) <$> ds.
Proof.
  intros Hall. revert mem.
  induction Hall as [|d ds Hd _ IH]; intros mem; [done|].
  rewrite copies_cons, (duplicate_action_no_text _ _ Hd). simpl. by rewrite IH.
Qed.

Lemma missing_empty ds base : missing (B:=B) ds base [] 0 = ds.
Proof.
  unfold missing. induction ds as [|d ds IH]; [done|].
  rewrite filter_cons_True; [by rewrite IH|]. done.
Qed.

Lemma merged_empty ds junk base mem :
  Z.of_nat (length ds) < 2 ^ 32 →
  merge_with_default_bindings ds junk base [] 0 mem
  = ((copies (B:=B) base ds mem).1, Z.of_nat (length ds),
     (copies (B:=B) base ds mem).2).
Proof.
  intros Hfit. assert (well_formed ds ([] : list B) 0) as Hwf by by split.
  rewrite (merge_with_default_bindings_spec ds junk base [] 0 mem Hwf).
  fold (missing ds base ([] : list B) 0). rewrite missing_empty.
  pose proof (copies_length (B:=B) base ds mem) as Hl.
  destruct (copies base ds mem) as [news mem']. simpl in *. by rewrite Hl.
Qed.

Lemma merged_unchanged_iff ds junk base old number mem :
  well_formed ds old number →
  (merge_with_default_bindings ds junk base old number mem).1
  = (old, number)
  ↔ missing ds base old number = [].
Proof.
  intros Hwf. split.
  - intros Heq. apply (f_equal snd) in Heq. simpl in Heq.
    rewrite (merged_number ds junk base old number mem Hwf),
      merged_news_length in Heq.
    apply length_zero_iff_nil. lia.
  - intros Hnone. rewrite merge_with_default_bindings_none; [done|].
    apply Forall_forall. intros d Hd Ha.
    assert (d ∈ missing ds base old number) as Hin
      by by apply list_elem_of_filter.
    rewrite Hnone in Hin. by apply elem_of_nil in Hin.
Qed.

Lemma to_uint16_lor a b :
  to_uint16 (Z.lor a b) = Z.lor (to_uint16 a) (to_uint16 b).
Proof.
  unfold to_uint16. rewrite <- !Z.land_ones by lia. apply Z.land_lor_distr_l.
Qed.

Lemma effective_modifiers_hold_base base d :
  Z.land (effective_modifiers base d) (to_uint16 base) = to_uint16 base.
Proof.
  unfold effective_modifiers. rewrite to_uint16_lor.
  apply Z.bits_inj'. intros n _. rewrite Z.land_spec, Z.lor_spec.
  by destruct (Z.testbit (to_uint16 (default_modifiers d)) n),
    (Z.testbit (to_uint16 base) n).
Qed.

Lemma copies_around_text base pre d post mem :
  Forall no_text pre → Forall no_text post →
  copies (B:=B) base (pre ++ d :: post) mem
  = (((λ d, make_binding (default_flags d) (effective_modifiers base d)
              (default_symbol d) [default_action d] 1) <$> pre)
       ++ make_binding (default_flags d) (effective_modifiers base d)
            (default_symbol d) (duplicate_action (default_action d) mem).1 1
       :: ((λ d, make_binding (default_flags d) (effective_modifiers base d)
                   (default_symbol d) [default_action d] 1) <$> post),
     (duplicate_action (default_action d) mem).2).
Proof.
  intros Hpre Hpost. rewrite copies_app, copies_cons. simpl.
  rewrite !(copies_no_text base pre), !(copies_no_text base post) by done.
  by rewrite !copies_no_text_fmap by done.
Qed.

Lemma copies_shape base ds mem b :
  b ∈ (copies (B:=B) base ds mem).1 →
  ∃ d a, d ∈ ds
    ∧ b = make_binding (default_flags d) (effective_modifiers base d)
            (default_symbol d) [a] 1.
Proof.
  revert mem. induction ds as [|d ds IH]; intros mem.
  - by intros ?%elem_of_nil.
  - rewrite copies_cons. simpl. intros [->|Hin]%elem_of_cons.
    + exists d. unfold duplicate_action.
      destruct (duplicate_data_value _ _ _) as [value mem1]. simpl.
      eexists. split; [by left|done].
    + destruct (IH _ Hin) as (d' & a & Hd' & ->).
      exists d', a. split; [by right|done].
Qed.

Lemma merged_appended_shape ds junk base old number mem i b :
  well_formed ds old number →
  (length old ≤ i)%nat →
  (merge_with_default_bindings ds junk base old number mem).1.1 !! i = Some b →
  ∃ d a, d ∈ ds
    ∧ b = make_binding (default_flags d) (effective_modifiers base d)
            (default_symbol d) [a] 1.
Proof.
  intros Hwf Hi. rewrite (merged_new ds junk base old number mem Hwf).
  rewrite lookup_app_r by done. intros Hb%list_elem_of_lookup_2.
  destruct (copies_shape _ _ _ _ Hb) as (d & a & Hd & ->).
  exists d, a. split; [|done].
  by apply list_elem_of_filter in Hd as [_ Hd].
Qed.

Lemma effective_modifiers_range base d :
  0 ≤ effective_modifiers base d < 2 ^ 16.
Proof. unfold effective_modifiers, to_uint16. apply Z.mod_pos_bound. lia. Qed.
End merge_more_facts.

Lemma default_button_bindings_no_text :
  Forall no_text default_button_bindings.
Proof. apply (bool_decide_unpack _). by vm_compute. Qed.




Lemma default_key_bindings_split :
  default_key_bindings
  = take 38 default_key_bindings
    ++ terminal_default :: drop 39 default_key_bindings.
Proof. reflexivity. Qed.

Lemma default_key_bindings_no_text :
  Forall no_text (take 38 default_key_bindings)
  ∧ Forall no_text (drop 39 default_key_bindings).
Proof. split; apply (bool_decide_unpack _); by vm_compute. Qed.

Lemma duplicate_action_terminal mem :
  duplicate_action (default_action terminal_default) mem
  = ([mkAction ACTION_RUN (string_value (allocated (fresh (dom mem))))],
     <[fresh (dom mem) := terminal_command]> mem).
Proof. reflexivity. Qed.

(** X2.  On a table whose stored count is the length of its array, what a
    merge returns does not depend on what the reallocation leaves in the
    slots it adds; the stored count after the merge is the length of the
    array again, it is at least the count before and exceeds it by at most
    the number of defaults, 40 keys and 3 buttons. *)
Theorem merge_fills_added_slots junk_key junk_key' junk_button junk_button'
    c mem :
  (key_table_ok c →
   merge_with_default_key_bindings junk_key c mem
   = merge_with_default_key_bindings junk_key' c mem
   ∧ number_of_keys (merged_keys junk_key c mem)
     = Z.of_nat (length (keys (merged_keys junk_key c mem)))
   ∧ number_of_keys (keyboard c) ≤ number_of_keys (merged_keys junk_key c mem)
     ≤ number_of_keys (keyboard c) + 40)
  ∧ (button_table_ok c →
     merge_with_default_button_bindings junk_button c mem
     = merge_with_default_button_bindings junk_button' c mem
     ∧ number_of_buttons (merged_buttons junk_button c mem)
       = Z.of_nat (length (buttons (merged_buttons junk_button c mem)))
     ∧ number_of_buttons (mouse c)
       ≤ number_of_buttons (merged_buttons junk_button c mem)
       ≤ number_of_buttons (mouse c) + 3).
Proof.
  split; intros Hok.
  - split.
    + rewrite !merge_with_default_key_bindings_unfold.
      by rewrite (merged_any_junk _ junk_key junk_key'
             (keyboard_modifiers (keyboard c)) _ _ mem Hok).
    + rewrite merged_keys_number, merged_keys_keys.
      destruct (merged_count default_key_bindings junk_key
                  (keyboard_modifiers (keyboard c)) _ _ mem Hok)
        as (Hlen & Hle & _).
      assert (length default_key_bindings = 40%nat) as Hsize by reflexivity.
      rewrite Hsize in Hle. split; [exact Hlen|exact Hle].
  - split.
    + rewrite !merge_with_default_button_bindings_unfold.
      by rewrite (merged_any_junk _ junk_button junk_button'
             (mouse_modifiers (mouse c)) _ _ mem Hok).
    + rewrite merged_buttons_number, merged_buttons_buttons.
      destruct (merged_count default_button_bindings junk_button
                  (mouse_modifiers (mouse c)) _ _ mem Hok)
        as (Hlen & Hle & _).
      split; [exact Hlen|exact Hle].
Qed.

Lemma merge_fills_added_slots_witness :
  (key_table_ok user_configuration
   ∧ merge_with_default_key_bindings blank_key user_configuration user_memory
     = merge_with_default_key_bindings
         (mkKey 1 2 3 [mkAction ACTION_QUIT zero_value] 7)
         user_configuration user_memory
   ∧ number_of_keys (merged_keys blank_key user_configuration user_memory)
     = 40)
  ∧ (button_table_ok user_configuration
     ∧ number_of_buttons
         (merged_buttons blank_button user_configuration user_memory)
       = 3).
Proof.
  destruct user_configuration_ok as [Hk Hb].
  destruct (merge_fills_added_slots blank_key
              (mkKey 1 2 3 [mkAction ACTION_QUIT zero_value] 7)
              blank_button blank_button user_configuration user_memory)
    as [Hkeys Hbuttons].
  exact (conj (conj Hk (conj (proj1 (Hkeys Hk)) eq_refl))
           (conj Hb eq_refl)).
Defined.



(** X4.  After a merge every default is found by the lookup under its
    effective trigger.  A default that was found before is found in the
    same slot, which holds the binding it held before.  A default that
    was absent is found past the old end, in the slot written for the
    first absent default with that effective trigger, and the binding
    there carries the action code of that first default: of two defaults
    with one effective trigger the later one is in the table and is
    never the one found. *)
Theorem defaults_retrievable junk_key junk_button c mem :
  (key_table_ok c →
   retrievable default_key_bindings (keyboard_modifiers (keyboard c))
     (keys (keyboard c)) (number_of_keys (keyboard c))
     (keys (merged_keys junk_key c mem))
     (number_of_keys (merged_keys junk_key c mem)))
  ∧ (button_table_ok c →
     retrievable default_button_bindings (mouse_modifiers (mouse c))
       (buttons (mouse c)) (number_of_buttons (mouse c))
       (buttons (merged_buttons junk_button c mem))
       (number_of_buttons (merged_buttons junk_button c mem))).
Proof.
  split; intros Hok.
  - rewrite merged_keys_keys, merged_keys_number.
    by apply merged_retrievable.
  - rewrite merged_buttons_buttons, merged_buttons_number.
    by apply merged_retrievable.
Qed.

Lemma defaults_retrievable_witness :
  (key_table_ok shift_configuration
   ∧ retrievable default_key_bindings XCB_MOD_MASK_SHIFT [] 0
       (keys (merged_keys blank_key shift_configuration ∅))
       (number_of_keys (merged_keys blank_key shift_configuration ∅)))
  ∧ (button_table_ok shift_configuration
     ∧ retrievable default_button_bindings XCB_MOD_MASK_4 [] 0
         (buttons (merged_buttons blank_button shift_configuration ∅))
         (number_of_buttons
            (merged_buttons blank_button shift_configuration ∅))).
Proof.
  destruct shift_configuration_ok as [Hk Hb].
  destruct (defaults_retrievable blank_key blank_button shift_configuration ∅)
    as [Hkeys Hbuttons].
  exact (conj (conj Hk (Hkeys Hk)) (conj Hb (Hbuttons Hb))).
Defined.

(** With Shift as the main modifier the lookup of r with Shift, which is
    the effective trigger of the default that removes the frame, finds
    the slot 0: the binding that reloads the configuration. *)
Example remove_frame_shadowed :
  find_configured_key
    (merge_with_default_key_bindings blank_key shift_configuration ∅).1
    (effective_modifiers XCB_MOD_MASK_SHIFT remove_frame_default) XK_r 0
  = Some 0%nat
  ∧ (λ b, code <$> key_actions b)
      <$> (keys (merged_keys blank_key shift_configuration ∅) !! 0%nat)
    = Some [ACTION_RELOAD_CONFIGURATION].
Proof. split; reflexivity. Qed.

(** X5.  A merge changes the table exactly when some default is absent
    from it: it returns the array and the stored count it was given if
    and only if the lookup finds every default; it then returns the
    configuration and the memory as they were. *)
Theorem merge_changes_iff_missing junk_key junk_button c mem :
  (key_table_ok c →
   ((keys (merged_keys junk_key c mem) = keys (keyboard c)
     ∧ number_of_keys (merged_keys junk_key c mem)
       = number_of_keys (keyboard c))
    ↔ missing default_key_bindings (keyboard_modifiers (keyboard c))
        (keys (keyboard c)) (number_of_keys (keyboard c)) = [])
   ∧ (missing default_key_bindings (keyboard_modifiers (keyboard c))
        (keys (keyboard c)) (number_of_keys (keyboard c)) = [] →
      merge_with_default_key_bindings junk_key c mem = (c, mem)))
  ∧ (button_table_ok c →
     ((buttons (merged_buttons junk_button c mem) = buttons (mouse c)
       ∧ number_of_buttons (merged_buttons junk_button c mem)
         = number_of_buttons (mouse c))
      ↔ missing default_button_bindings (mouse_modifiers (mouse c))
          (buttons (mouse c)) (number_of_buttons (mouse c)) = [])
     ∧ (missing default_button_bindings (mouse_modifiers (mouse c))
          (buttons (mouse c)) (number_of_buttons (mouse c)) = [] →
        merge_with_default_button_bindings junk_button c mem = (c, mem))).
Proof.
  split; intros Hok.
  - pose proof (merged_unchanged_iff default_key_bindings junk_key
      (keyboard_modifiers (keyboard c)) _ _ mem Hok) as Hiff.
    split.
    + rewrite merged_keys_keys, merged_keys_number, <- Hiff.
      destruct (merge_with_default_bindings _ _ _ _ _ _)
        as [[new number'] mem'].
      simpl. split; [by intros [-> ->]|by intros [= -> ->]].
    + intros Hnone. apply Hiff in Hnone.
      rewrite merge_with_default_key_bindings_unfold.
      rewrite (merged_mem default_key_bindings junk_key
        (keyboard_modifiers (keyboard c)) _ _ mem Hok).
      apply (f_equal fst) in Hnone as Hkeys.
      apply (f_equal snd) in Hnone as Hcount.
      simpl in Hkeys, Hcount. rewrite Hkeys, Hcount.
      apply (merged_unchanged_iff default_key_bindings junk_key
        (keyboard_modifiers (keyboard c)) _ _ mem Hok) in Hnone.
      rewrite Hnone. by destruct c as [m []].
  - pose proof (merged_unchanged_iff default_button_bindings junk_button
      (mouse_modifiers (mouse c)) _ _ mem Hok) as Hiff.
    split.
    + rewrite merged_buttons_buttons, merged_buttons_number, <- Hiff.
      destruct (merge_with_default_bindings _ _ _ _ _ _)
        as [[new number'] mem'].
      simpl. split; [by intros [-> ->]|by intros [= -> ->]].
    + intros Hnone. apply Hiff in Hnone.
      rewrite merge_with_default_button_bindings_unfold.
      rewrite (merged_mem default_button_bindings junk_button
        (mouse_modifiers (mouse c)) _ _ mem Hok).
      apply (f_equal fst) in Hnone as Hkeys.
      apply (f_equal snd) in Hnone as Hcount.
      simpl in Hkeys, Hcount. rewrite Hkeys, Hcount.
      apply (merged_unchanged_iff default_button_bindings junk_button
        (mouse_modifiers (mouse c)) _ _ mem Hok) in Hnone.
      rewrite Hnone. by destruct c as [[] k].
Qed.

Lemma merge_changes_iff_missing_witness :
  (key_table_ok (load_default_configuration blank_button blank_key ∅).1
   ∧ missing default_key_bindings XCB_MOD_MASK_4
       (keys (keyboard (load_default_configuration blank_button blank_key ∅).1))
       40 = []
   ∧ merge_with_default_key_bindings blank_key
       (load_default_configuration blank_button blank_key ∅).1 user_memory
     = ((load_default_configuration blank_button blank_key ∅).1, user_memory))
  ∧ (button_table_ok (load_default_configuration blank_button blank_key ∅).1
     ∧ missing default_button_bindings XCB_MOD_MASK_4
         (buttons
            (mouse (load_default_configuration blank_button blank_key ∅).1))
         3 = []
     ∧ merge_with_default_button_bindings blank_button
         (load_default_configuration blank_button blank_key ∅).1 user_memory
       = ((load_default_configuration blank_button blank_key ∅).1,
          user_memory)).
Proof.
  assert (key_table_ok (load_default_configuration blank_button blank_key ∅).1)
    as Hk by by vm_compute.
  assert (button_table_ok
            (load_default_configuration blank_button blank_key ∅).1)
    as Hb by by vm_compute.
  destruct (merge_changes_iff_missing blank_key blank_button
              (load_default_configuration blank_button blank_key ∅).1
              user_memory) as [Hkeys Hbuttons].
  exact (conj
    (conj Hk (conj eq_refl (proj2 (Hkeys Hk) eq_refl)))
    (conj Hb (conj eq_refl (proj2 (Hbuttons Hb) eq_refl)))).
Defined.

Lemma default_bindings_flags :
  Forall (λ d, default_flags d = 0) default_key_bindings
  ∧ Forall (λ d, default_flags d = 0) default_button_bindings.
Proof. split; apply (bool_decide_unpack _); by vm_compute. Qed.

(** X6.  Every binding a merge appends is bound under the main modifier
    of its table: its modifiers, a 16 bit value, hold every bit of the
    main modifier.  It has no flag set, and one action. *)
Theorem appended_bindings_hold_main_modifier junk_key junk_button c mem :
  (key_table_ok c →
   ∀ i b, (length (keys (keyboard c)) ≤ i)%nat →
     keys (merged_keys junk_key c mem) !! i = Some b →
     Z.land (key_modifiers b) (to_uint16 (keyboard_modifiers (keyboard c)))
     = to_uint16 (keyboard_modifiers (keyboard c))
     ∧ 0 ≤ key_modifiers b < 2 ^ 16
     ∧ key_flags b = 0
     ∧ key_number_of_actions b = 1
     ∧ length (key_actions b) = 1%nat)
  ∧ (button_table_ok c →
     ∀ i b, (length (buttons (mouse c)) ≤ i)%nat →
       buttons (merged_buttons junk_button c mem) !! i = Some b →
       Z.land (button_modifiers b) (to_uint16 (mouse_modifiers (mouse c)))
       = to_uint16 (mouse_modifiers (mouse c))
       ∧ 0 ≤ button_modifiers b < 2 ^ 16
       ∧ button_flags b = 0
       ∧ button_number_of_actions b = 1
       ∧ length (button_actions b) = 1%nat).
Proof.
  destruct default_bindings_flags as [Hkey_flags Hbutton_flags].
  split; intros Hok i b Hi.
  - rewrite merged_keys_keys. intros Hb.
    destruct (merged_appended_shape _ _ _ _ _ _ _ _ Hok Hi Hb)
      as (d & a & Hd & ->).
    rewrite Forall_forall in Hkey_flags. specialize (Hkey_flags d Hd).
    simpl. split_and!; [apply effective_modifiers_hold_base|
      apply effective_modifiers_range..|done|done|done].
  - rewrite merged_buttons_buttons. intros Hb.
    destruct (merged_appended_shape _ _ _ _ _ _ _ _ Hok Hi Hb)
      as (d & a & Hd & ->).
    rewrite Forall_forall in Hbutton_flags. specialize (Hbutton_flags d Hd).
    simpl. split_and!; [apply effective_modifiers_hold_base|
      apply effective_modifiers_range..|done|done|done].
Qed.

Lemma appended_bindings_hold_main_modifier_witness :
  (key_table_ok user_configuration
   ∧ (length (keys (keyboard user_configuration)) ≤ 5)%nat
   ∧ keys (merged_keys blank_key user_configuration user_memory) !! 5%nat
     = Some (mkKey 0 XCB_MOD_MASK_4 XK_minus
               [mkAction ACTION_MINIMIZE_WINDOW zero_value] 1)
   ∧ Z.land XCB_MOD_MASK_4
       (to_uint16 (keyboard_modifiers (keyboard user_configuration)))
     = to_uint16 (keyboard_modifiers (keyboard user_configuration)))
  ∧ (button_table_ok user_configuration
     ∧ (length (buttons (mouse user_configuration)) ≤ 1)%nat
     ∧ buttons (merged_buttons blank_button user_configuration user_memory)
         !! 1%nat
       = Some (mkButton 0 XCB_MOD_MASK_4 2
                 [mkAction ACTION_MINIMIZE_WINDOW zero_value] 1)
     ∧ Z.land XCB_MOD_MASK_4
         (to_uint16 (mouse_modifiers (mouse user_configuration)))
       = to_uint16 (mouse_modifiers (mouse user_configuration))).
Proof.
  destruct user_configuration_ok as [Hk Hb].
  assert (length (keys (keyboard user_configuration)) ≤ 5)%nat as Hi
    by (simpl; lia).
  assert (length (buttons (mouse user_configuration)) ≤ 1)%nat as Hj
    by (simpl; lia).
  destruct (appended_bindings_hold_main_modifier blank_key blank_button
              user_configuration user_memory) as [Hkeys Hbuttons].
  exact (conj
    (conj Hk (conj Hi (conj eq_refl
       (proj1 (Hkeys Hk 5%nat
                 (mkKey 0 XCB_MOD_MASK_4 XK_minus
                    [mkAction ACTION_MINIMIZE_WINDOW zero_value] 1)
                 Hi eq_refl)))))
    (conj Hb (conj Hj (conj eq_refl
       (proj1 (Hbuttons Hb 1%nat
                 (mkButton 0 XCB_MOD_MASK_4 2
                    [mkAction ACTION_MINIMIZE_WINDOW zero_value] 1)
                 Hj eq_refl)))))).
Defined.

Lemma merge_with_default_button_bindings_empty junk tolerance modifiers ignore
    k mem :
  merge_with_default_button_bindings junk
    (mkConfiguration (mkMouse tolerance modifiers ignore [] 0) k) mem
  = (mkConfiguration
       (mkMouse tolerance modifiers ignore
          ((λ d, mkButton (default_flags d) (effective_modifiers modifiers d)
                   (default_symbol d) [default_action d] 1)
             <$> default_button_bindings) 3) k,
     mem).
Proof.
  rewrite merge_with_default_button_bindings_unfold.
  cbn [mouse keyboard resize_tolerance mouse_modifiers mouse_ignore_modifiers
       buttons number_of_buttons].
  rewrite merged_empty by (by vm_compute).
  cbn [fst snd].
  rewrite copies_no_text, copies_no_text_fmap
    by apply default_button_bindings_no_text.
  reflexivity.
Qed.

Lemma merge_with_default_key_bindings_empty junk modifiers ignore m mem :
  merge_with_default_key_bindings junk
    (mkConfiguration m (mkKeyboard modifiers ignore [] 0)) mem
  = (mkConfiguration m
       (mkKeyboard modifiers ignore
          ((λ d, mkKey (default_flags d) (effective_modifiers modifiers d)
                   (default_symbol d)
                   [if decide (no_text d) then default_action d
                    else mkAction ACTION_RUN
                           (string_value (allocated (fresh (dom mem))))] 1)
             <$> default_key_bindings) 40),
     <[fresh (dom mem) := terminal_command]> mem).
Proof.
  rewrite merge_with_default_key_bindings_unfold.
  cbn [mouse keyboard keyboard_modifiers keyboard_ignore_modifiers keys
       number_of_keys].
  rewrite merged_empty by (by vm_compute).
  cbn [fst snd].
  destruct default_key_bindings_no_text as [Hpre Hpost].
  pose proof (copies_around_text (B:=configuration_key) modifiers _
    terminal_default _ mem Hpre Hpost) as Hcopies.
  rewrite <- default_key_bindings_split in Hcopies.
  rewrite Hcopies, duplicate_action_terminal. cbn [fst snd].
  generalize (fresh (dom mem)). intros a.
  reflexivity.
Qed.

(** X7.  [load_default_configuration] hands to [set_configuration] the
    static configuration with exactly the defaults as bindings: the 3
    button defaults and the 40 key defaults in declaration order, each
    under its modifiers combined with Mod4, with the flags and the symbol
    or index of its declaration and with one action, the template; the
    action of Return points to the one block that is new in the memory,
    which holds the command of the terminal.  No two bindings of a table
    share a trigger. *)
Theorem load_default_configuration_result junk_button junk_key mem :
  load_default_configuration junk_button junk_key mem
  = (mkConfiguration
       (mkMouse 8 XCB_MOD_MASK_4
          (mouse_ignore_modifiers (mouse static_default_configuration))
          ((λ d, mkButton (default_flags d)
                   (Z.lor (default_modifiers d) XCB_MOD_MASK_4)
                   (default_symbol d) [default_action d] 1)
             <$> default_button_bindings) 3)
       (mkKeyboard XCB_MOD_MASK_4
          (keyboard_ignore_modifiers (keyboard static_default_configuration))
          ((λ d, mkKey (default_flags d)
                   (Z.lor (default_modifiers d) XCB_MOD_MASK_4)
                   (default_symbol d)
                   [if decide (no_text d) then default_action d
                    else mkAction ACTION_RUN
                           (string_value (allocated (fresh (dom mem))))] 1)
             <$> default_key_bindings) 40),
     <[fresh (dom mem) := terminal_command]> mem)
  ∧ unique_triggers
      (buttons (mouse (load_default_configuration junk_button junk_key mem).1))
  ∧ unique_triggers
      (keys (keyboard (load_default_configuration junk_button junk_key mem).1)).
Proof.
  assert (load_default_configuration junk_button junk_key mem
    = (mkConfiguration
       (mkMouse 8 XCB_MOD_MASK_4
          (mouse_ignore_modifiers (mouse static_default_configuration))
          ((λ d, mkButton (default_flags d)
                   (effective_modifiers XCB_MOD_MASK_4 d)
                   (default_symbol d) [default_action d] 1)
             <$> default_button_bindings) 3)
       (mkKeyboard XCB_MOD_MASK_4
          (keyboard_ignore_modifiers (keyboard static_default_configuration))
          ((λ d, mkKey (default_flags d)
                   (effective_modifiers XCB_MOD_MASK_4 d)
                   (default_symbol d)
                   [if decide (no_text d) then default_action d
                    else mkAction ACTION_RUN
                           (string_value (allocated (fresh (dom mem))))] 1)
             <$> default_key_bindings) 40),
     <[fresh (dom mem) := terminal_command]> mem)) as Heq.
  { unfold load_default_configuration, static_default_configuration.
    rewrite merge_with_default_button_bindings_empty.
    by rewrite merge_with_default_key_bindings_empty. }
  split_and!.
  - rewrite Heq. generalize (fresh (dom mem)). intros a. reflexivity.
  - rewrite Heq. cbn [fst mouse buttons]. unfold unique_triggers.
    rewrite <- list_fmap_compose.
    apply (default_button_bindings_distinct XCB_MOD_MASK_4).
  - rewrite Heq. cbn [fst keyboard keys]. unfold unique_triggers.
    rewrite <- list_fmap_compose.
    by apply (default_key_bindings_distinct XCB_MOD_MASK_4).
Qed.

(** ** Further facts about the events *)

Lemma run_handle_event_above env g event :
  event_type event >= randr_event_base g →
  run (handle_event event) env g = (g, [query_monitors; merge_monitors]).
Proof.
  intros Hge. unfold run, handle_event, handle_screen_change.
  cbv [mbind handler_bind get emit]. by case_decide.
Qed.

Lemma run_handle_event_below env g event :
  event_type event < randr_event_base g →
  run (handle_event event) env g
  = ((run (core_handler event) env g).1,
     log_event (response_type event) :: (run (core_handler event) env g).2).
Proof.
  intros Hlt. unfold run, handle_event.
  cbv [mbind handler_bind get emit]. case_decide; [lia|].
  change (if decide (event_type event = XCB_MAP_REQUEST) then _ else _)
    with (core_handler event).
  by destruct (core_handler event env g) as [[[] g'] t].
Qed.

Lemma core_handler_cases event :
  (event_type event = XCB_MAP_REQUEST
   ∧ core_handler event = handle_map_request (as_map_request event))
  ∨ (event_type event = XCB_BUTTON_PRESS
     ∧ core_handler event = handle_button_press (as_button_press event))
  ∨ (event_type event = XCB_MOTION_NOTIFY
     ∧ core_handler event = handle_motion_notify (as_motion_notify event))
  ∨ (event_type event = XCB_BUTTON_RELEASE
     ∧ core_handler event = handle_button_release (as_button_release event))
  ∨ (event_type event = XCB_PROPERTY_NOTIFY
     ∧ core_handler event
       = handle_property_notify (as_property_notify event))
  ∨ (event_type event = XCB_UNMAP_NOTIFY
     ∧ core_handler event = handle_unmap_notify (as_unmap_notify event))
  ∨ (event_type event = XCB_DESTROY_NOTIFY
     ∧ core_handler event = handle_destroy_notify (as_destroy_notify event))
  ∨ (event_type event = XCB_CONFIGURE_REQUEST
     ∧ core_handler event
       = handle_configure_request (as_configure_request event))
  ∨ (event_type event = XCB_KEY_PRESS
     ∧ core_handler event = handle_key_press (as_key_press event))
  ∨ ((event_type event ∉ handled_codes) ∧ core_handler event = mret ()).
Proof.
  unfold core_handler. repeat case_decide; try tauto.
  do 9 right. split; [|done]. unfold handled_codes.
  rewrite !not_elem_of_cons. split_and!; try done. apply not_elem_of_nil.
Qed.

Lemma run_handle_map_request env g event :
  run (handle_map_request event) env g
  = (g, match get_window_of_xcb_window env (map_request_window event) with
        | Some _ => []
        | None => [create_window (map_request_window event);
                   set_focus_window (map_request_window event)]
        end).
Proof. unfold_handlers. by destruct (get_window_of_xcb_window _ _). Qed.

Lemma run_handle_button_press env g event :
  run (handle_button_press event) env g
  = match get_window_of_xcb_window env (button_press_child event) with
    | None => (g, [])
    | Some window =>
        if decide (state_current window ≠ WINDOW_STATE_POPUP) then (g, [])
        else
          match xcb_get_geometry_reply env (button_press_child event) with
          | None => (g, [xcb_get_geometry (button_press_child event)])
          | Some _ =>
              (mkGlobals (randr_event_base g)
                 (mkSelected
                    (mkPosition (button_press_root_y event)
                       (button_press_root_y event))
                    (mkPosition (button_press_root_x event)
                       (button_press_root_y event))
                    (button_press_child event))
                 (g_values g) true,
               [xcb_get_geometry (button_press_child event);
                xcb_grab_pointer 0 (button_press_root event)
                  (Z.lor XCB_EVENT_MASK_BUTTON_RELEASE
                     XCB_EVENT_MASK_BUTTON_MOTION)
                  XCB_GRAB_MODE_ASYNC XCB_GRAB_MODE_ASYNC
                  (button_press_root event) XCB_NONE XCB_CURRENT_TIME])
          end
    end.
Proof.
  unfold_handlers.
  destruct (get_window_of_xcb_window _ _) as [window|]; [|done].
  case_decide; [done|].
  by destruct (xcb_get_geometry_reply _ _).
Qed.

Lemma run_handle_property_notify env g event :
  run (handle_property_notify event) env g
  = (g, match get_window_of_xcb_window env (property_notify_window event) with
        | None => [LOG "property change of unmanaged window"
                     (property_notify_window event)]
        | Some window =>
            (if decide (property_notify_atom event = XCB_ATOM_WM_NAME)
             then [update_window_name window]
             else if decide (property_notify_atom event
                             = XCB_ATOM_WM_SIZE_HINTS)
             then [update_window_size_hints window]
             else if decide (property_notify_atom event = XCB_ATOM_WM_HINTS)
             then [update_window_wm_hints window]
             else [])
            ++ [set_window_state window (predict_window_state env window) 0]
        end).
Proof.
  unfold_handlers.
  destruct (get_window_of_xcb_window _ _) as [window|]; [|done].
  by repeat case_decide.
Qed.

Lemma run_handle_unmap_notify env g event :
  run (handle_unmap_notify event) env g
  = (g, match get_window_of_xcb_window env (unmap_notify_window event) with
        | Some window => [set_window_state window WINDOW_STATE_HIDDEN 1]
        | None => []
        end).
Proof. unfold_handlers. by destruct (get_window_of_xcb_window _ _). Qed.

Lemma run_handle_destroy_notify env g event :
  run (handle_destroy_notify event) env g
  = (g, match get_window_of_xcb_window env (destroy_notify_window event) with
        | Some window => [destroy_window window]
        | None => []
        end).
Proof. unfold_handlers. by destruct (get_window_of_xcb_window _ _). Qed.

Lemma run_handle_key_press env g event :
  run (handle_key_press event) env g
  = (g, if decide (get_action_bind env event ≠ ACTION_NULL)
        then [LOG "performing action" (get_action_bind env event);
              do_action (get_action_bind env event)]
        else [LOG "trash key" (key_press_detail event)]).
Proof. unfold_handlers. by case_decide. Qed.

Lemma run_handle_configure_request_tracked env g event window :
  get_window_of_xcb_window env (configure_request_window event) = Some window →
  run (handle_configure_request event) env g = (g, []).
Proof. intros Hw. unfold_handlers. by rewrite Hw. Qed.

Lemma run_handle_motion_notify env g event :
  run (handle_motion_notify event) env g
  = match xcb_get_geometry_reply env (xcb_window (selected_window g)) with
    | None =>
        (mkGlobals (randr_event_base g) (selected_window g) (g_values g) false,
         [xcb_get_geometry (xcb_window (selected_window g));
          xcb_ungrab_pointer XCB_CURRENT_TIME])
    | Some geometry =>
        (mkGlobals (randr_event_base g)
           (mkSelected (start (selected_window g))
              (mkPosition (motion_notify_root_x event)
                 (motion_notify_root_y event))
              (xcb_window (selected_window g)))
           (<[1%nat := to_uint32
                 (geometry_y geometry
                  + (motion_notify_root_y event
                     - position_y (old_mouse (selected_window g))))]>
              (<[0%nat := to_uint32
                    (geometry_x geometry
                     + (motion_notify_root_x event
                        - position_x (old_mouse (selected_window g))))]>
                 (g_values g)))
           (pointer_grab g),
         [xcb_get_geometry (xcb_window (selected_window g));
          xcb_configure_window (xcb_window (selected_window g))
            (Z.lor XCB_CONFIG_WINDOW_X XCB_CONFIG_WINDOW_Y)
            [to_uint32
               (geometry_x geometry
                + (motion_notify_root_x event
                   - position_x (old_mouse (selected_window g))));
             to_uint32
               (geometry_y geometry
                + (motion_notify_root_y event
                   - position_y (old_mouse (selected_window g))))]])
    end.
Proof.
  destruct (xcb_get_geometry_reply env (xcb_window (selected_window g)))
    as [geometry|] eqn:Hreply.
  - by apply run_handle_motion_notify_moved.
  - by apply run_handle_motion_notify_failed.
Qed.

Lemma run_handle_configure_request env g event :
  run (handle_configure_request event) env g
  = match get_window_of_xcb_window env (configure_request_window event) with
    | Some _ => (g, [])
    | None =>
        (mkGlobals (randr_event_base g) (selected_window g)
           (<[4%nat := to_uint32 (configure_request_border_width event)]>
              (<[3%nat := to_uint32 (configure_request_height event)]>
                 (<[2%nat := to_uint32 (configure_request_width event)]>
                    (<[1%nat := to_uint32 (configure_request_y event)]>
                       (<[0%nat := to_uint32 (configure_request_x event)]>
                          (g_values g))))))
           (pointer_grab g),
         [xcb_configure_window (configure_request_window event)
            (Z.lor XCB_CONFIG_SIZE XCB_CONFIG_WINDOW_BORDER_WIDTH)
            [to_uint32 (configure_request_x event);
             to_uint32 (configure_request_y event);
             to_uint32 (configure_request_width event);
             to_uint32 (configure_request_height event);
             to_uint32 (configure_request_border_width event)]])
    end.
Proof.
  destruct (get_window_of_xcb_window env (configure_request_window event))
    as [window|] eqn:Hw.
  - by eapply run_handle_configure_request_tracked.
  - by apply run_handle_configure_request_untracked.
Qed.

Lemma run_mret env g : run (mret ()) env g = (g, []).
Proof. reflexivity. Qed.

Hint Rewrite run_handle_map_request run_handle_button_press
  run_handle_motion_notify run_handle_button_release
  run_handle_property_notify run_handle_unmap_notify
  run_handle_destroy_notify run_handle_configure_request
  run_handle_key_press run_mret : run_handlers.

Lemma event_type_sent event : event_type (sent event) = event_type event.
Proof.
  unfold event_type, sent. simpl. f_equal.
  rewrite Z.land_lor_distr_l. change (Z.land 128 (Z.lnot 128)) with 0.
  apply Z.lor_0_r.
Qed.

Lemma core_handler_sent event : core_handler (sent event) = core_handler event.
Proof. unfold core_handler. by rewrite event_type_sent. Qed.

Lemma event_type_range event : 0 ≤ event_type event < 128.
Proof.
  unfold event_type, to_uint8. rewrite <- Z.land_ones, <- Z.land_assoc by lia.
  change (Z.land (Z.lnot 128) (Z.ones 8)) with (Z.ones 7).
  rewrite Z.land_ones by lia. apply Z.mod_pos_bound. lia.
Qed.

(** X8.  An event that another client has sent, which the server marks
    with the bit 0x80 of the response type, is handled as the event
    itself is: it has the same type, leaves the same globals and causes
    the same calls; below the extension base the one difference is the
    response type that is logged. *)
Theorem sent_events_handled_alike env g event :
  event_type (sent event) = event_type event
  ∧ (event_type event >= randr_event_base g →
     run (handle_event (sent event)) env g = run (handle_event event) env g)
  ∧ (event_type event < randr_event_base g →
     run (handle_event (sent event)) env g
     = ((run (handle_event event) env g).1,
        log_event (Z.lor (response_type event) 0x80)
        :: tail (run (handle_event event) env g).2)).
Proof.
  split_and!.
  - apply event_type_sent.
  - intros Hge. rewrite !run_handle_event_above; [done..|].
    by rewrite event_type_sent.
  - intros Hlt. rewrite !run_handle_event_below; [|done|].
    + by rewrite core_handler_sent.
    + by rewrite event_type_sent.
Qed.

Lemma sent_events_handled_alike_witness :
  ((event_type (pointer_event 132 7 100 200)
    >= randr_event_base (idle_globals 4))
   ∧ run (handle_event (sent (pointer_event 132 7 100 200))) popup_environment
       (idle_globals 4)
     = run (handle_event (pointer_event 132 7 100 200)) popup_environment
         (idle_globals 4))
  ∧ ((event_type (pointer_event XCB_BUTTON_PRESS 7 100 200)
      < randr_event_base (idle_globals 89))
     ∧ (run (handle_event (sent (pointer_event XCB_BUTTON_PRESS 7 100 200)))
          popup_environment (idle_globals 89)).2
       = [log_event 132; xcb_get_geometry 7;
          xcb_grab_pointer 0 1 8200 1 1 1 0 0]).
Proof.
  assert (event_type (pointer_event 132 7 100 200)
          >= randr_event_base (idle_globals 4)) as Hge by by vm_compute.
  assert (event_type (pointer_event XCB_BUTTON_PRESS 7 100 200)
          < randr_event_base (idle_globals 89)) as Hlt by by vm_compute.
  destruct (sent_events_handled_alike popup_environment (idle_globals 4)
              (pointer_event 132 7 100 200)) as (_ & Habove & _).
  destruct (sent_events_handled_alike popup_environment (idle_globals 89)
              (pointer_event XCB_BUTTON_PRESS 7 100 200)) as (_ & _ & Hbelow).
  exact (conj (conj Hge (Habove Hge))
           (conj Hlt (f_equal snd (Hbelow Hlt)))).
Defined.

Lemma core_handler_no_monitors env g event :
  (query_monitors ∉ (run (core_handler event) env g).2)
  ∧ (merge_monitors ∉ (run (core_handler event) env g).2).
Proof.
  core_runs_of (core_handler_cases event); repeat case_match; simpl;
    rewrite ?not_elem_of_cons; split_and!; try done; apply not_elem_of_nil.
Qed.

(** X9.  The type of an event is below 128, whatever its response type.
    While [randr_event_base] is 0, the value it has before it is set,
    every event is taken for a screen change: the outputs are queried
    and merged, no event is logged and no handler of a core event runs.
    With a base of 128 or more no event is taken for a screen change:
    every event is logged first and the outputs are left alone. *)
Theorem extension_base_edges env g event :
  0 ≤ event_type event < 128
  ∧ (randr_event_base g ≤ 0 →
     run (handle_event event) env g = (g, [query_monitors; merge_monitors]))
  ∧ (128 ≤ randr_event_base g →
     head (run (handle_event event) env g).2
     = Some (log_event (response_type event))
     ∧ (query_monitors ∉ (run (handle_event event) env g).2)
     ∧ (merge_monitors ∉ (run (handle_event event) env g).2)).
Proof.
  pose proof (event_type_range event) as Hrange.
  split_and!; [lia..| |].
  - intros Hzero. apply run_handle_event_above. lia.
  - intros Hbase. rewrite run_handle_event_below by lia. simpl.
    destruct (core_handler_no_monitors env g event) as [Hquery Hmerge].
    rewrite !not_elem_of_cons. done.
Qed.

Lemma extension_base_edges_witness :
  (randr_event_base (idle_globals 0) ≤ 0
   ∧ run (handle_event (pointer_event XCB_BUTTON_PRESS 7 100 200))
       popup_environment (idle_globals 0)
     = (idle_globals 0, [query_monitors; merge_monitors]))
  ∧ (128 ≤ randr_event_base (idle_globals 128)
     ∧ head (run (handle_event (pointer_event 255 7 100 200))
               popup_environment (idle_globals 128)).2
       = Some (log_event 255)).
Proof.
  assert (randr_event_base (idle_globals 0) ≤ 0) as Hzero by by vm_compute.
  assert (128 ≤ randr_event_base (idle_globals 128)) as Hbase by by vm_compute.
  destruct (extension_base_edges popup_environment (idle_globals 0)
              (pointer_event XCB_BUTTON_PRESS 7 100 200)) as (_ & Hall & _).
  destruct (extension_base_edges popup_environment (idle_globals 128)
              (pointer_event 255 7 100 200)) as (_ & _ & Hnone).
  exact (conj (conj Hzero (Hall Hzero)) (conj Hbase (proj1 (Hnone Hbase)))).
Defined.

(** X10.  The pointer grab after an event.  A button press takes it when
    the window under the pointer is a tracked popup whose geometry query
    is answered, and leaves it as it is otherwise; a motion event keeps
    it when the geometry query for the remembered window is answered and
    gives it up otherwise; a button release gives it up; every other
    event, and every event at or above the extension base, leaves it as
    it is. *)
Theorem grab_after_event env g event :
  active (run (handle_event event) env g).1
  = if decide (event_type event >= randr_event_base g) then active g
    else if decide (event_type event = XCB_BUTTON_PRESS) then
      active g
      || bool_decide
           (popup_with_geometry env
              (button_press_child (as_button_press event)))
    else if decide (event_type event = XCB_MOTION_NOTIFY) then
      active g
      && bool_decide
           (is_Some
              (xcb_get_geometry_reply env (xcb_window (selected_window g))))
    else if decide (event_type event = XCB_BUTTON_RELEASE) then false
    else active g.
Proof.
  case_decide as Hbase.
  { by rewrite run_handle_event_above. }
  rewrite run_handle_event_below by lia. cbn [fst].
  core_cases_of (core_handler_cases event).
  - repeat (rewrite decide_False by by rewrite Ht).
    by rewrite run_handle_map_request.
  - rewrite decide_True by done.
    destruct (decide (popup_with_geometry env
                (button_press_child (as_button_press event)))) as [Hp|Hp].
    + rewrite (run_handle_button_press_grabbed _ _ _ Hp).
      rewrite bool_decide_eq_true_2 by done. by rewrite orb_true_r.
    + destruct (run_handle_button_press_ignored env g _ Hp) as [-> _].
      rewrite bool_decide_eq_false_2 by done. by rewrite orb_false_r.
  - repeat (rewrite decide_False by by rewrite Ht). rewrite decide_True by done.
    rewrite run_handle_motion_notify.
    destruct (xcb_get_geometry_reply env (xcb_window (selected_window g))).
    + rewrite bool_decide_eq_true_2 by by eexists. by rewrite andb_true_r.
    + rewrite bool_decide_eq_false_2 by by intros [? ?].
      by rewrite andb_false_r.
  - rewrite run_handle_button_release.
    repeat (rewrite decide_False by by rewrite Ht).
    by rewrite decide_True by done.
  - repeat (rewrite decide_False by by rewrite Ht).
    by rewrite run_handle_property_notify.
  - repeat (rewrite decide_False by by rewrite Ht).
    by rewrite run_handle_unmap_notify.
  - repeat (rewrite decide_False by by rewrite Ht).
    by rewrite run_handle_destroy_notify.
  - repeat (rewrite decide_False by by rewrite Ht).
    rewrite run_handle_configure_request. by case_match.
  - repeat (rewrite decide_False by by rewrite Ht).
    by rewrite run_handle_key_press.
  - apply event_type_not_handled in Ht.
    rewrite !decide_False by tauto. done.
Qed.

(** X11.  What an event can change of the globals.  No event changes
    [randr_event_base], nor [g_values] from the index 5 on.  The start
    position and the remembered window change on a button press only,
    the old pointer position on a button press or a motion event only,
    [g_values] on a motion event or a configure request only; every
    event other than a button press, a motion event, a button release
    and a configure request leaves the globals as they are. *)
Theorem globals_after_event env g event :
  randr_event_base (run (handle_event event) env g).1 = randr_event_base g
  ∧ (∀ i, (5 ≤ i)%nat →
       g_values (run (handle_event event) env g).1 i = g_values g i)
  ∧ (event_type event ≠ XCB_BUTTON_PRESS →
     start (selected_window (run (handle_event event) env g).1)
     = start (selected_window g)
     ∧ xcb_window (selected_window (run (handle_event event) env g).1)
       = xcb_window (selected_window g))
  ∧ (event_type event ≠ XCB_BUTTON_PRESS →
     event_type event ≠ XCB_MOTION_NOTIFY →
     selected_window (run (handle_event event) env g).1 = selected_window g)
  ∧ (event_type event ≠ XCB_MOTION_NOTIFY →
     event_type event ≠ XCB_CONFIGURE_REQUEST →
     g_values (run (handle_event event) env g).1 = g_values g)
  ∧ (event_type event ≠ XCB_BUTTON_PRESS →
     event_type event ≠ XCB_MOTION_NOTIFY →
     event_type event ≠ XCB_BUTTON_RELEASE →
     event_type event ≠ XCB_CONFIGURE_REQUEST →
     (run (handle_event event) env g).1 = g).
Proof.
  destruct (decide (event_type event >= randr_event_base g)) as [Hbase|Hbase].
  { by rewrite run_handle_event_above. }
  rewrite run_handle_event_below by lia. cbn [fst].
  core_runs_of (core_handler_cases event); repeat case_match; cbn [fst];
    cbn [randr_event_base selected_window g_values start xcb_window];
    (split_and!; [done|intros i Hi|intros|intros|intros|intros]);
    try done; rewrite ?fn_lookup_insert_ne by lia; done.
Qed.

Lemma globals_after_event_witness :
  (5 ≤ 5)%nat
  ∧ g_values
      (run (handle_event (pointer_event XCB_CONFIGURE_REQUEST 9 100 200))
         popup_environment (idle_globals 89)).1 5%nat
    = 0
  ∧ event_type (pointer_event XCB_MOTION_NOTIFY 7 110 205) ≠ XCB_BUTTON_PRESS
  ∧ start (selected_window
      (run (handle_event (pointer_event XCB_MOTION_NOTIFY 7 110 205))
         popup_environment grabbed_globals).1)
    = mkPosition 200 200.
Proof.
  assert (event_type (pointer_event XCB_MOTION_NOTIFY 7 110 205)
          ≠ XCB_BUTTON_PRESS) as Hmotion by by vm_compute.
  destruct (globals_after_event popup_environment (idle_globals 89)
              (pointer_event XCB_CONFIGURE_REQUEST 9 100 200))
    as (_ & Hvalues & _).
  destruct (globals_after_event popup_environment grabbed_globals
              (pointer_event XCB_MOTION_NOTIFY 7 110 205))
    as (_ & _ & Hstart & _).
  exact (conj (le_n 5) (conj (Hvalues 5%nat (le_n 5))
           (conj Hmotion (proj1 (Hstart Hmotion))))).
Defined.

(** X12.  Which event makes [handle_event] call which part of the window
    manager.  A window is created, and focused, on a map request for an
    untracked window only; a window is destroyed on a destroy
    notification for a tracked window only, and it is that window; an
    action is done on a key press only, and it is the action bound to
    the key, which is not [ACTION_NULL]; the state of a window is set on
    a property notification for a tracked window, to the predicted state
    and not forced, and on an unmap notification for a tracked window,
    to hidden and forced, and on no other event; the name of a window is
    updated on a property notification for [WM_NAME] only; the outputs
    are queried and merged exactly for the events at or above the
    extension base. *)
Theorem window_calls_by_event env g event :
  (∀ w, create_window w ∈ (run (handle_event event) env g).2
     ↔ event_type event < randr_event_base g
       ∧ event_type event = XCB_MAP_REQUEST
       ∧ w = map_request_window (as_map_request event)
       ∧ get_window_of_xcb_window env w = None)
  ∧ (∀ w, set_focus_window w ∈ (run (handle_event event) env g).2
       ↔ create_window w ∈ (run (handle_event event) env g).2)
  ∧ (∀ w, destroy_window w ∈ (run (handle_event event) env g).2
       ↔ event_type event < randr_event_base g
         ∧ event_type event = XCB_DESTROY_NOTIFY
         ∧ get_window_of_xcb_window env
             (destroy_notify_window (as_destroy_notify event)) = Some w)
  ∧ (∀ a, do_action a ∈ (run (handle_event event) env g).2
       ↔ event_type event < randr_event_base g
         ∧ event_type event = XCB_KEY_PRESS
         ∧ a = get_action_bind env (as_key_press event)
         ∧ a ≠ ACTION_NULL)
  ∧ (∀ w s f, set_window_state w s f ∈ (run (handle_event event) env g).2
       ↔ event_type event < randr_event_base g
         ∧ ((event_type event = XCB_PROPERTY_NOTIFY
             ∧ get_window_of_xcb_window env
                 (property_notify_window (as_property_notify event)) = Some w
             ∧ s = predict_window_state env w ∧ f = 0)
            ∨ (event_type event = XCB_UNMAP_NOTIFY
               ∧ get_window_of_xcb_window env
                   (unmap_notify_window (as_unmap_notify event)) = Some w
               ∧ s = WINDOW_STATE_HIDDEN ∧ f = 1)))
  ∧ (∀ w, update_window_name w ∈ (run (handle_event event) env g).2
       ↔ event_type event < randr_event_base g
         ∧ event_type event = XCB_PROPERTY_NOTIFY
         ∧ get_window_of_xcb_window env
             (property_notify_window (as_property_notify event)) = Some w
         ∧ property_notify_atom (as_property_notify event) = XCB_ATOM_WM_NAME)
  ∧ (query_monitors ∈ (run (handle_event event) env g).2
     ↔ event_type event >= randr_event_base g)
  ∧ (merge_monitors ∈ (run (handle_event event) env g).2
     ↔ event_type event >= randr_event_base g).
Proof.
  destruct (decide (event_type event >= randr_event_base g)) as [Hbase|Hbase].
  { rewrite run_handle_event_above by done. cbn [snd].
    split_and!; intros; solve_calls. }
  rewrite run_handle_event_below by lia. cbn [snd].
  core_runs_of (core_handler_cases event); cbn [snd];
    [..|apply event_type_not_handled in Ht];
    (split_and!; intros); rewrite ?Ht.
  all: unfold XCB_MAP_REQUEST, XCB_BUTTON_PRESS, XCB_MOTION_NOTIFY,
    XCB_BUTTON_RELEASE, XCB_PROPERTY_NOTIFY, XCB_UNMAP_NOTIFY,
    XCB_DESTROY_NOTIFY, XCB_CONFIGURE_REQUEST, XCB_KEY_PRESS in *.
  all: solve_calls.
Qed.

Lemma window_calls_by_event_witness :
  create_window 9
    ∈ (run (handle_event (pointer_event XCB_MAP_REQUEST 9 0 0))
         popup_environment (idle_globals 89)).2
  ∧ set_window_state (mkWindow 8 WINDOW_STATE_SHOWN) WINDOW_STATE_HIDDEN 1
      ∈ (run (handle_event (pointer_event XCB_UNMAP_NOTIFY 8 0 0))
           popup_environment (idle_globals 89)).2.
Proof.
  destruct (window_calls_by_event popup_environment (idle_globals 89)
              (pointer_event XCB_MAP_REQUEST 9 0 0)) as (Hcreate & _).
  destruct (window_calls_by_event popup_environment (idle_globals 89)
              (pointer_event XCB_UNMAP_NOTIFY 8 0 0))
    as (_ & _ & _ & _ & Hstate & _).
  split.
  - apply Hcreate. by vm_compute.
  - apply Hstate. split; [by vm_compute|]. right. by vm_compute.
Defined.

(** X13.  Which event makes [handle_event] send which request to the X
    server.  The pointer is grabbed on a button press over a tracked
    popup whose geometry query is answered, and on no other event; it is
    ungrabbed on a button release, and on a motion event when the
    geometry query for the remembered window fails, and on no other
    event; a window is configured on a motion event when that query is
    answered, and on a configure request for an untracked window, and on
    no other event.  One event gives rise to at most one of these
    requests. *)
Theorem requests_by_event env g event :
  (existsb is_grab_pointer (run (handle_event event) env g).2 = true
   ↔ event_type event < randr_event_base g
     ∧ event_type event = XCB_BUTTON_PRESS
     ∧ popup_with_geometry env (button_press_child (as_button_press event)))
  ∧ (existsb is_ungrab_pointer (run (handle_event event) env g).2 = true
     ↔ event_type event < randr_event_base g
       ∧ (event_type event = XCB_BUTTON_RELEASE
          ∨ (event_type event = XCB_MOTION_NOTIFY
             ∧ xcb_get_geometry_reply env (xcb_window (selected_window g))
               = None)))
  ∧ (existsb is_configure_window (run (handle_event event) env g).2 = true
     ↔ event_type event < randr_event_base g
       ∧ ((event_type event = XCB_MOTION_NOTIFY
           ∧ is_Some
               (xcb_get_geometry_reply env (xcb_window (selected_window g))))
          ∨ (event_type event = XCB_CONFIGURE_REQUEST
             ∧ get_window_of_xcb_window env
                 (configure_request_window (as_configure_request event))
               = None)))
  ∧ (length (filter (λ c, is_request c = true)
               (run (handle_event event) env g).2) ≤ 1)%nat.
Proof.
  destruct (decide (event_type event >= randr_event_base g)) as [Hbase|Hbase].
  { rewrite run_handle_event_above by done. cbn [snd].
    split_and!; [solve_requests..|]. vm_compute. lia. }
  rewrite run_handle_event_below by lia. cbn [snd].
  assert (∀ P : Prop, event_type event < randr_event_base g ∧ P ↔ P) as Hlt
    by (intros P; split; [tauto|split; [lia|done]]).
  rewrite !Hlt. clear Hlt.
  core_cases_of (core_handler_cases event); rewrite ?Ht;
    [..|apply event_type_not_handled in Ht];
    unfold XCB_MAP_REQUEST, XCB_BUTTON_PRESS, XCB_MOTION_NOTIFY,
      XCB_BUTTON_RELEASE, XCB_PROPERTY_NOTIFY, XCB_UNMAP_NOTIFY,
      XCB_DESTROY_NOTIFY, XCB_CONFIGURE_REQUEST, XCB_KEY_PRESS in *.
  2: { destruct (decide (popup_with_geometry env
                   (button_press_child (as_button_press event)))) as [Hp|Hp].
       - rewrite (run_handle_button_press_grabbed _ _ _ Hp). cbn [snd].
         split_and!; [solve_requests..|]. simpl. lia.
       - rewrite run_handle_button_press.
         destruct (get_window_of_xcb_window env _) as [window|] eqn:Hwindow;
           [|split_and!; [solve_requests..|simpl; lia]].
         case_decide as Hstate;
           [split_and!; [solve_requests..|simpl; lia]|].
         destruct (xcb_get_geometry_reply env _) as [geometry|] eqn:Hreply;
           [|split_and!; [solve_requests..|simpl; lia]].
         exfalso. apply Hp. exists window, geometry.
         split_and!; [done| |done].
         by destruct (decide (state_current window = WINDOW_STATE_POPUP)). }
  all: autorewrite with run_handlers; split_and!; [solve_requests..|].
  all: repeat (first [case_decide|case_match]); simpl; lia.
Qed.

Lemma core_handler_button_press event :
  event_type event = XCB_BUTTON_PRESS →
  core_handler event = handle_button_press (as_button_press event).
Proof. intros Ht. unfold core_handler. by rewrite Ht. Qed.

Lemma core_handler_motion_notify event :
  event_type event = XCB_MOTION_NOTIFY →
  core_handler event = handle_motion_notify (as_motion_notify event).
Proof. intros Ht. unfold core_handler. by rewrite Ht. Qed.

Lemma handle_events_cons env event events g :
  handle_events ((env, event) :: events) g
  = ((handle_events events (run (handle_event event) env g).1).1,
     (run (handle_event event) env g).2
     ++ (handle_events events (run (handle_event event) env g).1).2).
Proof.
  cbn [handle_events]. destruct (run (handle_event event) env g) as [g1 calls1].
  cbn [fst snd].
  by destruct (handle_events events g1) as [g2 calls2].
Qed.

(** X14.  A drag, event by event.  After a button press that takes the
    grab, each motion event whose geometry query is answered asks the
    server to put the window where the query says it is, moved by what
    the pointer has moved since the event before: the press for the
    first motion event, the first motion event for the second.  So when
    the second query returns the position the first motion event asked
    for, the window has moved as far as the pointer has since the press.
    The start position is the one the press has set, with the vertical
    coordinate in both components, and the grab is still held. *)
Theorem drag_follows_pointer env1 env2 env3 g press motion1 motion2
    geometry1 geometry2 :
  event_type press = XCB_BUTTON_PRESS →
  event_type motion1 = XCB_MOTION_NOTIFY →
  event_type motion2 = XCB_MOTION_NOTIFY →
  XCB_MOTION_NOTIFY < randr_event_base g →
  popup_with_geometry env1 (button_press_child (as_button_press press)) →
  xcb_get_geometry_reply env2 (button_press_child (as_button_press press))
  = Some geometry1 →
  xcb_get_geometry_reply env3 (button_press_child (as_button_press press))
  = Some geometry2 →
  (handle_events [(env1, press); (env2, motion1); (env3, motion2)] g).2
  = [log_event (response_type press);
     xcb_get_geometry (button_press_child (as_button_press press));
     xcb_grab_pointer 0 (button_press_root (as_button_press press))
       (Z.lor XCB_EVENT_MASK_BUTTON_RELEASE XCB_EVENT_MASK_BUTTON_MOTION)
       XCB_GRAB_MODE_ASYNC XCB_GRAB_MODE_ASYNC
       (button_press_root (as_button_press press)) XCB_NONE XCB_CURRENT_TIME;
     log_event (response_type motion1);
     xcb_get_geometry (button_press_child (as_button_press press));
     xcb_configure_window (button_press_child (as_button_press press))
       (Z.lor XCB_CONFIG_WINDOW_X XCB_CONFIG_WINDOW_Y)
       [to_uint32
          (geometry_x geometry1
           + (motion_notify_root_x (as_motion_notify motion1)
              - button_press_root_x (as_button_press press)));
        to_uint32
          (geometry_y geometry1
           + (motion_notify_root_y (as_motion_notify motion1)
              - button_press_root_y (as_button_press press)))];
     log_event (response_type motion2);
     xcb_get_geometry (button_press_child (as_button_press press));
     xcb_configure_window (button_press_child (as_button_press press))
       (Z.lor XCB_CONFIG_WINDOW_X XCB_CONFIG_WINDOW_Y)
       [to_uint32
          (geometry_x geometry2
           + (motion_notify_root_x (as_motion_notify motion2)
              - motion_notify_root_x (as_motion_notify motion1)));
        to_uint32
          (geometry_y geometry2
           + (motion_notify_root_y (as_motion_notify motion2)
              - motion_notify_root_y (as_motion_notify motion1)))]]
  ∧ (geometry_x geometry2
     = geometry_x geometry1
       + (motion_notify_root_x (as_motion_notify motion1)
          - button_press_root_x (as_button_press press)) →
     geometry_x geometry2
     + (motion_notify_root_x (as_motion_notify motion2)
        - motion_notify_root_x (as_motion_notify motion1))
     = geometry_x geometry1
       + (motion_notify_root_x (as_motion_notify motion2)
          - button_press_root_x (as_button_press press)))
  ∧ selected_window
      (handle_events [(env1, press); (env2, motion1); (env3, motion2)] g).1
    = mkSelected
        (mkPosition (button_press_root_y (as_button_press press))
           (button_press_root_y (as_button_press press)))
        (mkPosition (motion_notify_root_x (as_motion_notify motion2))
           (motion_notify_root_y (as_motion_notify motion2)))
        (button_press_child (as_button_press press))
  ∧ active
      (handle_events [(env1, press); (env2, motion1); (env3, motion2)] g).1
    = true.
Proof.
  intros Hpress Hmotion1 Hmotion2 Hbase Hpopup Hreply1 Hreply2.
  assert (XCB_BUTTON_PRESS < XCB_MOTION_NOTIFY) as Hcodes by done.
  rewrite !handle_events_cons.
  rewrite (run_handle_event_below env1 g press) by lia.
  rewrite (core_handler_button_press _ Hpress).
  rewrite (run_handle_button_press_grabbed _ _ _ Hpopup). cbn [fst snd].
  rewrite (run_handle_event_below env2 _ motion1)
    by (cbn [randr_event_base]; lia).
  rewrite (core_handler_motion_notify _ Hmotion1).
  rewrite (run_handle_motion_notify_moved _ _ _ geometry1) by done.
  cbn [fst snd].
  rewrite (run_handle_event_below env3 _ motion2)
    by (cbn [randr_event_base]; lia).
  rewrite (core_handler_motion_notify _ Hmotion2).
  rewrite (run_handle_motion_notify_moved _ _ _ geometry2) by done.
  cbn [fst snd]. split_and!; [done|lia|done|done].
Qed.

Lemma drag_follows_pointer_witness :
  event_type (pointer_event XCB_BUTTON_PRESS 7 100 200) = XCB_BUTTON_PRESS
  ∧ event_type (pointer_event XCB_MOTION_NOTIFY 7 110 205) = XCB_MOTION_NOTIFY
  ∧ event_type (pointer_event XCB_MOTION_NOTIFY 7 130 190) = XCB_MOTION_NOTIFY
  ∧ XCB_MOTION_NOTIFY < randr_event_base (idle_globals 89)
  ∧ popup_with_geometry popup_environment 7
  ∧ xcb_get_geometry_reply popup_environment 7
    = Some (mkGeometry 10 20 300 200)
  ∧ (handle_events
       [(popup_environment, pointer_event XCB_BUTTON_PRESS 7 100 200);
        (popup_environment, pointer_event XCB_MOTION_NOTIFY 7 110 205);
        (popup_environment, pointer_event XCB_MOTION_NOTIFY 7 130 190)]
       (idle_globals 89)).2
    = [log_event 4; xcb_get_geometry 7; xcb_grab_pointer 0 1 8200 1 1 1 0 0;
       log_event 6; xcb_get_geometry 7; xcb_configure_window 7 3 [20; 25];
       log_event 6; xcb_get_geometry 7; xcb_configure_window 7 3 [30; 5]].
Proof.
  assert (XCB_MOTION_NOTIFY < randr_event_base (idle_globals 89)) as Hbase
    by by vm_compute.
  assert (popup_with_geometry popup_environment 7) as Hpopup.
  { by exists (mkWindow 7 WINDOW_STATE_POPUP), (mkGeometry 10 20 300 200). }
  exact (conj eq_refl (conj eq_refl (conj eq_refl (conj Hbase (conj Hpopup
    (conj eq_refl
       (proj1 (drag_follows_pointer popup_environment popup_environment
                 popup_environment (idle_globals 89)
                 (pointer_event XCB_BUTTON_PRESS 7 100 200)
                 (pointer_event XCB_MOTION_NOTIFY 7 110 205)
                 (pointer_event XCB_MOTION_NOTIFY 7 130 190)
                 (mkGeometry 10 20 300 200) (mkGeometry 10 20 300 200)
                 eq_refl eq_refl eq_refl Hbase Hpopup eq_refl eq_refl)))))))).
Defined.

Lemma handle_event_step env g event :
  randr_event_base (run (handle_event event) env g).1 = randr_event_base g
  ∧ (∀ i, (5 ≤ i)%nat →
       g_values (run (handle_event event) env g).1 i = g_values g i)
  ∧ (event_type event ≠ XCB_BUTTON_PRESS →
     start (selected_window (run (handle_event event) env g).1)
     = start (selected_window g)
     ∧ xcb_window (selected_window (run (handle_event event) env g).1)
       = xcb_window (selected_window g))
  ∧ (active (run (handle_event event) env g).1 = true →
     active g = true
     ∨ (event_type event = XCB_BUTTON_PRESS
        ∧ popup_with_geometry env (button_press_child (as_button_press event))))
  ∧ (1 ≤ length (run (handle_event event) env g).2)%nat.
Proof.
  destruct (decide (event_type event >= randr_event_base g)) as [Hbase|Hbase].
  { rewrite run_handle_event_above by done. split_and!; try done.
    - by left.
    - simpl. lia. }
  rewrite run_handle_event_below by lia. cbn [fst snd length].
  split_and!; [| | | |lia].
  - core_runs_of (core_handler_cases event); by repeat case_match.
  - intros i Hi. core_runs_of (core_handler_cases event);
      repeat case_match;
      cbn [fst g_values]; rewrite ?fn_lookup_insert_ne by lia; done.
  - intros Hpress. core_runs_of (core_handler_cases event);
      by repeat case_match.
  - core_cases_of (core_handler_cases event).
    2: { destruct (decide (popup_with_geometry env
                     (button_press_child (as_button_press event)))) as [Hp|Hp].
         - intros _. by right.
         - destruct (run_handle_button_press_ignored env g _ Hp) as [-> _].
           by left. }
    all: autorewrite with run_handlers.
    all: repeat case_match; cbn [fst active pointer_grab]; intros Ha;
      first [by left|done].
Qed.

(** X15.  Invariants of a session.  However many events are handled and
    whatever is answered meanwhile, [randr_event_base] stays what it was
    and [g_values] is untouched from the index 5 on; the start position
    and the remembered window stay what they were as long as no event
    is a button press; the pointer grab is held at the end only if it
    was held at the beginning or some event was a button press over a
    tracked popup whose geometry query was answered; and every event has
    caused at least one call. *)
Theorem session_invariants events g :
  randr_event_base (handle_events events g).1 = randr_event_base g
  ∧ (∀ i, (5 ≤ i)%nat → g_values (handle_events events g).1 i = g_values g i)
  ∧ (Forall (λ e, event_type e.2 ≠ XCB_BUTTON_PRESS) events →
     start (selected_window (handle_events events g).1)
     = start (selected_window g)
     ∧ xcb_window (selected_window (handle_events events g).1)
       = xcb_window (selected_window g))
  ∧ (active (handle_events events g).1 = true →
     active g = true
     ∨ Exists (λ e, event_type e.2 = XCB_BUTTON_PRESS
                    ∧ popup_with_geometry e.1
                        (button_press_child (as_button_press e.2))) events)
  ∧ (length events ≤ length (handle_events events g).2)%nat.
Proof.
  revert g. induction events as [|[env event] events IH]; intros g.
  { split_and!; try done. by left. }
  rewrite handle_events_cons. cbn [fst snd].
  destruct (handle_event_step env g event)
    as (Hbase & Hvalues & Hstart & Hactive & Hcalls).
  destruct (IH (run (handle_event event) env g).1)
    as (IHbase & IHvalues & IHstart & IHactive & IHcalls).
  split_and!.
  - by rewrite IHbase.
  - intros i Hi. by rewrite IHvalues, Hvalues.
  - intros [Hpress Hrest]%Forall_cons.
    destruct (IHstart Hrest) as [-> ->]. by apply Hstart.
  - intros Ha. destruct (IHactive Ha) as [Hbefore|Hlater].
    + destruct (Hactive Hbefore) as [?|Hnow]; [by left|].
      right. by apply Exists_cons_hd.
    + right. by apply Exists_cons_tl.
  - rewrite length_app. simpl. lia.
Qed.

Lemma session_invariants_witness :
  Forall (λ e, event_type e.2 ≠ XCB_BUTTON_PRESS)
    [(popup_environment, pointer_event XCB_MOTION_NOTIFY 7 110 205);
     (popup_environment, pointer_event XCB_BUTTON_RELEASE 7 110 205)]
  ∧ start (selected_window
      (handle_events
         [(popup_environment, pointer_event XCB_MOTION_NOTIFY 7 110 205);
          (popup_environment, pointer_event XCB_BUTTON_RELEASE 7 110 205)]
         grabbed_globals).1)
    = mkPosition 200 200.
Proof.
  assert (Forall (λ e, event_type e.2 ≠ XCB_BUTTON_PRESS)
    [(popup_environment, pointer_event XCB_MOTION_NOTIFY 7 110 205);
     (popup_environment, pointer_event XCB_BUTTON_RELEASE 7 110 205)])
    as Hnone by (repeat constructor; by vm_compute).
  destruct (session_invariants
    [(popup_environment, pointer_event XCB_MOTION_NOTIFY 7 110 205);
     (popup_environment, pointer_event XCB_BUTTON_RELEASE 7 110 205)]
    grabbed_globals) as (_ & _ & Hstart & _).
  exact (conj Hnone (proj1 (Hstart Hnone))).
Defined.
